(** * online_shop: candidate space generator and purchase order optimizer

    A shallow embedding of [src/python/productcreator.py],
    [src/python/config_models.py] and [src/python/spcplan.py], and of the
    conversion and ranking steps of [src/python/batch_optimizer.py] and
    [src/python/filtered_optimizer.py].

    Numbers.  Python [int] values are [Z].  Where an outcome turns on the
    rounding of float arithmetic -- the range loops with [current += step]
    and [round(current, 2)], the variable bounds with [int] of a float
    product -- Python [float] values are IEEE binary64 floats ([PrimFloat]):
    the modules [Py64], [productcreator64] and [spcplan64].  The filter, the
    pricing and demand tables, the objective, the constraints and the
    extraction of results are stated over exact rationals ([Q]); the sample
    inputs they are evaluated on are dyadic rationals or small integers,
    which a binary float represents exactly.

    Effects.  A Python call either returns or raises; [outcome] records which.
    A [while] loop is run on fuel: [None] means the fuel ran out before the
    loop condition became false.  Calls into the OR-Tools solver go through the
    [Solver] interface, whose operations may raise. *)

From Stdlib Require Import ZArith QArith Qround Qabs Lia Lqa List Bool String.
From Stdlib Require Import Decimal DecimalString DecimalN.
From Stdlib Require Floats.
From stdpp Require Import base option gmap strings list.

Set Default Proof Using "Type".

(** ** Exceptions and outcomes *)

(** The two branches of the exception hierarchy that [except Exception]
    tells apart: instances of [Exception] (carrying [str(e)]), and
    [KeyboardInterrupt], which derives from [BaseException] only. *)
Inductive exn : Type :=
| Exception (msg : string)
| KeyboardInterrupt.

Inductive outcome (A : Type) : Type :=
| Ret (a : A)
| Raise (e : exn).
Arguments Ret {A} a.
Arguments Raise {A} e.

Definition obind {A B} (o : outcome A) (k : A -> outcome B) : outcome B :=
  match o with
  | Ret a => k a
  | Raise e => Raise e
  end.

Declare Scope outcome_scope.
Delimit Scope outcome_scope with outcome.
Notation "'let?' x := c 'in' k" := (obind c (fun x => k))
  (at level 10, x pattern, c at level 100, k at level 200) : outcome_scope.

(** ** Python arithmetic on rationals *)

Module Py.
Local Open Scope Q_scope.

Definition lt (a b : Q) : bool := negb (Qle_bool b a).
Definition le (a b : Q) : bool := Qle_bool a b.
Definition gt (a b : Q) : bool := lt b a.
Definition ge (a b : Q) : bool := le b a.

(** [a / b]: [ZeroDivisionError] on a zero divisor. *)
Definition div (a b : Q) : outcome Q :=
  if Qeq_bool b 0 then Raise (Exception "float division by zero")
  else Ret (a / b).

(** [x ** n] for an [int] exponent. *)
Definition pow (x : Q) (n : Z) : outcome Q :=
  if (n <? 0)%Z && Qeq_bool x 0
  then Raise (Exception "0.0 cannot be raised to a negative power")
  else Ret (Qpower x n).

(** [int(x)]: truncation toward zero. *)
Definition int (x : Q) : Z := Z.quot (Qnum x) (Z.pos (Qden x)).

(** Nearest integer, ties to the even neighbour. *)
Definition round_half_even (x : Q) : Z :=
  let f := Qfloor x in
  match Qcompare (x - inject_Z f) (1 # 2) with
  | Lt => f
  | Gt => (f + 1)%Z
  | Eq => if Z.even f then f else (f + 1)%Z
  end.

(** [round(x, 2)]. *)
Definition round2 (x : Q) : Q := Qred (round_half_even (x * 100) # 100).

(** [max(a, b)] and [min(a, b)] return the first argument unless the
    second is strictly larger (smaller). *)
Definition max (a b : Q) : Q := if lt a b then b else a.
Definition min (a b : Q) : Q := if lt b a then b else a.
End Py.

(** ** Loops *)

(** [for x in l: body], threading the loop's state and stopping at the
    first exception. *)
Fixpoint for_each {A St : Type} (l : list A) (body : A -> St -> outcome St)
  (st : St) : outcome St :=
  match l with
  | [] => Ret st
  | x :: l' => obind (body x st) (for_each l' body)
  end.

(** ** config_models.py *)

Module config_models.
Record MarkupTier := {
  min_cost : Q;
  max_cost : Q;
  markup_multiplier : Q }.

Record DemandTier := {
  min_price : Q;
  max_price : Q;
  base_demand_monthly : Q;
  demand_multiplier : Q;
  max_demand_monthly : Q }.

(** The two tables the generator reads. *)
Record AppConfig := {
  markup_tiers : list MarkupTier;
  demand_tiers : list DemandTier }.
End config_models.

(** ** productcreator.py *)

Module productcreator.
Import config_models.

Section Ranges.
Local Open Scope Q_scope.

(** The loop shared, statement for statement, by the four generators:
<<
    while current <= max: acc.append(round(current, 2)); current += step
>>
    Here the loop runs on exact numbers and feeds the enumeration below,
    whose properties hold of whatever ranges the loops return; the loop on
    floats, with the rounding of [current += step], is
    [productcreator64.range_while]. *)
Fixpoint range_while (fuel : nat) (max step current : Q) (acc : list Q)
  : option (list Q) :=
  match fuel with
  | O => None
  | S fuel' =>
      if Py.le current max
      then range_while fuel' max step (current + step)
                       (acc ++ [Py.round2 current])
      else Some acc
  end.

Definition generate_price_range (fuel : nat) (min_price max_price step : Q) :=
  range_while fuel max_price step min_price [].

Definition generate_weight_range (fuel : nat) (min_weight max_weight step : Q) :=
  range_while fuel max_weight step min_weight [].

Definition generate_size_range (fuel : nat) (min_size max_size step : Q) :=
  range_while fuel max_size step min_size [].

Definition generate_shipping_costs (fuel : nat) (freight_min freight_max freight_step : Q) :=
  range_while fuel freight_max freight_step freight_min [].

End Ranges.

Section Generator.
Local Open Scope Q_scope.
Local Open Scope outcome_scope.

Record GenerationParams := {
  price_min : Q; price_max : Q; price_step : Q;
  weight_min : Q; weight_max : Q; weight_step : Q;
  size_min : Q; size_max : Q; size_step : Q;
  freight_min : Q; freight_max : Q; freight_step : Q;
  density_min : Q; density_max : Q;
  max_candidates : option Z }.

(** [weight_kg / volume_liters if volume_liters > 0 else 0] *)
Definition density (weight_kg volume_liters : Q) : outcome Q :=
  if Py.gt volume_liters 0 then Py.div weight_kg volume_liters else Ret 0.

(** [price / weight_kg if weight_kg > 0 else 0] *)
Definition value_per_kg (price weight_kg : Q) : outcome Q :=
  if Py.gt weight_kg 0 then Py.div price weight_kg else Ret 0.

(** The parameter named [weight_kg] receives grams and is rebound to
    kilograms on the first line. *)
Definition is_realistic_combination
  (price weight_kg size_cm3 density_min density_max : Q) : outcome bool :=
  let weight_kg := weight_kg / 1000 in
  let volume_liters := size_cm3 / 1000 in
  let? density := density weight_kg volume_liters in
  if Py.lt density density_min || Py.gt density density_max then Ret false else
  let? value_per_kg := value_per_kg price weight_kg in
  if Py.lt price 10 && Py.gt weight_kg 5 then Ret false else
  if Py.lt price 5 && Py.gt size_cm3 10000 then Ret false else
  if (Py.le 100 price && Py.le price 1000) && Py.lt value_per_kg 10
  then Ret false else
  if Py.ge price 1000 && Py.lt value_per_kg 50 then Ret false else
  if Py.ge price 1000 && Py.gt size_cm3 30000 then Ret false else
  if Py.gt size_cm3 20000 && Py.lt weight_kg (1 # 2) then Ret false else
  if Py.gt weight_kg 10 && Py.lt size_cm3 1000 && Py.lt price 100
  then Ret false else
  Ret true.

(** [markup_tiers[-1]] raises [IndexError] on an empty table. *)
Definition estimate_retail_price (wholesale : Q) (app_config : AppConfig)
  : outcome Q :=
  match find (fun tier => Py.le (min_cost tier) wholesale
                          && Py.lt wholesale (max_cost tier))
             (markup_tiers app_config) with
  | Some tier => Ret (wholesale * markup_multiplier tier)
  | None =>
      match last (markup_tiers app_config) with
      | Some tier => Ret (wholesale * markup_multiplier tier)
      | None => Raise (Exception "list index out of range")
      end
  end.

Definition get_demand_tier (price : Q) (app_config : AppConfig)
  : option DemandTier :=
  find (fun tier => Py.le (min_price tier) price
                    && Py.lt price (max_price tier))
       (demand_tiers app_config).

Definition estimate_base_demand
  (wholesale size_cm3 weight_kg : Q) (app_config : AppConfig) : Q :=
  let weight_kg := weight_kg / 1000 in
  match get_demand_tier wholesale app_config with
  | None => 5
  | Some tier =>
      let base := base_demand_monthly tier in
      let base := base * demand_multiplier tier in
      let base := if Py.gt size_cm3 20000 then base * (1 # 2) else base in
      let base := if Py.gt weight_kg 20 then base * (7 # 10) else base in
      let max_demand := max_demand_monthly tier in
      Py.min (Py.max 1 base) max_demand
  end.

Record ProductCandidate := {
  wholesale_price : Q;
  retail_price : Q;
  weight_g : Q;
  size_cm3 : Q;
  shipping_cost_multiplier : Q;
  base_demand : Q }.

(** [list.sort(key=..., reverse=True)]: descending and stable. *)
Fixpoint insert_desc {A} (key : A -> Q) (x : A) (l : list A) : list A :=
  match l with
  | [] => [x]
  | y :: l' => if Py.lt (key x) (key y) then y :: insert_desc key x l'
               else x :: l
  end.

Definition sort_desc {A} (key : A -> Q) (l : list A) : list A :=
  foldr (insert_desc key) [] l.

(** [l[:n]], where a negative [n] counts from the end. *)
Definition slice_to {A} (n : Z) (l : list A) : list A :=
  if (0 <=? n)%Z then take (Z.to_nat n) l
  else take (Z.to_nat (Z.of_nat (length l) + n)) l.

Definition profit_potential (c : ProductCandidate) : Q :=
  (retail_price c - wholesale_price c) * base_demand c.

(** The innermost loop body. *)
Definition candidate_step (params : GenerationParams) (app_config : AppConfig)
  (price weight size shipping_mult : Q) (candidates : list ProductCandidate)
  : outcome (list ProductCandidate) :=
  let? realistic :=
    is_realistic_combination price weight size
      (density_min params) (density_max params) in
  if negb realistic then Ret candidates else
  let? retail_price := estimate_retail_price price app_config in
  let base_demand := estimate_base_demand price size weight app_config in
  Ret (candidates ++ [ {| wholesale_price := price;
                          retail_price := retail_price;
                          weight_g := weight;
                          size_cm3 := size;
                          shipping_cost_multiplier := shipping_mult;
                          base_demand := base_demand |} ]).

(** [if params.max_candidates and len(candidates) > params.max_candidates] *)
Definition apply_max_candidates (params : GenerationParams)
  (candidates : list ProductCandidate) : list ProductCandidate :=
  match max_candidates params with
  | Some n =>
      if negb (n =? 0)%Z && (n <? Z.of_nat (length candidates))%Z
      then slice_to n (sort_desc profit_potential candidates)
      else candidates
  | None => candidates
  end.

Definition generate_all_product_candidates (fuel : nat)
  (params : GenerationParams) (app_config : AppConfig)
  : option (outcome (list ProductCandidate)) :=
  prices ← generate_price_range fuel
    (price_min params) (price_max params) (price_step params);
  weights ← generate_weight_range fuel
    (weight_min params) (weight_max params) (weight_step params);
  sizes ← generate_size_range fuel
    (size_min params) (size_max params) (size_step params);
  shipping_costs ← generate_shipping_costs fuel
    (freight_min params) (freight_max params) (freight_step params);
  Some (
    let? candidates :=
      for_each prices (fun price =>
        for_each weights (fun weight =>
          for_each sizes (fun size =>
            for_each shipping_costs (fun shipping_mult =>
              candidate_step params app_config
                             price weight size shipping_mult)))) [] in
    Ret (apply_max_candidates params candidates)).

(** Loop invariant of the enumeration: every candidate carries the
    demand estimated from its own price, size and weight. *)
Definition demand_estimated (app_config : AppConfig)
  (candidates : list ProductCandidate) : Prop :=
  Forall (fun c => base_demand c
                   = estimate_base_demand (wholesale_price c) (size_cm3 c)
                                          (weight_g c) app_config)
         candidates.
End Generator.
End productcreator.

(** ** The solver interface (ortools.linear_solver.pywraplp) *)

Module pywraplp.

(** Variable names [f'q_{product.id}_m{month}'] and the four families of
    constraint names, kept structured. *)
Inductive var_name : Type :=
| q_ (product_id : string) (month : Z).

Inductive constraint_name : Type :=
| budget_m (month : Z)
| warehouse_capacity
| shipping_weight_m (month : Z)
| shipping_volume_m (month : Z).

(** A linear expression over variables of type [V]: the sum of its
    coefficient-variable terms. *)
Definition linexpr (V : Type) : Type := list (Q * V).

(** [coef * var] *)
Definition term {V} (coef : Q) (v : V) : linexpr V := [(coef, v)].

(** [coef * expr] *)
Definition scale {V} (coef : Q) (e : linexpr V) : linexpr V :=
  map (fun t => (coef * fst t, snd t)%Q) e.

(** [-expr] *)
Definition neg {V} (e : linexpr V) : linexpr V := scale (-1)%Q e.

(** [sum(exprs)] *)
Definition sum {V} (es : list (linexpr V)) : linexpr V := concat es.

(** [expr <= bound], named. *)
Record constraint (V : Type) : Type := {
  c_expr : linexpr V;
  c_bound : Q;
  c_name : constraint_name }.
Arguments c_expr {V} c.
Arguments c_bound {V} c.
Arguments c_name {V} c.

(** Value of an expression under an assignment of the variables. *)
Definition eval {V} (value : V -> Q) (e : linexpr V) : Q :=
  foldr (fun t acc => (fst t * value (snd t) + acc)%Q) 0%Q e.

(** [Solver.OPTIMAL] and [Solver.FEASIBLE]. *)
Definition OPTIMAL : Z := 0.
Definition FEASIBLE : Z := 1.

(** What the optimizer asks of a solver object of type [S] with variable
    handles of type [V].  [CreateSolver] returns [None] for an engine that
    is not available; every other call may raise. *)
Class Solver (S V : Type) : Type := {
  CreateSolver : string -> option S;
  IntVar : S -> Z -> Z -> var_name -> outcome (V * S);
  Maximize : S -> linexpr V -> outcome S;
  Add : S -> constraint V -> outcome S;
  Solve : S -> outcome (Z * S);
  solution_value : S -> V -> outcome Q;
  Objective_Value : S -> outcome Q }.

(** *** A solver that records the model it is given *)

Record var_decl : Type := {
  var_lb : Z;
  var_ub : Z;
  var_label : var_name }.

Record model : Type := {
  model_vars : list var_decl;
  model_objective : option (linexpr nat);
  model_constraints : list (constraint nat) }.

Definition empty_model : model :=
  {| model_vars := []; model_objective := None; model_constraints := [] |}.

(** What an engine answers on a model: a result status, a value for every
    variable and the objective's value. *)
Record answer : Type := {
  answer_status : Z;
  answer_value : nat -> Q;
  answer_objective : Q }.

(** Variables are handed out as their index in [model_vars]. *)
#[export] Instance recorder (engine : model -> answer) : Solver model nat := {
  CreateSolver _ := Some empty_model;
  IntVar s lb ub name :=
    Ret (length (model_vars s),
         {| model_vars := model_vars s
                          ++ [{| var_lb := lb; var_ub := ub; var_label := name |}];
            model_objective := model_objective s;
            model_constraints := model_constraints s |});
  Maximize s e :=
    Ret {| model_vars := model_vars s;
           model_objective := Some e;
           model_constraints := model_constraints s |};
  Add s c :=
    Ret {| model_vars := model_vars s;
           model_objective := model_objective s;
           model_constraints := model_constraints s ++ [c] |};
  Solve s := Ret (answer_status (engine s), s);
  solution_value s v := Ret (answer_value (engine s) v);
  Objective_Value s := Ret (answer_objective (engine s)) }.

(** The engine that answers OPTIMAL with every variable at [value]. *)
Definition constant_engine (value objective : Q) (m : model) : answer :=
  {| answer_status := OPTIMAL;
     answer_value := fun _ => value;
     answer_objective := objective |}.

(** The recorder with a [Solve] that raises [e]. *)
Definition failing_solve (e : exn) : Solver model nat := {|
  CreateSolver := fun _ => Some empty_model;
  IntVar := IntVar (Solver := recorder (constant_engine 0 0));
  Maximize := Maximize (Solver := recorder (constant_engine 0 0));
  Add := Add (Solver := recorder (constant_engine 0 0));
  Solve := fun _ => Raise e;
  solution_value := fun _ _ => Ret 0%Q;
  Objective_Value := fun _ => Ret 0%Q |}.

(** No engine by any name. *)
Definition no_engine : Solver model nat := {|
  CreateSolver := fun _ => None;
  IntVar := fun s _ _ _ => Raise (Exception "no solver");
  Maximize := fun _ _ => Raise (Exception "no solver");
  Add := fun _ _ => Raise (Exception "no solver");
  Solve := fun _ => Raise (Exception "no solver");
  solution_value := fun _ _ => Raise (Exception "no solver");
  Objective_Value := fun _ => Raise (Exception "no solver") |}.
End pywraplp.

(** ** spcplan.py *)

Module spcplan.
Import pywraplp.

Section Configuration.
Local Open Scope Q_scope.
Local Open Scope outcome_scope.

Record SeasonalFactors := {
  factors : gmap Z Q }.

(** The [default_factory] of [SeasonalFactors.factors]. *)
Definition default_factors : gmap Z Q :=
  list_to_map
    [ (1%Z, 4 # 5); (2%Z, 7 # 10); (3%Z, 9 # 10); (4%Z, 19 # 20);
      (5%Z, 1); (6%Z, 1); (7%Z, 21 # 20); (8%Z, 11 # 10);
      (9%Z, 23 # 20); (10%Z, 13 # 10); (11%Z, 3 # 2); (12%Z, 8 # 5) ].

(** [self.factors.get(month, 1.0)] *)
Definition get (self : SeasonalFactors) (month : Z) : Q :=
  default 1 (factors self !! month).

Record DemandForecast := {
  base_demand : Q;
  seasonal_factors : SeasonalFactors;
  trend_factor : Q;
  demand_buffer : Q }.

Definition forecast_month (self : DemandForecast) (month : Z) : outcome Q :=
  let seasonal := get (seasonal_factors self) month in
  let? trend := Py.pow (trend_factor self) (month - 1) in
  Ret (base_demand self * seasonal * trend).

Record Product := {
  id : string;
  name : string;
  wholesale_price : Q;
  retail_price : Q;
  size_cm3 : Q;
  weight_g : Q;
  category : string;
  demand_forecast : DemandForecast;
  bulk_discount_threshold : Z;
  bulk_discount_rate : Q }.

Definition margin (self : Product) : Q :=
  retail_price self - wholesale_price self.

(** [ShippingOption.name] is [shipping_name] here, [Product] having taken
    [name]. *)
Record ShippingOption := {
  shipping_name : string;
  cost_per_kg : Q;
  cost_per_m3 : Q;
  max_weight_kg : Q;
  max_volume_m3 : Q;
  crosses_border : bool;
  customs_duty_rate : Q;
  days_transit : Z }.

(** [OptimizerConfig.seasonal_factors] is [seasonal_override] here. *)
Record OptimizerConfig := {
  planning_months : Z;
  budget_per_month : Q;
  warehouse_capacity_m3 : Q;
  shipping : ShippingOption;
  solver_time_limit_seconds : Z;
  solver_type : string;
  demand_multiplier : Q;
  seasonal_override : option (gmap Z Q) }.

(** [range(start, stop)] *)
Definition range (start stop : Z) : list Z := seqZ start (stop - start).

(** [p.weight_g / 1000.0] and [p.size_cm3 / 1_000_000.0] *)
Definition weight_kg (p : Product) : Q := weight_g p / 1000.
Definition volume_m3 (p : Product) : Q := size_cm3 p / 1000000.
End Configuration.

(** *** Results *)

Section Results.
Local Open Scope Q_scope.

Inductive status := OPTIMAL | FEASIBLE | INFEASIBLE | ERROR.

(** The value stored at [purchase_orders[month][product.id]]. *)
Record order := {
  order_name : string;
  order_quantity : Z;
  order_unit_wholesale : Q;
  order_total_cost : Q;
  order_unit_retail : Q;
  order_total_revenue : Q;
  order_margin : Q;
  order_weight_kg : Q;
  order_volume_m3 : Q }.

(** The value stored at [monthly_breakdown[month]]. *)
Record month_summary := {
  month_product_cost : Q;
  month_product_revenue : Q;
  month_gross_margin : Q;
  month_weight_shipping : Q;
  month_volume_shipping : Q;
  month_customs_duty : Q;
  month_total_costs : Q;
  month_net_profit : Q;
  month_weight_kg : Q;
  month_volume_m3 : Q;
  month_items_ordered : nat }.

(** The value stored at [product_totals[product.id]]. *)
Record product_total := {
  total_name : string;
  total_quantity : Z;
  total_cost : Q;
  total_revenue : Q;
  total_margin : Q }.

(** The dictionary [_extract_results] returns. *)
Record report := {
  results_status : status;
  objective_value : Q;
  purchase_orders : gmap Z (gmap string order);
  monthly_breakdown : gmap Z month_summary;
  product_totals : gmap string product_total }.

(** What [optimize] returns: the dictionary above, or
    [{'status': 'ERROR', 'message': message}]. *)
Inductive result :=
| Results (r : report)
| Error (message : string).

Definition status_of (r : result) : status :=
  match r with
  | Results r => results_status r
  | Error _ => ERROR
  end.

(** [status in ['OPTIMAL', 'FEASIBLE']] *)
Definition solved (s : status) : bool :=
  match s with
  | OPTIMAL | FEASIBLE => true
  | _ => false
  end.

(** The order written for [qty] units of [product]. *)
Definition order_of (product : Product) (qty : Z) : order :=
  let cost := wholesale_price product * inject_Z qty in
  let revenue := retail_price product * inject_Z qty in
  let weight := weight_kg product * inject_Z qty in
  let volume := volume_m3 product * inject_Z qty in
  {| order_name := name product;
     order_quantity := qty;
     order_unit_wholesale := wholesale_price product;
     order_total_cost := cost;
     order_unit_retail := retail_price product;
     order_total_revenue := revenue;
     order_margin := revenue - cost;
     order_weight_kg := weight;
     order_volume_m3 := volume |}.
End Results.

(** *** The optimizer *)

(** [[f(x) for x in l]], stopping at the first exception. *)
Fixpoint map_outcome {A B : Type} (f : A -> outcome B) (l : list A)
  : outcome (list B) :=
  match l with
  | [] => Ret []
  | x :: l' =>
      obind (f x) (fun y => obind (map_outcome f l') (fun ys => Ret (y :: ys)))
  end.

Section Optimizer.
Context {S V : Type} `{!Solver S V}.
Local Open Scope Q_scope.
Local Open Scope outcome_scope.

Record PurchaseOrderOptimizer := {
  config : OptimizerConfig;
  solver : option S;
  variables : gmap string (gmap Z V) }.

Definition __init__ (config : OptimizerConfig) : PurchaseOrderOptimizer :=
  {| config := config; solver := None; variables := ∅ |}.

(** [self.solver = s] and [self.variables = vars] *)
Definition set_solver (self : PurchaseOrderOptimizer) (s : S) :=
  {| config := config self; solver := Some s; variables := variables self |}.

Definition set_variables (self : PurchaseOrderOptimizer)
  (vars : gmap string (gmap Z V)) :=
  {| config := config self; solver := solver self; variables := vars |}.

(** [self.solver.<method>]: an attribute error while [self.solver] is
    [None]. *)
Definition the_solver (self : PurchaseOrderOptimizer) : outcome S :=
  match solver self with
  | Some s => Ret s
  | None => Raise (Exception "'NoneType' object has no attribute")
  end.

(** [self.variables[product_id][month]] *)
Definition variable (self : PurchaseOrderOptimizer)
  (product_id : string) (month : Z) : outcome V :=
  match variables self !! product_id with
  | None => Raise (Exception "KeyError")
  | Some by_month =>
      match by_month !! month with
      | None => Raise (Exception "KeyError")
      | Some v => Ret v
      end
  end.

(** [range(1, self.config.planning_months + 1)] *)
Definition months (self : PurchaseOrderOptimizer) : list Z :=
  range 1 (planning_months (config self) + 1).

(** The body of the inner loop of [_create_variables].  Here the bound is
    taken of exact numbers, for the objective, the constraints and the
    extraction below, none of which reads it; the bound the float product
    gives, and the call where [int] refuses that product, are
    [spcplan64.declare_variable]. *)
Definition declare_variable (product : Product) (month : Z)
  (self : PurchaseOrderOptimizer) : outcome PurchaseOrderOptimizer :=
  let? forecast := forecast_month (demand_forecast product) month in
  let forecast_adjusted := forecast * demand_multiplier (config self) in
  let max_qty :=
    Py.int (forecast_adjusted * demand_buffer (demand_forecast product)) in
  let? s := the_solver self in
  let? created := IntVar s 0 max_qty (q_ (id product) month) in
  match variables self !! id product with
  | None => Raise (Exception "KeyError")
  | Some by_month =>
      Ret (set_solver
             (set_variables self
                (<[id product := <[month := fst created]> by_month]>
                   (variables self)))
             (snd created))
  end.

Definition _create_variables (self : PurchaseOrderOptimizer)
  (products : list Product) : outcome PurchaseOrderOptimizer :=
  let self := set_variables self ∅ in
  for_each products (fun product self =>
    let self := set_variables self (<[id product := ∅]> (variables self)) in
    for_each (months self) (declare_variable product) self) self.

(** [sum(coef(p) * self.variables[p.id][month] for p in products)] *)
Definition weighted_sum (self : PurchaseOrderOptimizer) (coef : Product -> Q)
  (month : Z) (products : list Product) : outcome (linexpr V) :=
  let? terms :=
    map_outcome (fun p => let? v := variable self (id p) month in
                          Ret (term (coef p) v)) products in
  Ret (sum terms).

Definition _create_objective (self : PurchaseOrderOptimizer)
  (products : list Product) : outcome PurchaseOrderOptimizer :=
  let? objective_terms :=
    for_each (months self) (fun month objective_terms =>
      let? objective_terms :=
        for_each products (fun product objective_terms =>
          let? v := variable self (id product) month in
          let margin_term := term (margin product) v in
          Ret (objective_terms ++ [margin_term])) objective_terms in
      let? total_weight_kg := weighted_sum self weight_kg month products in
      let weight_shipping :=
        scale (cost_per_kg (shipping (config self))) total_weight_kg in
      let objective_terms := objective_terms ++ [neg weight_shipping] in
      let? total_volume_m3 := weighted_sum self volume_m3 month products in
      let volume_shipping :=
        scale (cost_per_m3 (shipping (config self))) total_volume_m3 in
      let objective_terms := objective_terms ++ [neg volume_shipping] in
      if crosses_border (shipping (config self)) then
        let? total_wholesale :=
          weighted_sum self wholesale_price month products in
        let customs :=
          scale (customs_duty_rate (shipping (config self))) total_wholesale in
        Ret (objective_terms ++ [neg customs])
      else Ret objective_terms) [] in
  let? s := the_solver self in
  let? s := Maximize s (sum objective_terms) in
  Ret (set_solver self s).

(** [self.solver.Add(expr <= bound, name)] *)
Definition add_constraint (self : PurchaseOrderOptimizer)
  (expr : linexpr V) (bound : Q) (name : constraint_name)
  : outcome PurchaseOrderOptimizer :=
  let? s := the_solver self in
  let? s := Add s {| c_expr := expr; c_bound := bound; c_name := name |} in
  Ret (set_solver self s).

Definition _create_constraints (self : PurchaseOrderOptimizer)
  (products : list Product) : outcome PurchaseOrderOptimizer :=
  let? self :=
    for_each (months self) (fun month self =>
      let? budget_used := weighted_sum self wholesale_price month products in
      add_constraint self budget_used (budget_per_month (config self))
                     (budget_m month)) self in
  let? per_product :=
    map_outcome (fun p =>
      let? terms :=
        map_outcome (fun month => let? v := variable self (id p) month in
                                  Ret (term (volume_m3 p) v)) (months self) in
      Ret (sum terms)) products in
  let total_volume := sum per_product in
  let? self :=
    add_constraint self total_volume (warehouse_capacity_m3 (config self))
                   warehouse_capacity in
  let? self :=
    for_each (months self) (fun month self =>
      let? total_weight := weighted_sum self weight_kg month products in
      add_constraint self total_weight (max_weight_kg (shipping (config self)))
                     (shipping_weight_m month)) self in
  for_each (months self) (fun month self =>
    let? total_volume := weighted_sum self volume_m3 month products in
    add_constraint self total_volume (max_volume_m3 (shipping (config self)))
                   (shipping_volume_m month)) self.

(** The four running sums of one month. *)
Record month_sums := {
  month_cost : Q;
  month_revenue : Q;
  month_weight : Q;
  month_volume : Q }.

Definition set_purchase_orders (r : report)
  (orders : gmap Z (gmap string order)) : report :=
  {| results_status := results_status r;
     objective_value := objective_value r;
     purchase_orders := orders;
     monthly_breakdown := monthly_breakdown r;
     product_totals := product_totals r |}.

Definition set_monthly_breakdown (r : report)
  (breakdown : gmap Z month_summary) : report :=
  {| results_status := results_status r;
     objective_value := objective_value r;
     purchase_orders := purchase_orders r;
     monthly_breakdown := breakdown;
     product_totals := product_totals r |}.

Definition set_product_totals (r : report)
  (totals : gmap string product_total) : report :=
  {| results_status := results_status r;
     objective_value := objective_value r;
     purchase_orders := purchase_orders r;
     monthly_breakdown := monthly_breakdown r;
     product_totals := totals |}.

(** The status string chosen from the solver's result code. *)
Definition classify (solver_status : Z) : status :=
  if (solver_status =? pywraplp.OPTIMAL)%Z then OPTIMAL
  else if (solver_status =? pywraplp.FEASIBLE)%Z then FEASIBLE
  else INFEASIBLE.

(** One pass of the inner loop over products, for one month. *)
Definition extract_product (self : PurchaseOrderOptimizer) (month : Z)
  (product : Product) (st : report * month_sums)
  : outcome (report * month_sums) :=
  let results := fst st in
  let sums := snd st in
  let? v := variable self (id product) month in
  let? s := the_solver self in
  let? value := solution_value s v in
  let qty := Py.int value in
  if (0 <? qty)%Z then
    let o := order_of product qty in
    Ret (set_purchase_orders results
           (alter (insert (id product) o) month (purchase_orders results)),
         {| month_cost := month_cost sums + order_total_cost o;
            month_revenue := month_revenue sums + order_total_revenue o;
            month_weight := month_weight sums + order_weight_kg o;
            month_volume := month_volume sums + order_volume_m3 o |})
  else Ret st.

(** One pass of the loop over months. *)
Definition extract_month (self : PurchaseOrderOptimizer)
  (products : list Product) (month : Z) (results : report)
  : outcome report :=
  let results :=
    set_purchase_orders results (<[month := ∅]> (purchase_orders results)) in
  let? st :=
    for_each products (extract_product self month)
      (results, {| month_cost := 0; month_revenue := 0;
                   month_weight := 0; month_volume := 0 |}) in
  let results := fst st in
  let sums := snd st in
  let weight_shipping :=
    cost_per_kg (shipping (config self)) * month_weight sums in
  let volume_shipping :=
    cost_per_m3 (shipping (config self)) * month_volume sums in
  let customs :=
    if crosses_border (shipping (config self))
    then customs_duty_rate (shipping (config self)) * month_cost sums
    else 0 in
  Ret (set_monthly_breakdown results
         (<[month :=
             {| month_product_cost := month_cost sums;
                month_product_revenue := month_revenue sums;
                month_gross_margin := month_revenue sums - month_cost sums;
                month_weight_shipping := weight_shipping;
                month_volume_shipping := volume_shipping;
                month_customs_duty := customs;
                month_total_costs :=
                  month_cost sums + weight_shipping + volume_shipping + customs;
                month_net_profit :=
                  month_revenue sums - month_cost sums - weight_shipping
                  - volume_shipping - customs;
                month_weight_kg := month_weight sums;
                month_volume_m3 := month_volume sums;
                month_items_ordered :=
                  size (default ∅ (purchase_orders results !! month)) |}]>
            (monthly_breakdown results))).

(** Totals of one product across all months. *)
Definition extract_total (self : PurchaseOrderOptimizer)
  (results : report) (product : Product) : report :=
  let sums :=
    foldl (fun sums month =>
             match purchase_orders results !! month ≫= (.!! id product) with
             | Some o =>
                 ((fst (fst sums) + order_quantity o)%Z,
                  snd (fst sums) + order_total_cost o,
                  snd sums + order_total_revenue o)
             | None => sums
             end)
          (0%Z, 0, 0) (months self) in
  let total_qty := fst (fst sums) in
  let total_cost := snd (fst sums) in
  let total_revenue := snd sums in
  if (0 <? total_qty)%Z then
    set_product_totals results
      (<[id product :=
          {| total_name := name product;
             total_quantity := total_qty;
             total_cost := total_cost;
             total_revenue := total_revenue;
             total_margin := total_revenue - total_cost |}]>
         (product_totals results))
  else results.

Definition _extract_results (self : PurchaseOrderOptimizer)
  (products : list Product) (solver_status : Z) : outcome report :=
  let status := classify solver_status in
  let? objective :=
    (if solved status
     then let? s := the_solver self in Objective_Value s
     else Ret 0) in
  let results :=
    {| results_status := status;
       objective_value := objective;
       purchase_orders := ∅;
       monthly_breakdown := ∅;
       product_totals := ∅ |} in
  if solved status then
    let? results :=
      for_each (months self) (extract_month self products) results in
    Ret (foldl (extract_total self) results products)
  else Ret results.

(** The body of the [try] block. *)
Definition optimize_body (self : PurchaseOrderOptimizer)
  (products : list Product) : outcome report :=
  let? self := _create_variables self products in
  let? self := _create_objective self products in
  let? self := _create_constraints self products in
  let? s := the_solver self in
  let? solved := Solve s in
  _extract_results (set_solver self (snd solved)) products (fst solved).

Definition optimize (self : PurchaseOrderOptimizer)
  (products : list Product) : outcome result :=
  match CreateSolver (solver_type (config self)) with
  | None =>
      Ret (Error ("Solver " ++ solver_type (config self) ++ " unavailable"))
  | Some s =>
      match optimize_body (set_solver self s) products with
      | Ret r => Ret (Results r)
      | Raise (Exception msg) => Ret (Error msg)
      | Raise KeyboardInterrupt => Raise KeyboardInterrupt
      end
  end.
End Optimizer.

(** *** The statements of the specification *)

Section Statements.
Context {S V : Type} `{!Solver S V}.
Local Open Scope Q_scope.
Local Open Scope outcome_scope.

(** forecast(month) = base_demand x seasonal(month) x
    trend_factor^(month - 1) *)
Definition spec_forecast (f : DemandForecast) (month : Z) : Q :=
  base_demand f * get (seasonal_factors f) month
  * trend_factor f ^ (month - 1).

(** The product the bound is taken of:
    forecast(month) x global_demand_multiplier x demand_buffer. *)
Definition buffered_demand (cfg : OptimizerConfig) (p : Product) (month : Z)
  : Q :=
  spec_forecast (demand_forecast p) month * demand_multiplier cfg
  * demand_buffer (demand_forecast p).

(** The three construction steps of [optimize], in order. *)
Definition build_model (self : PurchaseOrderOptimizer)
  (products : list Product) : outcome PurchaseOrderOptimizer :=
  let? self := _create_variables self products in
  let? self := _create_objective self products in
  _create_constraints self products.

(** [e] is raised by one of the construction steps or by [Solve]. *)
Definition raised_in_try (self : PurchaseOrderOptimizer)
  (products : list Product) (e : exn) : Prop :=
  build_model self products = Raise e
  \/ exists self' s, build_model self products = Ret self'
                     /\ the_solver self' = Ret s /\ Solve s = Raise e.



(** The order [o] is what extraction writes for [product] in [month]: the
    variable's value read back and truncated by [int] to a quantity above
    0, with the product's unit cost and price and the totals they give. *)
Definition read_back (self : PurchaseOrderOptimizer) (month : Z)
  (product : Product) (o : order) : Prop :=
  exists s v value,
    the_solver self = Ret s
    /\ variable self (id product) month = Ret v
    /\ solution_value s v = Ret value
    /\ (0 < Py.int value)%Z
    /\ o = order_of product (Py.int value).

(** Every entry of [purchase_orders] is such an order of one of the
    products. *)
Definition orders_read_back (self : PurchaseOrderOptimizer)
  (products : list Product) (orders : gmap Z (gmap string order)) : Prop :=
  forall month by_id pid o,
    orders !! month = Some by_id -> by_id !! pid = Some o ->
    exists product,
      product ∈ products /\ id product = pid
      /\ read_back self month product o.

(** The value read back for [product] in [month] truncates to [qty]. *)
Definition quantity_read (self : PurchaseOrderOptimizer) (month : Z)
  (product : Product) (qty : Z) : Prop :=
  exists s v value,
    the_solver self = Ret s
    /\ variable self (id product) month = Ret v
    /\ solution_value s v = Ret value
    /\ qty = Py.int value.

(** Every product of [products] with a quantity above 0 in a month of [ms]
    has an entry in [purchase_orders], with that quantity. *)
Definition orders_recorded (self : PurchaseOrderOptimizer)
  (products : list Product) (ms : list Z)
  (orders : gmap Z (gmap string order)) : Prop :=
  forall product month qty,
    product ∈ products -> month ∈ ms ->
    quantity_read self month product qty -> (0 < qty)%Z ->
    exists by_id o,
      orders !! month = Some by_id /\ by_id !! id product = Some o
      /\ order_quantity o = qty.

(** What one month's pass over the products has written so far: the
    month has a dictionary, the products seen are recorded in it, and the
    other months are as they were in [before]. *)
Definition month_written (self : PurchaseOrderOptimizer) (month : Z)
  (before : gmap Z (gmap string order)) (seen : list Product)
  (st : report * month_sums) : Prop :=
  is_Some (purchase_orders (fst st) !! month)
  /\ orders_recorded self seen [month] (purchase_orders (fst st))
  /\ (forall m, m <> month ->
                purchase_orders (fst st) !! m = before !! m).




(** The quantity extraction orders of [product] in [month]: the
    variable's value truncated by [int] when that is above 0, and 0
    otherwise. *)
Definition ordered_quantity (self : PurchaseOrderOptimizer) (month : Z)
  (product : Product) : Z :=
  match variable self (id product) month, the_solver self with
  | Ret v, Ret s =>
      match solution_value s v with
      | Ret value => Z.max 0 (Py.int value)
      | Raise _ => 0%Z
      end
  | _, _ => 0%Z
  end.

(** The units of [product] ordered over the whole horizon. *)
Definition total_ordered (self : PurchaseOrderOptimizer) (product : Product)
  : Z :=
  foldr (fun month acc => (ordered_quantity self month product + acc)%Z)
        0%Z (months self).

(** Sum of [f(p)] over [products]. *)
Definition total_over (products : list Product) (f : Product -> Q) : Q :=
  foldr (fun p acc => f p + acc) 0 products.

(** The entry [monthly_breakdown[month]] adds up: cost, revenue, weight
    and volume are the totals of the quantities ordered in the month, and
    the derived figures follow from them. *)
Definition month_accounted (self : PurchaseOrderOptimizer)
  (products : list Product) (month : Z) (summary : month_summary) : Prop :=
  let qty p := inject_Z (ordered_quantity self month p) in
  let ship := shipping (config self) in
  month_product_cost summary
  == total_over products (fun p => wholesale_price p * qty p)
  /\ month_product_revenue summary
     == total_over products (fun p => retail_price p * qty p)
  /\ month_weight_kg summary
     == total_over products (fun p => weight_kg p * qty p)
  /\ month_volume_m3 summary
     == total_over products (fun p => volume_m3 p * qty p)
  /\ month_gross_margin summary
     == month_product_revenue summary - month_product_cost summary
  /\ month_weight_shipping summary
     == cost_per_kg ship * month_weight_kg summary
  /\ month_volume_shipping summary
     == cost_per_m3 ship * month_volume_m3 summary
  /\ month_customs_duty summary
     == (if crosses_border ship
         then customs_duty_rate ship * month_product_cost summary
         else 0)
  /\ month_total_costs summary
     == month_product_cost summary + month_weight_shipping summary
        + month_volume_shipping summary + month_customs_duty summary
  /\ month_net_profit summary
     == month_product_revenue summary - month_total_costs summary.

End Statements.

(** The declaration [_create_variables] sends for one product and month,
    and all of them in order. *)
Definition declaration (cfg : OptimizerConfig) (p : Product) (m : Z)
  : var_decl :=
  {| var_lb := 0;
     var_ub := Py.int (buffered_demand cfg p m);
     var_label := q_ (id p) m |}.

Definition declarations (cfg : OptimizerConfig) (products : list Product)
  : list var_decl :=
  flat_map (fun p => map (declaration cfg p)
                         (range 1 (planning_months cfg + 1))) products.

(** In the recorder, [self.variables[product_id][month]] is a declared
    variable named for that product and month. *)
Definition bound (self : @PurchaseOrderOptimizer model nat)
  (product_id : string) (month : Z) : Prop :=
  exists s by_month v decl,
    solver self = Some s
    /\ variables self !! product_id = Some by_month
    /\ by_month !! month = Some v
    /\ model_vars s !! v = Some decl
    /\ var_label decl = q_ product_id month.

(** The handle stored at [self.variables[product_id][month]]. *)
Definition quantity_of (self : @PurchaseOrderOptimizer model nat)
  (product_id : string) (month : Z) : nat :=
  match variable self product_id month with
  | Ret v => v
  | Raise _ => O
  end.



(** The recorder's model extended with more declarations. *)
Definition declare (s : model) (decls : list var_decl) : model :=
  {| model_vars := model_vars s ++ decls;
     model_objective := model_objective s;
     model_constraints := model_constraints s |}.
End spcplan.

(** ** Sample inputs *)

Module samples.
Import config_models productcreator.
Local Open Scope Q_scope.

(** The tables [AppConfig.from_cfg_file] builds when the file sets
    nothing. *)
Definition default_app_config : AppConfig := {|
  markup_tiers := [
    {| min_cost := 0; max_cost := 50; markup_multiplier := 3 |};
    {| min_cost := 50; max_cost := 100; markup_multiplier := 5 # 2 |};
    {| min_cost := 100; max_cost := 500; markup_multiplier := 9 # 4 |};
    {| min_cost := 500; max_cost := 1000; markup_multiplier := 2 |};
    {| min_cost := 1000; max_cost := 3000; markup_multiplier := 7 # 4 |};
    {| min_cost := 3000; max_cost := 999999; markup_multiplier := 3 # 2 |} ];
  demand_tiers := [
    {| min_price := 0; max_price := 50; base_demand_monthly := 320;
       demand_multiplier := 1; max_demand_monthly := 500 |};
    {| min_price := 50; max_price := 100; base_demand_monthly := 280;
       demand_multiplier := 1; max_demand_monthly := 400 |};
    {| min_price := 100; max_price := 500; base_demand_monthly := 240;
       demand_multiplier := 1; max_demand_monthly := 300 |};
    {| min_price := 500; max_price := 1000; base_demand_monthly := 200;
       demand_multiplier := 1; max_demand_monthly := 200 |};
    {| min_price := 1000; max_price := 3000; base_demand_monthly := 160;
       demand_multiplier := 1; max_demand_monthly := 100 |};
    {| min_price := 3000; max_price := 5000; base_demand_monthly := 120;
       demand_multiplier := 1; max_demand_monthly := 50 |};
    {| min_price := 5000; max_price := 999999; base_demand_monthly := 80;
       demand_multiplier := 1; max_demand_monthly := 20 |} ] |}.

(** One demand tier whose cap lies below one unit a month. *)
Definition low_cap_tier : DemandTier :=
  {| min_price := 0; max_price := 50; base_demand_monthly := 10;
     demand_multiplier := 1; max_demand_monthly := 1 # 2 |}.

Definition low_cap_app_config : AppConfig := {|
  markup_tiers := [ {| min_cost := 0; max_cost := 50; markup_multiplier := 3 |} ];
  demand_tiers := [ low_cap_tier ] |}.

(** A one-point parameter space: $1, 1 kg, 1 litre. *)
Definition single_point : GenerationParams := {|
  price_min := 1; price_max := 1; price_step := 1;
  weight_min := 1000; weight_max := 1000; weight_step := 1;
  size_min := 1000; size_max := 1000; size_step := 1;
  freight_min := 1; freight_max := 1; freight_step := 1;
  density_min := 1 # 128; density_max := 10;
  max_candidates := None |}.

Definition single_candidate (demand : Q) : ProductCandidate := {|
  wholesale_price := 1; retail_price := 3; weight_g := 1000;
  size_cm3 := 1000; shipping_cost_multiplier := 1; base_demand := demand |}.
End samples.

Module plan_samples.
Import pywraplp spcplan.
Local Open Scope Q_scope.

(** The end-to-end scenario of the specification: one product, one
    month. *)
Definition standard_shipping : ShippingOption := {|
  shipping_name := "standard"; cost_per_kg := 2; cost_per_m3 := 50;
  max_weight_kg := 1000; max_volume_m3 := 10; crosses_border := false;
  customs_duty_rate := 0; days_transit := 3 |}.

Definition one_month : OptimizerConfig := {|
  planning_months := 1; budget_per_month := 1000;
  warehouse_capacity_m3 := 10; shipping := standard_shipping;
  solver_time_limit_seconds := 300; solver_type := "SCIP";
  demand_multiplier := 1; seasonal_override := None |}.

Definition flat_forecast (demand buffer : Q) : DemandForecast := {|
  base_demand := demand; seasonal_factors := {| factors := ∅ |};
  trend_factor := 1; demand_buffer := buffer |}.

Definition widget_with (forecast : DemandForecast) : Product := {|
  id := "P000001"; name := "widget"; wholesale_price := 10;
  retail_price := 20; size_cm3 := 1000; weight_g := 500;
  category := "general"; demand_forecast := forecast;
  bulk_discount_threshold := 0; bulk_discount_rate := 0 |}.

Definition widget : Product := widget_with (flat_forecast 100 (3 # 2)).

(** An optimizer whose solver has been created. *)
Definition ready (cfg : OptimizerConfig) : @PurchaseOrderOptimizer model nat :=
  set_solver (__init__ cfg) empty_model.

(** The engine of the scenario: OPTIMAL, 100 units, objective 895. *)
Definition scenario_engine : model -> answer := constant_engine 100 895.

(** An engine whose values fall 1/1024 short of 100. *)
Definition near_engine : model -> answer :=
  constant_engine (102399 # 1024) 895.

(** The optimizer after the model of [products] has been built. *)
Definition planned (cfg : OptimizerConfig) (products : list Product)
  : @PurchaseOrderOptimizer model nat :=
  match build_model (Solver0 := recorder scenario_engine) (ready cfg) products
  with
  | Ret self => self
  | Raise _ => ready cfg
  end.
End plan_samples.

(** ** config_models.py: the tables built from a configuration file *)

Module cfg_file.
Import config_models.
Local Open Scope Q_scope.

(** What [ConfigParser] has read: the number stored under a section and an
    option, for those the file sets. *)
Definition ConfigParser : Type := gmap (string * string) Q.

(** [config.getfloat(section, option, fallback=fallback)] *)
Definition getfloat (config : ConfigParser) (section option : string)
  (fallback : Q) : Q :=
  default fallback (config !! (section, option)).

(** The markup tiers of [AppConfig.from_cfg_file]. *)
Definition markup_tiers_of (config : ConfigParser) : list MarkupTier :=
  [ {| min_cost := 0; max_cost := 50;
       markup_multiplier :=
         1 + getfloat config "markup_tiers" "tier_6_markup" 2 |};
    {| min_cost := 50; max_cost := 100;
       markup_multiplier :=
         1 + getfloat config "markup_tiers" "tier_5_markup" (3 # 2) |};
    {| min_cost := 100; max_cost := 500;
       markup_multiplier :=
         1 + getfloat config "markup_tiers" "tier_4_markup" (5 # 4) |};
    {| min_cost := 500; max_cost := 1000;
       markup_multiplier :=
         1 + getfloat config "markup_tiers" "tier_3_markup" 1 |};
    {| min_cost := 1000; max_cost := 3000;
       markup_multiplier :=
         1 + getfloat config "markup_tiers" "tier_2_markup" (3 # 4) |};
    {| min_cost := 3000; max_cost := 999999;
       markup_multiplier :=
         1 + getfloat config "markup_tiers" "tier_1_markup" (1 # 2) |} ].

(** The demand tiers of [AppConfig.from_cfg_file]. *)
Definition demand_tiers_of (config : ConfigParser) : list DemandTier :=
  let threshold option fallback :=
    getfloat config "demand_model" option fallback in
  [ {| min_price := 0;
       max_price := threshold "tier_7_threshold" 50;
       base_demand_monthly := threshold "tier_7_demand" 320;
       demand_multiplier := 1; max_demand_monthly := 500 |};
    {| min_price := threshold "tier_7_threshold" 50;
       max_price := threshold "tier_6_threshold" 100;
       base_demand_monthly := threshold "tier_6_demand" 280;
       demand_multiplier := 1; max_demand_monthly := 400 |};
    {| min_price := threshold "tier_6_threshold" 100;
       max_price := threshold "tier_5_threshold" 500;
       base_demand_monthly := threshold "tier_5_demand" 240;
       demand_multiplier := 1; max_demand_monthly := 300 |};
    {| min_price := threshold "tier_5_threshold" 500;
       max_price := threshold "tier_4_threshold" 1000;
       base_demand_monthly := threshold "tier_4_demand" 200;
       demand_multiplier := 1; max_demand_monthly := 200 |};
    {| min_price := threshold "tier_4_threshold" 1000;
       max_price := threshold "tier_3_threshold" 3000;
       base_demand_monthly := threshold "tier_3_demand" 160;
       demand_multiplier := 1; max_demand_monthly := 100 |};
    {| min_price := threshold "tier_3_threshold" 3000;
       max_price := threshold "tier_2_threshold" 5000;
       base_demand_monthly := threshold "tier_2_demand" 120;
       demand_multiplier := 1; max_demand_monthly := 50 |};
    {| min_price := threshold "tier_2_threshold" 5000;
       max_price := 999999;
       base_demand_monthly := threshold "tier_1_demand" 80;
       demand_multiplier := 1; max_demand_monthly := 20 |} ].

(** [AppConfig.from_cfg_file], for the two tables of [AppConfig]. *)
Definition from_cfg_file (config : ConfigParser) : AppConfig :=
  {| markup_tiers := markup_tiers_of config;
     demand_tiers := demand_tiers_of config |}.
End cfg_file.

(** ** Statements about the generator *)

Module generator_statements.
Import config_models productcreator.
Local Open Scope Q_scope.

(** The bracket test of the two tier scans. *)
Definition in_markup_bracket (wholesale : Q) (tier : MarkupTier) : Prop :=
  min_cost tier <= wholesale /\ wholesale < max_cost tier.

Definition in_demand_bracket (price : Q) (tier : DemandTier) : Prop :=
  min_price tier <= price /\ price < max_price tier.

(** Every candidate passed the filter under the run's density window and
    carries the retail price estimated from its wholesale price. *)
Definition filtered_and_priced (params : GenerationParams)
  (app_config : AppConfig) (candidates : list ProductCandidate) : Prop :=
  Forall (fun c =>
            is_realistic_combination (wholesale_price c) (weight_g c)
              (size_cm3 c) (density_min params) (density_max params)
            = Ret true
            /\ estimate_retail_price (wholesale_price c) app_config
               = Ret (retail_price c))
         candidates.

(** Non-increasing keys along a list. *)
Fixpoint descending {A} (key : A -> Q) (l : list A) : Prop :=
  match l with
  | x :: (y :: _) as tl => key y <= key x /\ descending key tl
  | _ => True
  end.

(** The elements of [l] whose key equals [k], in the order of [l]. *)
Definition with_key {A} (key : A -> Q) (k : Q) (l : list A) : list A :=
  List.filter (fun x => Qeq_bool (key x) k) l.

(** The four nested loops as one comprehension: the accepted combinations
    in the order the loops visit them. *)
Definition combinations (params : GenerationParams) (app_config : AppConfig)
  (prices weights sizes shipping_costs : list Q) : list ProductCandidate :=
  price ← prices; weight ← weights; size ← sizes;
  shipping_mult ← shipping_costs;
  match is_realistic_combination price weight size
          (density_min params) (density_max params),
        estimate_retail_price price app_config with
  | Ret true, Ret retail =>
      [ {| wholesale_price := price;
           retail_price := retail;
           weight_g := weight;
           size_cm3 := size;
           shipping_cost_multiplier := shipping_mult;
           base_demand :=
             estimate_base_demand price size weight app_config |} ]
  | _, _ => []
  end.
End generator_statements.

(** ** batch_optimizer.py *)

Module batch_optimizer.
Import productcreator spcplan.
Local Open Scope Q_scope.
Local Open Scope outcome_scope.

(** The decimal digits of [abs(n)]. *)
Definition digits (n : Z) : uint := N.to_uint (Z.abs_N n).

(** Zeros in front of [d] up to [width] digits. *)
Definition zero_pad (width : nat) (d : uint) : uint :=
  Nat.iter (width - nb_digits d) D0 d.

(** [f"{n:06d}"]: at least six characters, the sign first and zeros
    after it. *)
Definition format_06d (n : Z) : string :=
  if (n <? 0)%Z
  then "-" ++ NilEmpty.string_of_uint (zero_pad 5 (digits n))
  else NilEmpty.string_of_uint (zero_pad 6 (digits n)).

(** [f"{n}"] *)
Definition format_d (n : Z) : string :=
  if (n <? 0)%Z
  then "-" ++ NilEmpty.string_of_uint (digits n)
  else NilEmpty.string_of_uint (digits n).

(** A candidate row is a dictionary with the six numeric fields of
    [ProductCandidate]. *)
Definition candidate_to_product (candidate : ProductCandidate)
  (product_id : Z) (seasonal_factors : SeasonalFactors) : Product :=
  let demand_forecast :=
    {| base_demand := productcreator.base_demand candidate;
       seasonal_factors := seasonal_factors;
       trend_factor := 51 # 50;
       demand_buffer := 3 # 2 |} in
  {| id := "P" ++ format_06d product_id;
     name := "Product_" ++ format_d product_id;
     wholesale_price := productcreator.wholesale_price candidate;
     retail_price := productcreator.retail_price candidate;
     size_cm3 := productcreator.size_cm3 candidate;
     weight_g := productcreator.weight_g candidate;
     category := "General";
     demand_forecast := demand_forecast;
     bulk_discount_threshold := 0;
     bulk_discount_rate := 0 |}.

(** [enumerate(l, start=start)] *)
Definition enumerate {A} (l : list A) (start : Z) : list (Z * A) :=
  imap (fun i x => ((start + Z.of_nat i)%Z, x)) l.

(** The list comprehension of [optimize_batch]. *)
Definition products_of (candidates : list ProductCandidate)
  (seasonal_factors : SeasonalFactors) : list Product :=
  map (fun ic => candidate_to_product (snd ic) (fst ic) seasonal_factors)
      (enumerate candidates 1).

(** [optimize_batch] returns the optimizer's dictionary with
    [batch_metadata] added; of the metadata the candidate count is kept
    here, the timings are not. *)
Definition optimize_batch {S V : Type} `{!pywraplp.Solver S V}
  (candidates : list ProductCandidate) (config : OptimizerConfig)
  (seasonal_factors : SeasonalFactors) : outcome (result * nat) :=
  let products := products_of candidates seasonal_factors in
  let optimizer := __init__ config in
  let? results := optimize optimizer products in
  Ret (results, length candidates).

(** One row of the selection. *)
Record selected := {
  selected_id : string;
  selected_name : string;
  total_quantity_ordered : Z;
  selected_total_cost : Q;
  selected_total_revenue : Q;
  selected_total_margin : Q }.

(** The dictionary appended for one item of [product_totals]. *)
Definition selected_of (item : string * product_total) : selected :=
  {| selected_id := fst item;
     selected_name := total_name (snd item);
     total_quantity_ordered := total_quantity (snd item);
     selected_total_cost := total_cost (snd item);
     selected_total_revenue := total_revenue (snd item);
     selected_total_margin := total_margin (snd item) |}.

(** [extract_selected_products] reads two things of [results]: its
    status and the items of its [product_totals], in the dictionary's
    order. *)
Definition extract_selected_products (results_status : status)
  (product_totals_items : list (string * product_total))
  (top_n : option Z) : list selected :=
  if negb (solved results_status) then [] else
  let sorted_products :=
    sort_desc (fun x => total_margin (snd x)) product_totals_items in
  let sorted_products :=
    match top_n with
    | Some n => if (n =? 0)%Z then sorted_products
                else slice_to n sorted_products
    | None => sorted_products
    end in
  map selected_of sorted_products.
End batch_optimizer.

(** ** filtered_optimizer.py *)

Module filtered_optimizer.
Import productcreator spcplan.
Local Open Scope Q_scope.

(** The steps of [load_and_optimize] between reading the candidate rows
    and calling the optimizer. *)

(** [(idx, c, profit_potential)] for every row. *)
Definition candidates_scored (candidates : list ProductCandidate)
  : list (Z * ProductCandidate * Q) :=
  map (fun ic =>
         let c := snd ic in
         let margin :=
           productcreator.retail_price c - productcreator.wholesale_price c in
         let profit_potential := margin * productcreator.base_demand c in
         (fst ic, c, profit_potential))
      (batch_optimizer.enumerate candidates 1).

(** [candidates_scored.sort(key=lambda x: x[2], reverse=True)] and
    [candidates_scored[:1000]] *)
Definition top_candidates (candidates : list ProductCandidate)
  : list (Z * ProductCandidate * Q) :=
  slice_to 1000 (sort_desc snd (candidates_scored candidates)).

Definition candidates_map (candidates : list ProductCandidate)
  : gmap string ProductCandidate :=
  foldl (fun (candidates_map : gmap string ProductCandidate)
             (it : Z * (Z * ProductCandidate * Q)) =>
           <[("P" ++ batch_optimizer.format_06d (fst it))%string
             := snd (fst (snd it))]> candidates_map)
        ∅ (batch_optimizer.enumerate (top_candidates candidates) 1).

(** [[c for _, c, _ in top_candidates]] *)
Definition filtered (candidates : list ProductCandidate)
  : list ProductCandidate :=
  map (fun x => snd (fst x)) (top_candidates candidates).

Definition products (candidates : list ProductCandidate)
  (seasonal_factors : SeasonalFactors) : list Product :=
  map (fun ic =>
         let idx := fst ic in
         let candidate := snd ic in
         let demand_forecast :=
           {| base_demand := productcreator.base_demand candidate;
              seasonal_factors := seasonal_factors;
              trend_factor := 51 # 50;
              demand_buffer := 3 # 2 |} in
         {| id := "P" ++ batch_optimizer.format_06d idx;
            name := "Product_" ++ batch_optimizer.format_d idx;
            wholesale_price := productcreator.wholesale_price candidate;
            retail_price := productcreator.retail_price candidate;
            size_cm3 := productcreator.size_cm3 candidate;
            weight_g := productcreator.weight_g candidate;
            category := "General";
            demand_forecast := demand_forecast;
            bulk_discount_threshold := 0;
            bulk_discount_rate := 0 |})
      (batch_optimizer.enumerate (filtered candidates) 1).
End filtered_optimizer.

(** * The float-sensitive paths on binary64

    Where a result depends on how a float operation rounds (the values a
    range loop visits, the truncation of a forecast to a variable's bound)
    the code is embedded a second time on IEEE binary64 floats, the
    arithmetic of a Python [float]. *)

(** ** Python float operations *)

Module Py64.
Import PrimFloat FloatOps SpecFloat.

(** The whole part of [m * 2^e]. *)
Definition magnitude (m : positive) (e : Z) : Z :=
  if (0 <=? e)%Z then (Z.pos m * 2 ^ e)%Z else (Z.pos m / 2 ^ (- e))%Z.

(** [int(x)]: truncation toward zero; infinities and NaN are refused. *)
Definition int (x : float) : outcome Z :=
  match Prim2SF x with
  | S754_zero _ => Ret 0%Z
  | S754_finite s m e =>
      Ret (if s then (- magnitude m e)%Z else magnitude m e)
  | S754_infinity _ =>
      Raise (Exception "cannot convert float infinity to integer")
  | S754_nan => Raise (Exception "cannot convert float NaN to integer")
  end.

(** [math.floor(x)], the rounding the specification names. *)
Definition floor (x : float) : outcome Z :=
  match Prim2SF x with
  | S754_zero _ => Ret 0%Z
  | S754_finite s m e =>
      Ret (if s
           then (if (0 <=? e)%Z then (Z.neg m * 2 ^ e)%Z
                 else (Z.neg m / 2 ^ (- e))%Z)
           else magnitude m e)
  | S754_infinity _ =>
      Raise (Exception "cannot convert float infinity to integer")
  | S754_nan => Raise (Exception "cannot convert float NaN to integer")
  end.

(** The integer nearest to [m * 2^e] for [m >= 0], ties to the even
    neighbour. *)
Definition nearest_even (m e : Z) : Z :=
  if (0 <=? e)%Z then (m * 2 ^ e)%Z
  else
    let d := (2 ^ (- e))%Z in
    let q := (m / d)%Z in
    match (2 * (m mod d) ?= d)%Z with
    | Lt => q
    | Gt => (q + 1)%Z
    | Eq => if Z.even q then q else (q + 1)%Z
    end.

(** The float nearest to the integer [n]. *)
Definition of_Z (n : Z) : float := SF2Prim (binary_normalize prec emax n 0 false).

(** [round(x, 2)]: the float nearest to the two-decimal number nearest to
    the exact value of [x] (ties to even), with the sign of [x].  From
    [2^53 / 100] on every float is further from its neighbours than 0.01 and
    is returned as it is, like an infinity or a NaN. *)
Definition round2 (x : float) : float :=
  match Prim2SF x with
  | S754_finite s m e =>
      let n := nearest_even (Z.pos m * 100) e in
      if (n <? 2 ^ 53)%Z then
        let r := div (of_Z n) (of_Z 100) in
        if s then opp r else r
      else x
  | _ => x
  end.

(** [fmod(fabs(y), 2.0) == 1.0] *)
Definition is_odd_integer (y : float) : bool :=
  match Prim2SF y with
  | S754_finite _ m e =>
      if (0 <=? e)%Z then Z.odd (Z.pos m * 2 ^ e)
      else (Z.pos m mod 2 ^ (- e) =? 0)%Z && Z.odd (Z.pos m / 2 ^ (- e))
  | _ => false
  end.

(** The C library's [pow], which is not specified to the last bit. *)
Class Libm : Type := {
  libm_pow : float -> float -> float }.

(** [x ** n] for a float [x] and an int [n], as CPython's [float_pow]
    settles it: the exponent is converted to a float first (an int beyond
    the floats is refused), then the special cases, the C library for the
    rest, and an overflow of its result raised as [OverflowError]. *)
Definition pow `{Libm} (x : float) (n : Z) : outcome float :=
  let iw := of_Z n in
  if is_infinity iw
  then Raise (Exception "int too large to convert to float")
  else if eqb iw zero then Ret one else
  match Prim2SF x with
  | S754_nan => Ret x
  | S754_infinity s =>
      if ltb zero iw then Ret (if is_odd_integer iw then x else abs x)
      else Ret (if is_odd_integer iw && s then neg_zero else zero)
  | S754_zero _ =>
      if ltb iw zero
      then Raise (Exception "0.0 cannot be raised to a negative power")
      else Ret (if is_odd_integer iw then x else zero)
  | S754_finite s _ _ =>
      let negate_result := s && is_odd_integer iw in
      let iv := abs x in
      if eqb iv one then Ret (if negate_result then opp one else one)
      else
        let ix := libm_pow iv iw in
        let ix := if negate_result then opp ix else ix in
        if is_infinity ix
        then Raise (Exception "(34, 'Numerical result out of range')")
        else Ret ix
  end.
End Py64.

(** ** productcreator.py: the range loops on floats *)

Module productcreator64.
Import PrimFloat.

(** The loop shared, statement for statement, by the four generators:
<<
    while current <= max: acc.append(round(current, 2)); current += step
>> *)
Fixpoint range_while (fuel : nat) (max step current : float)
  (acc : list float) : option (list float) :=
  match fuel with
  | O => None
  | S fuel' =>
      if leb current max
      then range_while fuel' max step (add current step)
                       (acc ++ [Py64.round2 current])
      else Some acc
  end.

Definition generate_price_range (fuel : nat) (min_price max_price step : float) :=
  range_while fuel max_price step min_price [].

Definition generate_weight_range (fuel : nat) (min_weight max_weight step : float) :=
  range_while fuel max_weight step min_weight [].

Definition generate_size_range (fuel : nat) (min_size max_size step : float) :=
  range_while fuel max_size step min_size [].

Definition generate_shipping_costs (fuel : nat)
  (freight_min freight_max freight_step : float) :=
  range_while fuel freight_max freight_step freight_min [].

(** The value of [current] after [k] passes of the loop. *)
Definition current_at (min step : float) (k : nat) : float :=
  Nat.iter k (fun current => add current step) min.

(** The values appended over the first [n] passes. *)
Definition appended (min step : float) (n : nat) : list float :=
  map (fun k => Py64.round2 (current_at min step k)) (seq 0 n).

(** What one call of each of the four generators returns. *)
Definition all_generators (fuel : nat) (min max step : float)
  : list (option (list float)) :=
  [ generate_price_range fuel min max step;
    generate_weight_range fuel min max step;
    generate_size_range fuel min max step;
    generate_shipping_costs fuel min max step ].

(** Strictly ascending lists. *)
Fixpoint ascending (l : list float) : Prop :=
  match l with
  | x :: (y :: _) as tl => ltb x y = true /\ ascending tl
  | _ => True
  end.

(** The shape the specification gives a range over [min, max]: strictly
    ascending, first element [min], last element [<= max], last element
    plus [step] above [max]. *)
Definition covers (min max step : float) (l : list float) : Prop :=
  ascending l
  /\ (exists x, head l = Some x /\ eqb x min = true)
  /\ (exists y, last l = Some y /\ leb y max = true
                 /\ ltb max (add y step) = true).
End productcreator64.

(** ** spcplan.py: forecasts and variable bounds on floats *)

Module spcplan64.
Import pywraplp PrimFloat.
Local Open Scope outcome_scope.

Record SeasonalFactors := {
  factors : gmap Z float }.

(** [self.factors.get(month, 1.0)] *)
Definition get (self : SeasonalFactors) (month : Z) : float :=
  default one (factors self !! month).

Record DemandForecast := {
  base_demand : float;
  seasonal_factors : SeasonalFactors;
  trend_factor : float;
  demand_buffer : float }.

Definition forecast_month `{!Py64.Libm} (self : DemandForecast) (month : Z)
  : outcome float :=
  let seasonal := get (seasonal_factors self) month in
  let? trend := Py64.pow (trend_factor self) (month - 1) in
  Ret (mul (mul (base_demand self) seasonal) trend).

Record Product := {
  id : string;
  name : string;
  wholesale_price : float;
  retail_price : float;
  size_cm3 : float;
  weight_g : float;
  category : string;
  demand_forecast : DemandForecast;
  bulk_discount_threshold : Z;
  bulk_discount_rate : float }.

(** [ShippingOption.name] is [shipping_name] here, [Product] having taken
    [name]. *)
Record ShippingOption := {
  shipping_name : string;
  cost_per_kg : float;
  cost_per_m3 : float;
  max_weight_kg : float;
  max_volume_m3 : float;
  crosses_border : bool;
  customs_duty_rate : float;
  days_transit : Z }.

(** [OptimizerConfig.seasonal_factors] is [seasonal_override] here. *)
Record OptimizerConfig := {
  planning_months : Z;
  budget_per_month : float;
  warehouse_capacity_m3 : float;
  shipping : ShippingOption;
  solver_time_limit_seconds : Z;
  solver_type : string;
  demand_multiplier : float;
  seasonal_override : option (gmap Z float) }.

(** [range(start, stop)] *)
Definition range (start stop : Z) : list Z := seqZ start (stop - start).

Section Optimizer.
Context {S V : Type} `{!Solver S V} `{!Py64.Libm}.

Record PurchaseOrderOptimizer := {
  config : OptimizerConfig;
  solver : option S;
  variables : gmap string (gmap Z V) }.

Definition __init__ (config : OptimizerConfig) : PurchaseOrderOptimizer :=
  {| config := config; solver := None; variables := ∅ |}.

(** [self.solver = s] and [self.variables = vars] *)
Definition set_solver (self : PurchaseOrderOptimizer) (s : S) :=
  {| config := config self; solver := Some s; variables := variables self |}.

Definition set_variables (self : PurchaseOrderOptimizer)
  (vars : gmap string (gmap Z V)) :=
  {| config := config self; solver := solver self; variables := vars |}.

(** [self.solver.<method>]: an attribute error while [self.solver] is
    [None]. *)
Definition the_solver (self : PurchaseOrderOptimizer) : outcome S :=
  match solver self with
  | Some s => Ret s
  | None => Raise (Exception "'NoneType' object has no attribute")
  end.

(** [self.variables[product_id][month]] *)
Definition variable (self : PurchaseOrderOptimizer)
  (product_id : string) (month : Z) : outcome V :=
  match variables self !! product_id with
  | None => Raise (Exception "KeyError")
  | Some by_month =>
      match by_month !! month with
      | None => Raise (Exception "KeyError")
      | Some v => Ret v
      end
  end.

(** [range(1, self.config.planning_months + 1)] *)
Definition months (self : PurchaseOrderOptimizer) : list Z :=
  range 1 (planning_months (config self) + 1).

(** The body of the inner loop of [_create_variables]. *)
Definition declare_variable (product : Product) (month : Z)
  (self : PurchaseOrderOptimizer) : outcome PurchaseOrderOptimizer :=
  let? forecast := forecast_month (demand_forecast product) month in
  let forecast_adjusted := mul forecast (demand_multiplier (config self)) in
  let? max_qty :=
    Py64.int (mul forecast_adjusted
                  (demand_buffer (demand_forecast product))) in
  let? s := the_solver self in
  let? created := IntVar s 0 max_qty (q_ (id product) month) in
  match variables self !! id product with
  | None => Raise (Exception "KeyError")
  | Some by_month =>
      Ret (set_solver
             (set_variables self
                (<[id product := <[month := fst created]> by_month]>
                   (variables self)))
             (snd created))
  end.

Definition _create_variables (self : PurchaseOrderOptimizer)
  (products : list Product) : outcome PurchaseOrderOptimizer :=
  let self := set_variables self ∅ in
  for_each products (fun product self =>
    let self := set_variables self (<[id product := ∅]> (variables self)) in
    for_each (months self) (declare_variable product) self) self.
End Optimizer.

(** *** The statements of the specification *)

Section Statements.
Context `{!Py64.Libm}.

(** The product the bound is taken of, multiplied out in the code's
    order: forecast(month) x global_demand_multiplier x demand_buffer. *)
Definition buffered_demand (cfg : OptimizerConfig) (p : Product)
  (forecast : float) : float :=
  mul (mul forecast (demand_multiplier cfg))
      (demand_buffer (demand_forecast p)).

(** The declaration [_create_variables] sends for one product and month,
    when the forecast and its truncation succeed. *)
Definition declaration (cfg : OptimizerConfig) (p : Product) (m : Z)
  : outcome var_decl :=
  let? forecast := forecast_month (demand_forecast p) m in
  let? max_qty := Py64.int (buffered_demand cfg p forecast) in
  Ret {| var_lb := 0; var_ub := max_qty; var_label := q_ (id p) m |}.

(** All of them, product by product and month by month, up to the first
    that fails. *)
Definition declarations (cfg : OptimizerConfig) (products : list Product)
  : outcome (list var_decl) :=
  let? per_product :=
    spcplan.map_outcome
      (fun p => spcplan.map_outcome (declaration cfg p)
                  (range 1 (planning_months cfg + 1)))
      products in
  Ret (concat per_product).

(** In the recorder, [self.variables[product_id][month]] is a declared
    variable named for that product and month. *)
Definition bound (self : @PurchaseOrderOptimizer model nat)
  (product_id : string) (month : Z) : Prop :=
  exists s by_month v decl,
    solver self = Some s
    /\ variables self !! product_id = Some by_month
    /\ by_month !! month = Some v
    /\ model_vars s !! v = Some decl
    /\ var_label decl = q_ product_id month.

(** The handle stored at [self.variables[product_id][month]]. *)
Definition quantity_of (self : @PurchaseOrderOptimizer model nat)
  (product_id : string) (month : Z) : nat :=
  match variable self product_id month with
  | Ret v => v
  | Raise _ => O
  end.
End Statements.
End spcplan64.

(** ** Sample float inputs *)

Module samples64.
Import pywraplp PrimFloat spcplan64.
Local Open Scope float_scope.
#[local] Set Warnings "-inexact-float".

(** A C library whose [pow] multiplies out; the samples raise 1.0 or use
    the exponent 0, for which CPython does not call the library. *)
#[export] Instance repeated_pow : Py64.Libm := {|
  Py64.libm_pow x y :=
    match Py64.int y with
    | Ret n => Nat.iter (Z.to_nat n) (fun acc => acc * x) 1
    | Raise _ => y
    end |}.

Definition standard_shipping : ShippingOption := {|
  shipping_name := "standard"; cost_per_kg := 2; cost_per_m3 := 50;
  max_weight_kg := 1000; max_volume_m3 := 10; crosses_border := false;
  customs_duty_rate := 0; days_transit := 3 |}.

Definition horizon (months : Z) : OptimizerConfig := {|
  planning_months := months; budget_per_month := 1000;
  warehouse_capacity_m3 := 10; shipping := standard_shipping;
  solver_time_limit_seconds := 300; solver_type := "SCIP";
  demand_multiplier := 1; seasonal_override := None |}.

(** A forecast without growth on the seasonal table [table]. *)
Definition steady (demand buffer : float) (table : gmap Z float)
  : DemandForecast := {|
  base_demand := demand; seasonal_factors := {| factors := table |};
  trend_factor := 1; demand_buffer := buffer |}.

Definition widget_with (forecast : DemandForecast) : Product := {|
  id := "P000001"; name := "widget"; wholesale_price := 10;
  retail_price := 20; size_cm3 := 1000; weight_g := 500;
  category := "general"; demand_forecast := forecast;
  bulk_discount_threshold := 0; bulk_discount_rate := 0 |}.

(** 100 units a month, buffer 1.5. *)
Definition widget : Product := widget_with (steady 100 1.5 ∅).

(** A product returned more often than sold: half a unit a month comes
    back. *)
Definition returned : Product := widget_with (steady (-0.5) 1 ∅).

(** 200 units a month with the seasonal factor 1.15 and buffer 1.5: the
    float product is 344.99999999999994. *)
Definition seasonal : Product :=
  widget_with (steady 200 1.5 {[ 1%Z := 1.15 ]}).

(** A base demand whose buffered product overflows. *)
Definition unbounded : Product := widget_with (steady 1e308 10 ∅).

(** An optimizer whose solver has been created. *)
Definition ready (cfg : OptimizerConfig) : @PurchaseOrderOptimizer model nat :=
  set_solver (__init__ cfg) empty_model.
End samples64.

(** * Properties *)

Import config_models productcreator.

(** ** Python arithmetic *)

Section PyFacts.
Local Open Scope Q_scope.

Lemma Py_le_iff a b : Py.le a b = true <-> a <= b.
Proof. apply Qle_bool_iff. Qed.

Lemma Py_le_false a b : Py.le a b = false <-> b < a.
Proof.
  unfold Py.le. split; intros H.
  - apply Qnot_le_lt. intros Hle. apply Qle_bool_iff in Hle. congruence.
  - apply not_true_is_false. intros Hle. apply Qle_bool_iff in Hle. lra.
Qed.

Lemma Py_lt_iff a b : Py.lt a b = true <-> a < b.
Proof.
  unfold Py.lt. rewrite negb_true_iff. apply (Py_le_false b a).
Qed.

Lemma Py_lt_false a b : Py.lt a b = false <-> b <= a.
Proof.
  unfold Py.lt. rewrite negb_false_iff. apply Qle_bool_iff.
Qed.

Lemma inject_nat_succ (n : nat) :
  inject_Z (Z.of_nat (S n)) == inject_Z (Z.of_nat n) + 1.
Proof. rewrite Nat2Z.inj_succ. unfold Z.succ. rewrite inject_Z_plus. reflexivity. Qed.

Lemma inject_nat_nonneg (n : nat) : 0 <= inject_Z (Z.of_nat n).
Proof. change 0 with (inject_Z 0). rewrite <- Zle_Qle. lia. Qed.
End PyFacts.

(** ** Range generation *)

Section RangeLoops.
Import PrimFloat productcreator64.
Local Open Scope float_scope.
#[local] Set Warnings "-inexact-float".

Lemma current_at_succ (min step : float) (k : nat) :
  current_at min step (S k) = current_at (min + step) step k.
Proof.
  unfold current_at. by rewrite (Nat.iter_succ_r k (fun c => c + step)).
Qed.

Lemma appended_succ (min step : float) (n : nat) :
  appended min step (S n) = Py64.round2 min :: appended (min + step) step n.
Proof.
  unfold appended. cbn [seq map]. f_equal.
  rewrite <- seq_shift, map_map. apply map_ext. intros k.
  by rewrite current_at_succ.
Qed.

(** The loop returns at the first value of [current] that is not
    [<= max], with the rounded values before it. *)
Lemma range_while_returns (max step : float) (n : nat) :
  forall fuel current acc,
    (n < fuel)%nat ->
    (forall k, (k < n)%nat -> (current_at current step k <=? max) = true) ->
    (current_at current step n <=? max) = false ->
    range_while fuel max step current acc
    = Some (acc ++ appended current step n).
Proof.
  induction n as [|n IH]; intros fuel current acc Hfuel Hbelow Hstop;
    (destruct fuel as [|fuel]; [lia|]); cbn [range_while].
  - change (current_at current step 0) with current in Hstop.
    rewrite Hstop. by rewrite app_nil_r.
  - pose proof (Hbelow 0%nat ltac:(lia)) as Hfirst.
    change (current_at current step 0) with current in Hfirst.
    rewrite Hfirst.
    rewrite (IH fuel (current + step) (acc ++ [Py64.round2 current])).
    + by rewrite appended_succ, <- app_assoc.
    + lia.
    + intros k Hk. rewrite <- current_at_succ. apply Hbelow. lia.
    + by rewrite <- current_at_succ.
Qed.

(** It does not return while every value stays [<= max]. *)
Lemma range_while_exhausts (max step : float) :
  forall fuel current acc,
    (forall k, (k < fuel)%nat -> (current_at current step k <=? max) = true) ->
    range_while fuel max step current acc = None.
Proof.
  induction fuel as [|fuel IH]; intros current acc Hbelow;
    cbn [range_while]; [done|].
  pose proof (Hbelow 0%nat ltac:(lia)) as Hfirst.
  change (current_at current step 0) with current in Hfirst.
  rewrite Hfirst. apply IH.
  intros k Hk. rewrite <- current_at_succ. apply Hbelow. lia.
Qed.

(** What a returned list says about the values visited. *)
Lemma range_while_returned (max step : float) :
  forall fuel current acc l,
    range_while fuel max step current acc = Some l ->
    exists n,
      (n < fuel)%nat
      /\ l = acc ++ appended current step n
      /\ (forall k, (k < n)%nat -> (current_at current step k <=? max) = true)
      /\ (current_at current step n <=? max) = false.
Proof.
  induction fuel as [|fuel IH]; intros current acc l; cbn [range_while];
    [done|].
  destruct (current <=? max) eqn:Hle.
  - intros (n & Hn & -> & Hbelow & Hstop)%IH. exists (S n).
    split; [lia|]. split; [by rewrite appended_succ, <- app_assoc|].
    split; [|by rewrite current_at_succ].
    intros [|k] Hk; [done|]. rewrite current_at_succ. apply Hbelow. lia.
  - intros [= <-]. exists 0%nat. split; [lia|].
    split; [by rewrite app_nil_r|]. split; [lia|done].
Qed.

(** A value that [step] does not move is visited forever. *)
Lemma current_at_stuck (min step : float) :
  min + step = min -> forall k, current_at min step k = min.
Proof.
  intros Hstuck. induction k as [|k IH]; [done|].
  by rewrite current_at_succ, Hstuck.
Qed.

Lemma range_while_stuck (max step min : float) (fuel : nat) :
  (min <=? max) = true -> min + step = min ->
  range_while fuel max step min [] = None.
Proof.
  intros Hle Hstuck. apply range_while_exhausts.
  intros k _. by rewrite current_at_stuck.
Qed.
End RangeLoops.

(** ** Claims on range generation *)

Section RangeClaims.
Import PrimFloat productcreator64.
Local Open Scope float_scope.
#[local] Set Warnings "-inexact-float".

(** C2, as the code has it.  The four generators are one loop that never
    inspects [step] and signals no error.  With [current] running through
    [min], [min + step], [(min + step) + step], ... in float arithmetic, a
    call returns at the first of these values that is not [<= max], with
    the rounded values before it: at once, with the empty list, when [min]
    is not [<= max], whatever the step.  It does not return while the
    values stay [<= max], and never when adding [step] leaves [min <= max]
    where it is, as a step of 0 does and a positive step that rounding
    absorbs. *)
Theorem range_generators_return (min max step : float) (fuel : nat) :
  Forall (fun r => r = range_while fuel max step min [])
         (all_generators fuel min max step)
  /\ (forall n,
        (n < fuel)%nat ->
        (forall k, (k < n)%nat -> (current_at min step k <=? max) = true) ->
        (current_at min step n <=? max) = false ->
        range_while fuel max step min [] = Some (appended min step n))
  /\ ((forall k, (k < fuel)%nat -> (current_at min step k <=? max) = true) ->
      range_while fuel max step min [] = None)
  /\ ((min <=? max) = false -> (0 < fuel)%nat ->
      range_while fuel max step min [] = Some [])
  /\ ((min <=? max) = true -> min + step = min ->
      range_while fuel max step min [] = None).
Proof.
  split; [by repeat constructor|]. split; [|split; [|split]].
  - intros n Hn Hbelow Hstop.
    by rewrite (range_while_returns max step n fuel min []).
  - apply range_while_exhausts.
  - intros Hle Hfuel.
    rewrite (range_while_returns max step 0 fuel min []);
      [done|done|intros k Hk; lia|done].
  - apply range_while_stuck.
Qed.

Lemma range_generators_return_witness :
  range_while 5 10 3 1 [] = Some [1; 4; 7; 10]
  /\ range_while 5 1 0 2 [] = Some [].
Proof.
  destruct (range_generators_return 1 10 3 5)
    as (_ & Hreturns & _ & _ & _).
  destruct (range_generators_return 2 1 0 5)
    as (_ & _ & _ & Hempty & _).
  split.
  - rewrite (Hreturns 4%nat); [reflexivity|lia| |reflexivity].
    intros k Hk. do 4 (destruct k as [|k]; [reflexivity|]). lia.
  - apply Hempty; [reflexivity|lia].
Defined.

(** C2 as stated fails on both counts.  With [step = 0] no error is
    signalled: on the empty interval [5..1] every generator returns the
    empty list, and on [1..2] the loop never ends, whatever the fuel.  With
    [step > 0] termination is not assured either: from 1e16 to 1e16 + 2 in
    steps of 1.0 the sum 1e16 + 1.0 rounds back to 1e16 and the loop never
    ends. *)
Lemma range_step_zero_counterexample :
  Forall (fun r => r = Some []) (all_generators 1 5 1 0)
  /\ (forall fuel, Forall (fun r => r = None) (all_generators fuel 1 2 0))
  /\ (0 <? 1) = true
  /\ (forall fuel,
        Forall (fun r => r = None)
               (all_generators fuel 10000000000000000 10000000000000002 1)).
Proof.
  split; [by repeat constructor|]. split; [|split; [reflexivity|]].
  - intros fuel. repeat constructor; by apply range_while_stuck.
  - intros fuel. repeat constructor; by apply range_while_stuck.
Qed.

(** C7, as the code has it.  A returned range lists [round(c, 2)] for the
    values [c] the loop visits, [min], [min + step], [(min + step) + step],
    ... in float arithmetic: every value listed is [<= max] before it is
    rounded and the first value not listed is not [<= max]; the range starts
    with [round(min, 2)] when [min <= max] and is empty otherwise.  The
    stated example is [1, 4, 7, 10]. *)
Theorem generate_price_range_covers (min_price max_price step : float)
  (fuel : nat) :
  (forall prices,
     generate_price_range fuel min_price max_price step = Some prices ->
     exists n,
       prices = appended min_price step n
       /\ (forall k, (k < n)%nat ->
                     (current_at min_price step k <=? max_price) = true)
       /\ (current_at min_price step n <=? max_price) = false
       /\ ((min_price <=? max_price) = true ->
           head prices = Some (Py64.round2 min_price))
       /\ ((min_price <=? max_price) = false -> prices = []))
  /\ ((4 < fuel)%nat -> generate_price_range fuel 1 10 3 = Some [1; 4; 7; 10]).
Proof.
  unfold generate_price_range. split.
  - intros prices (n & _ & Hprices & Hbelow & Hstop)%range_while_returned.
    cbn [app] in Hprices. exists n. repeat (split; [done|]). split.
    + intros Hle. destruct n as [|n].
      * change (current_at min_price step 0) with min_price in Hstop.
        congruence.
      * by rewrite Hprices, appended_succ.
    + intros Hle. destruct n as [|n]; [done|].
      pose proof (Hbelow 0%nat ltac:(lia)) as Hfirst.
      change (current_at min_price step 0) with min_price in Hfirst.
      congruence.
  - intros Hfuel.
    rewrite (range_while_returns 10 3 4 fuel 1 []); [reflexivity|lia| |].
    + intros k Hk. do 4 (destruct k as [|k]; [reflexivity|]). lia.
    + reflexivity.
Qed.

Lemma generate_price_range_covers_witness :
  exists n, [1; 4; 7; 10] = appended 1 3 n
            /\ (current_at 1 3 n <=? 10) = false.
Proof.
  destruct (generate_price_range_covers 1 10 3 5) as [Hshape _].
  destruct (Hshape [1; 4; 7; 10] eq_refl) as (n & Hprices & _ & Hstop & _).
  exists n. split; [exact Hprices|exact Hstop].
Defined.

(** C7 as stated fails.  From 1 to 2 in steps of 0.01 the range has 100
    values and ends at 1.99: 2.0 is missing and the last element plus the
    step is not above [max].  From 1/512 to 1/128 in steps of 1/512 the
    rounded range is [0, 0, 0.01, 0.01], which is not strictly ascending,
    does not start at [min] and ends above [max]. *)
Lemma generate_price_range_counterexample :
  (0 <? 0.01) = true
  /\ (exists prices,
        generate_price_range 200 1 2 0.01 = Some prices
        /\ length prices = 100%nat
        /\ last prices = Some 1.99
        /\ (2 <? 1.99 + 0.01) = false
        /\ ~ covers 1 2 0.01 prices)
  /\ generate_price_range 5 0.001953125 0.0078125 0.001953125
     = Some [0; 0; 0.01; 0.01]
  /\ ~ covers 0.001953125 0.0078125 0.001953125 [0; 0; 0.01; 0.01].
Proof.
  split; [reflexivity|]. split; [|split; [reflexivity|]].
  - eexists. split; [vm_compute; reflexivity|].
    split; [reflexivity|]. split; [reflexivity|]. split; [reflexivity|].
    intros (_ & _ & y & Hlast & _ & Habove).
    vm_compute in Hlast. injection Hlast as <-.
    vm_compute in Habove. discriminate Habove.
  - intros [[Hasc _] _]. vm_compute in Hasc. discriminate Hasc.
Qed.
End RangeClaims.

(** ** The plausibility filter *)

Section FilterClaims.
Local Open Scope Q_scope.

Lemma div_positive (a b : Q) : 0 < b -> Py.div a b = Ret (a / b).
Proof.
  intros Hb. unfold Py.div.
  destruct (Qeq_bool b 0) eqn:Hz; [|done].
  apply Qeq_bool_iff in Hz. lra.
Qed.

Lemma density_total (weight_kg volume_liters : Q) :
  exists d, density weight_kg volume_liters = Ret d.
Proof.
  unfold density. destruct (Py.gt volume_liters 0) eqn:Hv; [|by eexists].
  apply Py_lt_iff in Hv. rewrite div_positive by done. by eexists.
Qed.

Lemma value_per_kg_total (price weight_kg : Q) :
  exists v, value_per_kg price weight_kg = Ret v.
Proof.
  unfold value_per_kg. destruct (Py.gt weight_kg 0) eqn:Hw; [|by eexists].
  apply Py_lt_iff in Hw. rewrite div_positive by done. by eexists.
Qed.

Ltac split_ifs :=
  repeat match goal with
         | |- context [if ?c then _ else _] => destruct c
         end.

(** C10.  The filter returns a boolean on every input: both divisions
    are guarded, a size [<= 0] giving density 0 and a weight of 0 giving
    value-per-kg 0. *)
Theorem is_realistic_combination_total
  (price weight size dmin dmax : Q) :
  (exists b, is_realistic_combination price weight size dmin dmax = Ret b)
  /\ (size <= 0 -> density (weight / 1000) (size / 1000) = Ret 0)
  /\ (weight == 0 -> value_per_kg price (weight / 1000) = Ret 0).
Proof.
  split; [|split].
  - unfold is_realistic_combination. cbv zeta.
    destruct (density_total (weight / 1000) (size / 1000)) as [d ->].
    destruct (value_per_kg_total price (weight / 1000)) as [v ->].
    cbn [obind]. split_ifs; by eexists.
  - intros Hsize. unfold density.
    assert (Hv : Py.gt (size / 1000) 0 = false).
    { apply Py_lt_false. apply Qle_shift_div_r; lra. }
    by rewrite Hv.
  - intros Hweight. unfold value_per_kg.
    assert (Hw : Py.gt (weight / 1000) 0 = false).
    { apply Py_lt_false. rewrite Hweight. discriminate. }
    by rewrite Hw.
Qed.

Lemma is_realistic_combination_total_witness :
  (exists b, is_realistic_combination 1 0 0 0 10 = Ret b)
  /\ density (0 / 1000) (0 / 1000) = Ret 0
  /\ value_per_kg 1 (0 / 1000) = Ret 0.
Proof.
  destruct (is_realistic_combination_total 1 0 0 0 10) as (Hb & Hd & Hv).
  split; [exact Hb|]. split; [apply Hd; discriminate|apply Hv; reflexivity].
Defined.

(** C9.  Narrowing the density window never turns a rejected
    combination into an accepted one. *)
Theorem is_realistic_combination_monotone
  (p w s dmin dmax dmin' dmax' : Q) :
  dmin <= dmin' -> dmax' <= dmax ->
  is_realistic_combination p w s dmin dmax = Ret false ->
  is_realistic_combination p w s dmin' dmax' = Ret false.
Proof.
  intros Hmin Hmax. unfold is_realistic_combination. cbv zeta.
  destruct (density_total (w / 1000) (s / 1000)) as [d ->]. cbn [obind].
  destruct (Py.lt d dmin' || Py.gt d dmax') eqn:Hnarrow; [done|].
  destruct (Py.lt d dmin || Py.gt d dmax) eqn:Hwide; [|done].
  apply orb_false_iff in Hnarrow as [Hlo Hhi].
  apply Py_lt_false in Hlo, Hhi.
  apply orb_true_iff in Hwide as [Hlt|Hgt]; apply Py_lt_iff in Hlt || apply Py_lt_iff in Hgt; lra.
Qed.

Lemma is_realistic_combination_monotone_witness :
  is_realistic_combination 1 20000 1000 0 10 = Ret false
  /\ is_realistic_combination 1 20000 1000 1 5 = Ret false.
Proof.
  split; [reflexivity|].
  apply (is_realistic_combination_monotone 1 20000 1000 0 10 1 5);
    [discriminate|discriminate|reflexivity].
Defined.
End FilterClaims.

(** ** Demand estimation and the generator *)

Section DemandClaims.
Local Open Scope Q_scope.

Lemma Py_max_lower (a b : Q) : a <= Py.max a b.
Proof.
  unfold Py.max. destruct (Py.lt a b) eqn:H; [|lra].
  apply Py_lt_iff in H. lra.
Qed.

Lemma Py_min_upper (a b : Q) : Py.min a b <= b.
Proof.
  unfold Py.min. destruct (Py.lt b a) eqn:H; [lra|].
  by apply Py_lt_false in H.
Qed.

Lemma Py_min_lower (a b c : Q) : c <= a -> c <= b -> c <= Py.min a b.
Proof. unfold Py.min. by destruct (Py.lt b a). Qed.

(** The clamp [min(max(1, base), max_demand)]: never above the tier's
    cap, and at least 1 as soon as the cap is. *)
Lemma estimate_base_demand_bounds
  (wholesale size weight : Q) (app_config : AppConfig) :
  match get_demand_tier wholesale app_config with
  | Some tier =>
      estimate_base_demand wholesale size weight app_config
        <= max_demand_monthly tier
      /\ (1 <= max_demand_monthly tier ->
          1 <= estimate_base_demand wholesale size weight app_config)
  | None => estimate_base_demand wholesale size weight app_config = 5
  end.
Proof.
  unfold estimate_base_demand.
  destruct (get_demand_tier wholesale app_config) as [tier|]; [|done].
  cbv zeta. split.
  - apply Py_min_upper.
  - intros Hcap. apply Py_min_lower; [apply Py_max_lower|done].
Qed.

Lemma for_each_invariant {A St} (I : St -> Prop)
  (l : list A) (body : A -> St -> outcome St) :
  (forall a st st', I st -> body a st = Ret st' -> I st') ->
  forall st st', I st -> for_each l body st = Ret st' -> I st'.
Proof.
  intros Hbody. induction l as [|a l IH]; intros st st' Hst Hrun;
    cbn [for_each] in Hrun.
  - by inversion Hrun; subst.
  - destruct (body a st) as [st1|e] eqn:Hstep; [|done].
    cbn [obind] in Hrun. eauto.
Qed.

Lemma insert_desc_elem_of {A} (key : A -> Q) (x y : A) (l : list A) :
  y ∈ insert_desc key x l -> y = x \/ y ∈ l.
Proof.
  induction l as [|z l IH]; cbn [insert_desc].
  - intros ->%list_elem_of_singleton. by left.
  - destruct (Py.lt (key x) (key z)).
    + intros [->|Hin]%elem_of_cons; [right; by left|].
      destruct (IH Hin); [by left|right; by right].
    + intros [->|Hin]%elem_of_cons; [by left|by right].
Qed.

Lemma sort_desc_elem_of {A} (key : A -> Q) (y : A) (l : list A) :
  y ∈ sort_desc key l -> y ∈ l.
Proof.
  induction l as [|x l IH]; cbn [sort_desc foldr]; [done|].
  intros [->|Hin]%insert_desc_elem_of; [by left|right; by apply IH].
Qed.

Lemma slice_to_elem_of {A} (n : Z) (y : A) (l : list A) :
  y ∈ slice_to n l -> y ∈ l.
Proof.
  unfold slice_to. destruct (0 <=? n)%Z; apply subseteq_take.
Qed.

Lemma apply_max_candidates_elem_of params c candidates :
  c ∈ apply_max_candidates params candidates -> c ∈ candidates.
Proof.
  unfold apply_max_candidates.
  destruct (max_candidates params) as [n|]; [|done].
  destruct (negb (n =? 0)%Z && (n <? Z.of_nat (length candidates))%Z);
    [|done].
  intros Hin%slice_to_elem_of. by apply sort_desc_elem_of in Hin.
Qed.

Lemma candidate_step_invariant params app_config price weight size mult :
  forall st st',
    demand_estimated app_config st ->
    candidate_step params app_config price weight size mult st = Ret st' ->
    demand_estimated app_config st'.
Proof.
  intros st st' Hst. unfold candidate_step.
  destruct (is_realistic_combination _ _ _ _ _) as [[|]|]; cbn [obind negb];
    [|by intros [= <-]|done].
  destruct (estimate_retail_price price app_config) as [retail|];
    cbn [obind]; [|done].
  intros [= <-]. apply Forall_app. split; [done|]. by repeat constructor.
Qed.

Lemma generated_demand_estimated fuel params app_config candidates :
  generate_all_product_candidates fuel params app_config
  = Some (Ret candidates) ->
  demand_estimated app_config candidates.
Proof.
  unfold generate_all_product_candidates. intros Hrun.
  destruct (generate_price_range _ _ _ _) as [prices|]; [|done].
  destruct (generate_weight_range _ _ _ _) as [weights|]; [|done].
  destruct (generate_size_range _ _ _ _) as [sizes|]; [|done].
  destruct (generate_shipping_costs _ _ _ _) as [shipping|]; [|done].
  cbn in Hrun. injection Hrun as Hrun.
  match type of Hrun with obind ?loop _ = _ =>
    destruct loop as [all|] eqn:Hloop; [|done] end.
  cbn [obind] in Hrun. injection Hrun as <-.
  assert (Hall : demand_estimated app_config all).
  { revert Hloop. apply for_each_invariant; [|constructor].
    intros price. apply for_each_invariant. intros weight.
    apply for_each_invariant. intros size. apply for_each_invariant.
    intros mult. apply candidate_step_invariant. }
  apply Forall_forall. intros c Hc%apply_max_candidates_elem_of.
  unfold demand_estimated in Hall. rewrite Forall_forall in Hall. by apply Hall.
Qed.
End DemandClaims.

Section GeneratorClaims.
Import samples.
Local Open Scope Q_scope.

(** C8, as the code has it.  A generated candidate carries
    [estimate_base_demand] of its own price, size and weight.  When its
    wholesale price matches a demand tier, that demand never exceeds the
    tier's [max_demand_monthly], and is at least 1 whenever
    [max_demand_monthly] itself is at least 1; when no tier matches it is
    the fallback 5. *)
Theorem generated_base_demand_capped
  (fuel : nat) (params : GenerationParams) (app_config : AppConfig)
  (candidates : list ProductCandidate) (c : ProductCandidate) :
  generate_all_product_candidates fuel params app_config
  = Some (Ret candidates) ->
  c ∈ candidates ->
  base_demand c
  = estimate_base_demand (wholesale_price c) (size_cm3 c) (weight_g c)
                         app_config
  /\ match get_demand_tier (wholesale_price c) app_config with
     | Some tier =>
         base_demand c <= max_demand_monthly tier
         /\ (1 <= max_demand_monthly tier -> 1 <= base_demand c)
     | None => base_demand c = 5
     end.
Proof.
  intros Hrun Hc. apply generated_demand_estimated in Hrun.
  unfold demand_estimated in Hrun. rewrite Forall_forall in Hrun.
  specialize (Hrun c Hc). split; [done|]. rewrite Hrun.
  apply estimate_base_demand_bounds.
Qed.

Lemma generated_base_demand_capped_witness :
  generate_all_product_candidates 2 single_point default_app_config
  = Some (Ret [single_candidate 320])
  /\ 1 <= base_demand (single_candidate 320) <= 500.
Proof.
  assert (Hrun : generate_all_product_candidates 2 single_point
                   default_app_config
                 = Some (Ret [single_candidate 320])) by reflexivity.
  split; [exact Hrun|].
  destruct (generated_base_demand_capped 2 single_point default_app_config
              [single_candidate 320] (single_candidate 320) Hrun)
    as [_ Hcap]; [by left|].
  cbn in Hcap. destruct Hcap as [Hhi Hlo].
  split; [apply Hlo; discriminate|exact Hhi].
Defined.

(** C8 as stated fails for a tier capped below 1: the generated
    candidate matches the tier and has demand 1/2. *)
Lemma generated_base_demand_counterexample :
  generate_all_product_candidates 2 single_point low_cap_app_config
  = Some (Ret [single_candidate (1 # 2)])
  /\ get_demand_tier (wholesale_price (single_candidate (1 # 2)))
                     low_cap_app_config = Some low_cap_tier
  /\ ~ 1 <= base_demand (single_candidate (1 # 2)).
Proof. split; [reflexivity|]. split; [reflexivity|]. by intros H. Qed.
End GeneratorClaims.


(** ** The optimizer: failure semantics and result classification *)

Section OptimizerClaims.
Import pywraplp spcplan plan_samples.
Context {S V : Type} `{!Solver S V}.
Local Open Scope Q_scope.

Lemma extract_product_status (self : @PurchaseOrderOptimizer S V) month product st st' :
  extract_product self month product st = Ret st' ->
  results_status (fst st') = results_status (fst st).
Proof.
  unfold extract_product.
  destruct (variable self (id product) month) as [v|]; [|done].
  destruct (the_solver self) as [s|]; [|done].
  cbn [obind]. destruct (solution_value s v) as [value|]; [|done].
  cbn [obind]. destruct (0 <? Py.int value)%Z; by intros [= <-].
Qed.

Lemma extract_month_status (self : @PurchaseOrderOptimizer S V) products month r r' :
  extract_month self products month r = Ret r' ->
  results_status r' = results_status r.
Proof.
  unfold extract_month.
  match goal with |- context [for_each products ?body ?init] =>
    destruct (for_each products body init) as [st|] eqn:Hloop; [|done] end.
  cbn [obind]. intros [= <-]. cbn.
  revert Hloop.
  apply (for_each_invariant
           (fun st => results_status (fst st) = results_status r)); [|done].
  intros p st0 st1 Hst Hstep.
  by rewrite (extract_product_status _ _ _ _ _ Hstep).
Qed.

Lemma extract_total_status (self : @PurchaseOrderOptimizer S V) r product :
  results_status (extract_total self r product) = results_status r.
Proof. unfold extract_total. by case_match. Qed.

Lemma extract_totals_status (self : @PurchaseOrderOptimizer S V) products : forall r,
  results_status (foldl (extract_total self) r products) = results_status r.
Proof.
  induction products as [|p products IH]; intros r; cbn [foldl]; [done|].
  by rewrite IH, extract_total_status.
Qed.

(** The status of what extraction returns is the one [classify] picks. *)
Lemma extract_results_status
  (self : @PurchaseOrderOptimizer S V) (products : list Product)
  (solver_status : Z) (r : report) :
  _extract_results self products solver_status = Ret r ->
  results_status r = classify solver_status.
Proof.
  unfold _extract_results.
  destruct (solved (classify solver_status)).
  - destruct (the_solver self) as [s|]; [|done]. cbn [obind].
    destruct (Objective_Value s) as [objective|]; [|done]. cbn [obind].
    match goal with |- context [for_each ?l ?body ?init] =>
      destruct (for_each l body init) as [r1|] eqn:Hloop; [|done] end.
    cbn [obind]. intros [= <-]. rewrite extract_totals_status.
    revert Hloop.
    apply (for_each_invariant
             (fun r0 => results_status r0 = classify solver_status));
      [|done].
    intros m r0 r1' Hr0 Hstep.
    by rewrite (extract_month_status _ _ _ _ _ Hstep).
  - cbn [obind]. by intros [= <-].
Qed.

(** C6.  Result extraction gives every solver result code exactly one
    status: OPTIMAL for the code [Solver.OPTIMAL], FEASIBLE for the code
    [Solver.FEASIBLE] and INFEASIBLE for every other code; extraction
    itself never answers ERROR.  For every code other than these two,
    extraction returns the empty defaults: objective 0 and empty purchase
    orders, monthly breakdown and product totals. *)
Theorem extract_results_classifies
  (self : @PurchaseOrderOptimizer S V) (products : list Product)
  (solver_status : Z) :
  (forall r, _extract_results self products solver_status = Ret r ->
     (solver_status = pywraplp.OPTIMAL -> results_status r = OPTIMAL)
     /\ (solver_status = pywraplp.FEASIBLE -> results_status r = FEASIBLE)
     /\ (solver_status <> pywraplp.OPTIMAL ->
         solver_status <> pywraplp.FEASIBLE ->
         results_status r = INFEASIBLE)
     /\ results_status r <> ERROR)
  /\ (solver_status <> pywraplp.OPTIMAL ->
      solver_status <> pywraplp.FEASIBLE ->
      _extract_results self products solver_status
      = Ret {| results_status := INFEASIBLE;
               objective_value := 0;
               purchase_orders := ∅;
               monthly_breakdown := ∅;
               product_totals := ∅ |}).
Proof.
  assert (Hother : solver_status <> pywraplp.OPTIMAL ->
                   solver_status <> pywraplp.FEASIBLE ->
                   classify solver_status = INFEASIBLE).
  { intros Hopt Hfeas. unfold classify.
    apply Z.eqb_neq in Hopt, Hfeas. by rewrite Hopt, Hfeas. }
  split.
  - intros r Hr. rewrite (extract_results_status _ _ _ _ Hr).
    split; [by intros ->|]. split; [by intros ->|]. split; [exact Hother|].
    unfold classify. by repeat case_match.
  - intros Hopt Hfeas. unfold _extract_results.
    by rewrite (Hother Hopt Hfeas).
Qed.

Lemma optimize_body_build (self : @PurchaseOrderOptimizer S V) products :
  optimize_body self products
  = obind (build_model self products) (fun self' =>
      obind (the_solver self') (fun s =>
        obind (Solve s) (fun solved =>
          _extract_results (set_solver self' (snd solved)) products
                           (fst solved)))).
Proof.
  unfold optimize_body, build_model.
  destruct (_create_variables self products) as [self1|]; [|done].
  cbn [obind].
  by destruct (_create_objective self1 products) as [self2|].
Qed.

Lemma raised_in_try_body (self : @PurchaseOrderOptimizer S V) products e :
  raised_in_try self products e -> optimize_body self products = Raise e.
Proof.
  rewrite optimize_body_build.
  intros [->|(self' & s & Hbuild & Hs & Hsolve)]; [done|].
  rewrite Hbuild. cbn [obind]. rewrite Hs. cbn [obind]. by rewrite Hsolve.
Qed.

(** C5.  No instance of [Exception] leaves [optimize].  An engine that is
    not available gives an ERROR result naming it; an [Exception] raised
    while the variables, the objective or the constraints are built, or by
    [Solve], gives an ERROR result carrying its message; a
    [KeyboardInterrupt] raised there propagates. *)
Theorem optimize_failure_semantics
  (self : @PurchaseOrderOptimizer S V) (products : list Product) :
  (forall msg, optimize self products <> Raise (Exception msg))
  /\ (CreateSolver (solver_type (config self)) = None ->
      optimize self products
      = Ret (Error ("Solver " ++ solver_type (config self) ++ " unavailable")))
  /\ (forall s msg,
        CreateSolver (solver_type (config self)) = Some s ->
        raised_in_try (set_solver self s) products (Exception msg) ->
        optimize self products = Ret (Error msg)
        /\ status_of (Error msg) = ERROR)
  /\ (forall s,
        CreateSolver (solver_type (config self)) = Some s ->
        raised_in_try (set_solver self s) products KeyboardInterrupt ->
        optimize self products = Raise KeyboardInterrupt).
Proof.
  unfold optimize. split; [|split; [|split]].
  - intros msg. destruct (CreateSolver _) as [s|]; [|done].
    by destruct (optimize_body _ _) as [r|[msg'|]].
  - by intros ->.
  - intros s msg -> Hraised.
    by rewrite (raised_in_try_body _ _ _ Hraised).
  - intros s -> Hraised. by rewrite (raised_in_try_body _ _ _ Hraised).
Qed.
End OptimizerClaims.

Section OptimizerWitnesses.
Import pywraplp spcplan plan_samples.
Local Open Scope Q_scope.

Lemma extract_results_classifies_witness :
  (exists r, _extract_results (Solver0 := recorder scenario_engine)
               (planned one_month [widget]) [widget] pywraplp.OPTIMAL = Ret r
             /\ results_status r = OPTIMAL)
  /\ _extract_results (Solver0 := recorder scenario_engine)
       (planned one_month [widget]) [widget] 2
     = Ret {| results_status := INFEASIBLE; objective_value := 0;
              purchase_orders := ∅; monthly_breakdown := ∅;
              product_totals := ∅ |}.
Proof.
  destruct (extract_results_classifies
              (Solver0 := recorder scenario_engine)
              (planned one_month [widget]) [widget] pywraplp.OPTIMAL)
    as [Hfst _].
  destruct (extract_results_classifies
              (Solver0 := recorder scenario_engine)
              (planned one_month [widget]) [widget] 2) as [_ Hsnd].
  split.
  - destruct (_extract_results (Solver0 := recorder scenario_engine)
                (planned one_month [widget]) [widget] pywraplp.OPTIMAL)
      as [r|e] eqn:Hr; [|vm_compute in Hr; discriminate Hr].
    exists r. split; [reflexivity|]. by apply (Hfst r).
  - apply Hsnd; discriminate.
Defined.

Lemma optimize_failure_semantics_witness :
  optimize (Solver0 := no_engine) (__init__ one_month) [widget]
  = Ret (Error "Solver SCIP unavailable")
  /\ optimize (Solver0 := failing_solve (Exception "boom"))
       (__init__ one_month) [widget] = Ret (Error "boom")
  /\ optimize (Solver0 := failing_solve KeyboardInterrupt)
       (__init__ one_month) [widget] = Raise KeyboardInterrupt.
Proof.
  split; [|split].
  - apply (optimize_failure_semantics (Solver0 := no_engine)
             (__init__ one_month) [widget]). reflexivity.
  - apply (optimize_failure_semantics
             (Solver0 := failing_solve (Exception "boom"))
             (__init__ one_month) [widget]) with (s := empty_model);
      [reflexivity|].
    right. do 2 eexists. split; [reflexivity|]. split; reflexivity.
  - apply (optimize_failure_semantics
             (Solver0 := failing_solve KeyboardInterrupt)
             (__init__ one_month) [widget]) with (s := empty_model);
      [reflexivity|].
    right. do 2 eexists. split; [reflexivity|]. split; reflexivity.
Defined.
End OptimizerWitnesses.

(** ** The model the recorder receives *)

Section RecorderFacts.
Import pywraplp spcplan.
Context (engine : model -> answer).
Local Open Scope Q_scope.

Abbreviation optimizer := (@PurchaseOrderOptimizer model nat).
Abbreviation rec := (recorder engine).


Lemma declare_declare (s : model) (l1 l2 : list var_decl) :
  declare (declare s l1) l2 = declare s (l1 ++ l2).
Proof. unfold declare; cbn. by rewrite app_assoc. Qed.

Lemma declare_nil (s : model) : declare s [] = s.
Proof. destruct s. unfold declare; cbn. by rewrite app_nil_r. Qed.





End RecorderFacts.

(** ** Variable bounds *)

Section BoundFacts.
Import pywraplp PrimFloat FloatOps SpecFloat spcplan64.
Context (engine : model -> answer) `{!Py64.Libm}.

Abbreviation optimizer64 := (@PurchaseOrderOptimizer model nat).
Abbreviation rec64 := (recorder engine).

(** Truncation is the floor for a float that is not below zero. *)
Lemma Py64_int_floor (x : float) :
  ltb x zero = false -> Py64.int x = Py64.floor x.
Proof.
  rewrite FloatAxioms.ltb_spec. unfold Py64.int, Py64.floor.
  change (Prim2SF zero) with (S754_zero false).
  destruct (Prim2SF x) as [s|s| |[|] m e]; try done.
Qed.

Lemma map_outcome_elem {A B} (f : A -> outcome B) (l : list A) (ys : list B) :
  spcplan.map_outcome f l = Ret ys ->
  Forall2 (fun x y => f x = Ret y) l ys.
Proof.
  revert ys. induction l as [|x l IH]; intros ys; cbn [spcplan.map_outcome].
  - intros [= <-]. constructor.
  - destruct (f x) as [y|] eqn:Hx; [|done]. cbn [obind].
    destruct (spcplan.map_outcome f l) as [ys'|]; [|done]. cbn [obind].
    intros [= <-]. constructor; [done|by apply IH].
Qed.

Lemma map_outcome_raises {A B} (f : A -> outcome B) (l : list A) (x : A)
  (e : exn) :
  x ∈ l -> f x = Raise e -> exists e', spcplan.map_outcome f l = Raise e'.
Proof.
  induction l as [|y l IH]; [by intros ?%elem_of_nil|].
  intros Hx Hraise. cbn [spcplan.map_outcome].
  destruct (f y) as [z|e1] eqn:Hy; [|by eexists]. cbn [obind].
  apply elem_of_cons in Hx as [->|Hx]; [congruence|].
  destruct (IH Hx Hraise) as [e' ->]. by eexists.
Qed.

(** One pass of the inner loop on the recorder: the declaration is
    computed first, and the variable created when that succeeds. *)
Lemma declare_variable_recorded (p : Product) (m : Z) (self : optimizer64)
  (s : model) (by_month : gmap Z nat) :
  solver self = Some s ->
  variables self !! id p = Some by_month ->
  declare_variable (Solver0 := rec64) p m self
  = obind (declaration (config self) p m) (fun decl =>
      Ret (set_solver
             (set_variables self
                (<[id p := <[m := length (model_vars s)]> by_month]>
                   (variables self)))
             (spcplan.declare s [decl]))).
Proof.
  intros Hs Hvars. unfold declare_variable, declaration, buffered_demand.
  destruct (forecast_month (demand_forecast p) m) as [forecast|];
    cbn [obind]; [|done].
  destruct (Py64.int _) as [max_qty|]; cbn [obind]; [|done].
  unfold the_solver. rewrite Hs. cbn [obind IntVar recorder fst snd].
  by rewrite Hvars.
Qed.

Lemma bound_declared (p : Product) (m : Z) (self : optimizer64)
  (s : model) (by_month : gmap Z nat) (decl : var_decl) :
  solver self = Some s ->
  variables self !! id p = Some by_month ->
  var_label decl = q_ (id p) m ->
  let self' :=
    set_solver
      (set_variables self
         (<[id p := <[m := length (model_vars s)]> by_month]>
            (variables self)))
      (spcplan.declare s [decl]) in
  bound self' (id p) m
  /\ (forall pid m', bound self pid m' -> bound self' pid m').
Proof.
  intros Hs Hvars Hlabel. cbv zeta. split.
  - unfold bound. cbn [variables solver set_solver set_variables].
    eexists _, _, (length (model_vars s)), decl. split; [done|].
    rewrite lookup_insert_eq. split; [done|].
    rewrite lookup_insert_eq. split; [done|].
    split; [|done]. cbn [model_vars spcplan.declare].
    by rewrite lookup_app_r, Nat.sub_diag by lia.
  - intros pid m' (s0 & d0 & v & decl0 & Hs0 & Hd0 & Hv & Hdecl & Hlabel0).
    rewrite Hs in Hs0. injection Hs0 as <-.
    unfold bound. cbn [variables solver set_solver set_variables].
    destruct (decide (pid = id p)) as [->|Hpid].
    + rewrite Hvars in Hd0. injection Hd0 as <-.
      destruct (decide (m' = m)) as [->|Hm'].
      * eexists _, _, (length (model_vars s)), decl. split; [done|].
        rewrite lookup_insert_eq. split; [done|].
        rewrite lookup_insert_eq. split; [done|].
        split; [|done]. cbn [model_vars spcplan.declare].
        by rewrite lookup_app_r, Nat.sub_diag by lia.
      * eexists _, _, v, decl0. split; [done|].
        rewrite lookup_insert_eq. split; [done|].
        rewrite lookup_insert_ne by done. split; [done|].
        split; [|done]. cbn [model_vars spcplan.declare].
        by apply lookup_app_l_Some.
    + eexists _, d0, v, decl0. split; [done|].
      rewrite lookup_insert_ne by done. split; [done|]. split; [done|].
      split; [|done]. cbn [model_vars spcplan.declare].
      by apply lookup_app_l_Some.
Qed.

Lemma declaration_label (cfg : OptimizerConfig) (p : Product) (m : Z)
  (decl : var_decl) :
  declaration cfg p m = Ret decl ->
  var_label decl = q_ (id p) m /\ var_lb decl = 0%Z.
Proof.
  unfold declaration.
  destruct (forecast_month (demand_forecast p) m) as [forecast|];
    cbn [obind]; [|done].
  destruct (Py64.int _) as [max_qty|]; cbn [obind]; [|done].
  by intros [= <-].
Qed.

(** The inner loop over a list of months. *)
Lemma declare_months_recorded (p : Product) (ms : list Z) :
  forall (self : optimizer64) (s : model),
    solver self = Some s ->
    is_Some (variables self !! id p) ->
    match spcplan.map_outcome (declaration (config self) p) ms with
    | Ret decls =>
        exists self',
          for_each ms (declare_variable (Solver0 := rec64) p) self = Ret self'
          /\ config self' = config self
          /\ solver self' = Some (spcplan.declare s decls)
          /\ is_Some (variables self' !! id p)
          /\ (forall m, m ∈ ms -> bound self' (id p) m)
          /\ (forall pid m, bound self pid m -> bound self' pid m)
    | Raise e =>
        for_each ms (declare_variable (Solver0 := rec64) p) self = Raise e
    end.
Proof.
  induction ms as [|m ms IH]; intros self s Hs [d Hd];
    cbn [spcplan.map_outcome for_each].
  - exists self. rewrite declare_nil.
    repeat split; [done|by eexists|by intros m ?%elem_of_nil|done].
  - rewrite (declare_variable_recorded p m self s d Hs Hd).
    destruct (declaration (config self) p m) as [decl|e] eqn:Hdecl;
      cbn [obind]; [|done].
    apply declaration_label in Hdecl as [Hlabel _].
    destruct (bound_declared p m self s d decl Hs Hd Hlabel)
      as [Hbound1 Hkeep1].
    match goal with |- context [for_each ms _ ?st] => set (self1 := st) end.
    fold self1 in Hbound1, Hkeep1.
    specialize (IH self1 (spcplan.declare s [decl]) eq_refl).
    change (config self1) with (config self) in IH.
    destruct (spcplan.map_outcome (declaration (config self) p) ms)
      as [decls|e]; cbn [obind].
    + destruct IH as (self2 & Hloop & Hcfg2 & Hs2 & Hd2 & Hbound2 & Hkeep2).
      { subst self1. cbn [variables set_solver set_variables].
        rewrite lookup_insert_eq. by eexists. }
      exists self2. split; [done|]. split; [done|]. split.
      { by rewrite Hs2, declare_declare. }
      split; [done|]. split.
      * intros m' [->|Hin]%elem_of_cons; [by apply Hkeep2|by apply Hbound2].
      * intros pid m' Hb. by apply Hkeep2, Hkeep1.
    + apply IH. subst self1. cbn [variables set_solver set_variables].
      rewrite lookup_insert_eq. by eexists.
Qed.

(** The outer loop over the products. *)
Lemma declare_products_recorded (products : list Product) :
  forall (self : optimizer64) (s : model),
    solver self = Some s ->
    match spcplan.map_outcome
            (fun p => spcplan.map_outcome (declaration (config self) p)
                        (range 1 (planning_months (config self) + 1)))
            products with
    | Ret per_product =>
        exists self',
          for_each products (fun product self =>
            let self :=
              set_variables self (<[id product := ∅]> (variables self)) in
            for_each (months self)
                     (declare_variable (Solver0 := rec64) product) self)
            self = Ret self'
          /\ config self' = config self
          /\ solver self' = Some (spcplan.declare s (concat per_product))
          /\ (forall pid m,
                m ∈ range 1 (planning_months (config self) + 1) ->
                pid ∈ map id products \/ bound self pid m ->
                bound self' pid m)
    | Raise e =>
        for_each products (fun product self =>
          let self :=
            set_variables self (<[id product := ∅]> (variables self)) in
          for_each (months self)
                   (declare_variable (Solver0 := rec64) product) self)
          self = Raise e
    end.
Proof.
  induction products as [|p products IH]; intros self s Hs;
    cbn [spcplan.map_outcome for_each].
  - exists self. cbn [concat]. rewrite declare_nil.
    repeat split; [done|]. intros pid m _ [Hin|Hb]; [|done].
    by apply elem_of_nil in Hin.
  - set (self0 := set_variables self (<[id p := ∅]> (variables self))).
    pose proof (declare_months_recorded p (months self0) self0 s Hs) as Hp.
    change (config self0) with (config self) in Hp.
    change (months self0)
      with (range 1 (planning_months (config self) + 1)) in Hp |- *.
    destruct (spcplan.map_outcome (declaration (config self) p) _)
      as [decls|e]; cbn [obind].
    2:{ rewrite Hp; [done|]. subst self0.
        cbn [variables set_variables]. rewrite lookup_insert_eq.
        by eexists. }
    destruct Hp as (self1 & Hloop & Hcfg1 & Hs1 & _ & Hbound1 & Hkeep1).
    { subst self0. cbn [variables set_variables]. rewrite lookup_insert_eq.
      by eexists. }
    rewrite Hloop. cbn [obind].
    specialize (IH self1 _ Hs1). rewrite Hcfg1 in IH.
    change (config self0) with (config self) in IH.
    destruct (spcplan.map_outcome _ products) as [per|e]; cbn [obind];
      [|done].
    destruct IH as (self2 & Hrest & Hcfg2 & Hs2 & Hbound2).
    exists self2. split; [done|]. split; [exact Hcfg2|]. split.
    { by rewrite Hs2, declare_declare. }
    intros pid m Hm Hcase. apply Hbound2; [done|].
    destruct (decide (pid ∈ map id products)) as [Hin|Hnin]; [by left|].
    right. destruct Hcase as [Hin|Hb].
    + cbn [map] in Hin. apply elem_of_cons in Hin as [->|Hin]; [|done].
      by apply Hbound1.
    + destruct (decide (pid = id p)) as [->|Hpid]; [by apply Hbound1|].
      apply Hkeep1.
      destruct Hb as (s0 & d0 & v & decl & Hs0 & Hd0 & Hrest0).
      exists s0, d0, v, decl. split; [done|]. split; [|done].
      subst self0. cbn [variables set_variables]. by rewrite lookup_insert_ne.
Qed.

(** [_create_variables] on the recorder returns exactly when every
    declaration can be computed, having declared them in order and bound
    every product id and month; otherwise it raises what the first failing
    declaration raises. *)
Lemma create_variables_recorded (self : optimizer64) (s : model)
  (products : list Product) :
  solver self = Some s ->
  match declarations (config self) products with
  | Ret decls =>
      exists self',
        _create_variables (Solver0 := rec64) self products = Ret self'
        /\ config self' = config self
        /\ solver self' = Some (spcplan.declare s decls)
        /\ (forall p m, p ∈ products ->
                        m ∈ range 1 (planning_months (config self) + 1) ->
                        bound self' (id p) m)
  | Raise e => _create_variables (Solver0 := rec64) self products = Raise e
  end.
Proof.
  intros Hs. unfold _create_variables, declarations.
  pose proof (declare_products_recorded products (set_variables self ∅) s Hs)
    as Hrun.
  change (config (set_variables self ∅)) with (config self) in Hrun.
  destruct (spcplan.map_outcome _ products) as [per|e]; cbn [obind];
    [|done].
  destruct Hrun as (self' & Hrun & Hcfg & Hs' & Hbound).
  exists self'. split; [exact Hrun|]. split; [done|]. split; [done|].
  intros p m Hp Hm. apply Hbound; [done|]. left.
  apply list_elem_of_fmap. by exists p.
Qed.

(** Every product and month of the horizon has its declaration among
    those computed, and every one computed is such a declaration. *)
Lemma declarations_elem (cfg : OptimizerConfig) (products : list Product)
  (decls : list var_decl) :
  declarations cfg products = Ret decls ->
  (forall p m, p ∈ products -> m ∈ range 1 (planning_months cfg + 1) ->
               exists decl, declaration cfg p m = Ret decl /\ decl ∈ decls)
  /\ (forall decl, decl ∈ decls ->
        exists p m, p ∈ products /\ m ∈ range 1 (planning_months cfg + 1)
                    /\ declaration cfg p m = Ret decl)
  /\ length decls
     = (length products * Z.to_nat (planning_months cfg))%nat.
Proof.
  unfold declarations.
  destruct (spcplan.map_outcome _ products) as [per|] eqn:Hper; [|done].
  cbn [obind]. intros [= <-]. apply map_outcome_elem in Hper.
  induction Hper as [|p ds products per Hp _ IH].
  - split; [by intros p m ?%elem_of_nil|]. split; [|done].
    by intros decl ?%elem_of_nil.
  - destruct IH as (IH1 & IH2 & IH3). apply map_outcome_elem in Hp.
    cbn [concat length]. split; [|split].
    + intros p' m [->|Hin]%elem_of_cons Hm.
      * apply list_elem_of_lookup in Hm as [k Hk].
        destruct (Forall2_lookup_l _ _ _ _ _ Hp Hk) as (decl & Hd & Hdecl).
        exists decl. split; [done|]. apply elem_of_app. left.
        by eapply list_elem_of_lookup_2.
      * destruct (IH1 p' m Hin Hm) as (decl & Hdecl & Hd).
        exists decl. split; [done|]. apply elem_of_app. by right.
    + intros decl [Hd|Hd]%elem_of_app.
      * apply list_elem_of_lookup in Hd as [k Hk].
        destruct (Forall2_lookup_r _ _ _ _ _ Hp Hk) as (m & Hm & Hdecl).
        exists p, m. split; [by left|]. split; [|done].
        by eapply list_elem_of_lookup_2.
      * destruct (IH2 decl Hd) as (p' & m & Hp' & Hm & Hdecl).
        exists p', m. split; [by right|done].
    + rewrite length_app, IH3, <- (Forall2_length _ _ _ Hp).
      unfold range. rewrite length_seqZ. lia.
Qed.

Lemma declarations_raise (cfg : OptimizerConfig) (products : list Product)
  (p : Product) (m : Z) (e : exn) :
  p ∈ products -> m ∈ range 1 (planning_months cfg + 1) ->
  declaration cfg p m = Raise e ->
  exists e', declarations cfg products = Raise e'.
Proof.
  intros Hp Hm Hraise. unfold declarations.
  destruct (map_outcome_raises (declaration cfg p) _ m e Hm Hraise)
    as [e1 Hmonths].
  destruct (map_outcome_raises
              (fun p => spcplan.map_outcome (declaration cfg p)
                          (range 1 (planning_months cfg + 1)))
              products p e1 Hp Hmonths) as [e' ->].
  by eexists.
Qed.
Lemma map_outcome_returns {A B} (f : A -> outcome B) (l : list A) :
  (forall x, x ∈ l -> exists y, f x = Ret y) ->
  exists ys, spcplan.map_outcome f l = Ret ys.
Proof.
  induction l as [|x l IH]; intros Hall; cbn [spcplan.map_outcome];
    [by eexists|].
  destruct (Hall x) as [y ->]; [by left|]. cbn [obind].
  destruct IH as [ys ->]; [intros x' Hx'; apply Hall; by right|].
  by eexists.
Qed.

Lemma declarations_return (cfg : OptimizerConfig) (products : list Product) :
  (forall p m, p ∈ products -> m ∈ range 1 (planning_months cfg + 1) ->
               exists decl, declaration cfg p m = Ret decl) ->
  exists decls, declarations cfg products = Ret decls.
Proof.
  intros Hall. unfold declarations.
  destruct (map_outcome_returns
              (fun p => spcplan.map_outcome (declaration cfg p)
                          (range 1 (planning_months cfg + 1))) products)
    as [per ->]; [|by eexists].
  intros p Hp. apply map_outcome_returns. intros m Hm. by apply Hall.
Qed.

(** What a computed declaration holds, multiplied out as the code does. *)
Lemma declaration_inv (cfg : OptimizerConfig) (p : Product) (m : Z)
  (decl : var_decl) :
  declaration cfg p m = Ret decl ->
  exists trend,
    Py64.pow (trend_factor (demand_forecast p)) (m - 1) = Ret trend
    /\ var_label decl = q_ (id p) m /\ var_lb decl = 0%Z
    /\ Py64.int
         (mul (mul (mul (mul (base_demand (demand_forecast p))
                             (get (seasonal_factors (demand_forecast p)) m))
                        trend)
                   (demand_multiplier cfg))
              (demand_buffer (demand_forecast p)))
       = Ret (var_ub decl).
Proof.
  unfold declaration, forecast_month, buffered_demand.
  destruct (Py64.pow _ _) as [trend|]; cbn [obind]; [|done].
  destruct (Py64.int _) as [ub|] eqn:Hub; cbn [obind]; [|done].
  intros [= <-]. exists trend. by rewrite Hub.
Qed.

Lemma elem_of_range (m start stop : Z) :
  m ∈ range start stop <-> (start <= m < stop)%Z.
Proof. unfold range. rewrite elem_of_seqZ. lia. Qed.
End BoundFacts.

Section BoundClaims.
Import pywraplp PrimFloat spcplan64.

(** C4, as the code has it.  When [_create_variables] returns it has
    declared, for every product and every month m in 1..planning_months,
    one variable named q_{id}_m{m} with lower bound 0 and upper bound
    int(forecast(m) * global_demand_multiplier * demand_buffer): the float
    product multiplied out from the left and truncated toward zero, where
    forecast(m) is the float base_demand * seasonal(m) * trend_factor **
    (m - 1).  That bound is the floor of the float product whenever the
    product is not below zero.  The call returns exactly when every one of
    these bounds can be computed, and the forecast does not depend on
    demand_buffer. *)
Theorem create_variables_upper_bound
  (engine : model -> answer) `{!Py64.Libm}
  (self : @PurchaseOrderOptimizer model nat) (s : model)
  (products : list Product) :
  solver self = Some s ->
  (forall self',
     _create_variables (Solver0 := recorder engine) self products = Ret self' ->
     exists decls,
       solver self' = Some (spcplan.declare s decls)
       /\ length decls
          = (length products * Z.to_nat (planning_months (config self)))%nat
       /\ (forall p m,
             p ∈ products -> (1 <= m <= planning_months (config self))%Z ->
             exists trend decl,
               Py64.pow (trend_factor (demand_forecast p)) (m - 1) = Ret trend
               /\ decl ∈ decls
               /\ var_label decl = q_ (id p) m
               /\ var_lb decl = 0%Z
               /\ let forecast :=
                    mul (mul (base_demand (demand_forecast p))
                             (get (seasonal_factors (demand_forecast p)) m))
                        trend in
                  let buffered :=
                    mul (mul forecast (demand_multiplier (config self)))
                        (demand_buffer (demand_forecast p)) in
                  forecast_month (demand_forecast p) m = Ret forecast
                  /\ Py64.int buffered = Ret (var_ub decl)
                  /\ (ltb buffered zero = false ->
                      Py64.floor buffered = Ret (var_ub decl))))
  /\ ((forall p m,
         p ∈ products -> (1 <= m <= planning_months (config self))%Z ->
         exists forecast max_qty,
           forecast_month (demand_forecast p) m = Ret forecast
           /\ Py64.int (mul (mul forecast (demand_multiplier (config self)))
                            (demand_buffer (demand_forecast p)))
              = Ret max_qty)
      <-> exists self',
            _create_variables (Solver0 := recorder engine) self products
            = Ret self')
  /\ (forall f buffer m,
        forecast_month {| base_demand := base_demand f;
                          seasonal_factors := seasonal_factors f;
                          trend_factor := trend_factor f;
                          demand_buffer := buffer |} m
        = forecast_month f m).
Proof.
  intros Hs.
  pose proof (create_variables_recorded engine self s products Hs) as Hrun.
  assert (Hreturned : forall self',
    _create_variables (Solver0 := recorder engine) self products = Ret self' ->
    exists decls,
      declarations (config self) products = Ret decls
      /\ solver self' = Some (spcplan.declare s decls)).
  { intros self' Hret.
    destruct (declarations (config self) products) as [decls|e];
      [|congruence].
    destruct Hrun as (self1 & Hrun & _ & Hs1 & _).
    rewrite Hret in Hrun. injection Hrun as <-. by exists decls. }
  assert (Hfirst : forall self',
    _create_variables (Solver0 := recorder engine) self products = Ret self' ->
    exists decls,
      solver self' = Some (spcplan.declare s decls)
      /\ length decls
         = (length products * Z.to_nat (planning_months (config self)))%nat
      /\ (forall p m,
            p ∈ products -> (1 <= m <= planning_months (config self))%Z ->
            exists trend decl,
              Py64.pow (trend_factor (demand_forecast p)) (m - 1) = Ret trend
              /\ decl ∈ decls
              /\ var_label decl = q_ (id p) m
              /\ var_lb decl = 0%Z
              /\ let forecast :=
                   mul (mul (base_demand (demand_forecast p))
                            (get (seasonal_factors (demand_forecast p)) m))
                       trend in
                 let buffered :=
                   mul (mul forecast (demand_multiplier (config self)))
                       (demand_buffer (demand_forecast p)) in
                 forecast_month (demand_forecast p) m = Ret forecast
                 /\ Py64.int buffered = Ret (var_ub decl)
                 /\ (ltb buffered zero = false ->
                     Py64.floor buffered = Ret (var_ub decl)))).
  { intros self' Hret.
    destruct (Hreturned self' Hret) as (decls & Hdecls & Hs').
    exists decls. split; [done|].
    destruct (declarations_elem _ _ _ Hdecls) as (Hall & _ & Hlen).
    split; [done|]. intros p m Hp Hm.
    destruct (Hall p m Hp) as (decl & Hdecl & Hin);
      [apply elem_of_range; lia|].
    destruct (declaration_inv _ _ _ _ Hdecl)
      as (trend & Hpow & Hlabel & Hlb & Hint).
    exists trend, decl. split; [done|]. split; [done|]. split; [done|].
    split; [done|]. cbv zeta. split.
    { unfold forecast_month. by rewrite Hpow. }
    split; [done|]. intros Hsign. by rewrite <- Py64_int_floor. }
  split; [exact Hfirst|]. split; [|done]. split.
  - intros Hall.
    destruct (declarations_return (config self) products) as [decls Hdecls].
    { intros p m Hp Hm%elem_of_range.
      destruct (Hall p m Hp) as (forecast & max_qty & Hf & Hint); [lia|].
      unfold declaration, buffered_demand. rewrite Hf. cbn [obind].
      rewrite Hint. cbn [obind]. by eexists. }
    rewrite Hdecls in Hrun. destruct Hrun as (self' & Hrun & _).
    by exists self'.
  - intros [self' Hret] p m Hp Hm.
    destruct (Hfirst self' Hret) as (decls & _ & _ & Hall).
    destruct (Hall p m Hp Hm)
      as (trend & decl & _ & _ & _ & _ & Hf & Hint & _).
    by eexists _, _.
Qed.
End BoundClaims.

Section BoundWitnesses.
Import pywraplp PrimFloat spcplan64 samples64.

Lemma create_variables_upper_bound_witness :
  exists self',
    _create_variables (Solver0 := recorder plan_samples.scenario_engine)
                      (ready (horizon 1)) [seasonal] = Ret self'
    /\ solver self'
       = Some (spcplan.declare empty_model
                 [ {| var_lb := 0; var_ub := 344;
                      var_label := q_ "P000001" 1 |} ]).
Proof.
  destruct (create_variables_upper_bound plan_samples.scenario_engine
              (ready (horizon 1)) empty_model [seasonal] eq_refl)
    as (Hbound & [Hreturns _] & _).
  destruct Hreturns as [self' Hret].
  { intros p m ->%list_elem_of_singleton Hm.
    assert (m = 1%Z) as ->
      by (change (planning_months _) with 1%Z in Hm; lia).
    eexists _, 344%Z. split; reflexivity. }
  exists self'. split; [exact Hret|].
  destruct (Hbound self' Hret) as (decls & -> & Hlen & Hall).
  destruct (Hall seasonal 1%Z)
    as (trend & decl & Hpow & Hin & Hlabel & Hlb & _ & Hint & _);
    [by left|done|].
  destruct decls as [|d [|d' decls]]; [done| |done].
  apply list_elem_of_singleton in Hin as <-.
  injection Hpow as <-. vm_compute in Hint. injection Hint as Hub.
  destruct decl as [lb ub label]. cbn in Hlabel, Hlb, Hub.
  by rewrite Hlabel, Hlb, <- Hub.
Defined.

(** C4 as stated fails three ways.  Half a unit a month of returns gives
    the variable the upper bound int(-0.5) = 0, where the floor is -1.  For
    a base demand of 200 with seasonal factor 1.15 and buffer 1.5 the float
    product is below 345, the floor of the exact one, and the bound is 344.
    With a base demand of 1e308 and buffer 10 the product is infinite and
    no variable is declared: the call raises. *)
Lemma create_variables_upper_bound_counterexample :
  (exists self',
     _create_variables (Solver0 := recorder plan_samples.scenario_engine)
                       (ready (horizon 1))
                       [returned] = Ret self'
     /\ solver self'
        = Some (spcplan.declare empty_model
                  [ {| var_lb := 0; var_ub := 0;
                       var_label := q_ "P000001" 1 |} ]))
  /\ Py64.floor (mul (mul (mul (mul (-0.5) 1) 1) 1) 1)%float = Ret (-1)%Z
  /\ (exists self',
        _create_variables (Solver0 := recorder plan_samples.scenario_engine)
                          (ready (horizon 1))
                          [seasonal] = Ret self'
        /\ solver self'
           = Some (spcplan.declare empty_model
                     [ {| var_lb := 0; var_ub := 344;
                          var_label := q_ "P000001" 1 |} ]))
  /\ Qfloor (200 * (115 # 100) * 1 * 1 * (15 # 10))%Q = 345%Z
  /\ _create_variables (Solver0 := recorder plan_samples.scenario_engine)
                       (ready (horizon 1))
                       [unbounded]
     = Raise (Exception "cannot convert float infinity to integer").
Proof.
  pose proof (create_variables_recorded plan_samples.scenario_engine
                (ready (horizon 1)) empty_model
                [returned] eq_refl) as Hreturned.
  pose proof (create_variables_recorded plan_samples.scenario_engine
                (ready (horizon 1)) empty_model
                [seasonal] eq_refl) as Hseasonal.
  pose proof (create_variables_recorded plan_samples.scenario_engine
                (ready (horizon 1)) empty_model
                [unbounded] eq_refl) as Hunbounded.
  vm_compute declarations in Hreturned, Hseasonal, Hunbounded.
  destruct Hreturned as (self1 & Hrun1 & _ & Hs1 & _).
  destruct Hseasonal as (self2 & Hrun2 & _ & Hs2 & _).
  split; [by exists self1|]. split; [reflexivity|].
  split; [by exists self2|]. split; [reflexivity|]. exact Hunbounded.
Qed.
End BoundWitnesses.

(** ** Constraints *)

Section ConstraintFacts.
Import pywraplp spcplan.
Context (engine : model -> answer).
Local Open Scope Q_scope.

Abbreviation optimizer := (@PurchaseOrderOptimizer model nat).
Abbreviation rec := (recorder engine).
















Lemma for_each_returns {A St} (l : list A) (body : A -> St -> outcome St) :
  (forall x st, x ∈ l -> exists st', body x st = Ret st') ->
  forall st, exists st', for_each l body st = Ret st'.
Proof.
  induction l as [|x l IH]; intros Hbody st; cbn [for_each]; [by eexists|].
  destruct (Hbody x st) as [st1 ->]; [by left|]. cbn [obind].
  apply IH. intros y st0 Hy. apply Hbody. by right.
Qed.


End ConstraintFacts.

Section ConstraintClaims.
Import pywraplp spcplan plan_samples.
Local Open Scope Q_scope.

(** Constraints that are the same up to the order of their terms have
    the same value under every assignment. *)
Lemma eval_permutation {V} (value : V -> Q) (e1 e2 : linexpr V) :
  e1 ≡ₚ e2 -> eval value e1 == eval value e2.
Proof.
  induction 1 as [|t e1 e2 _ IH|t1 t2 e|e1 e2 e3 _ IH1 _ IH2];
    cbn [eval foldr].
  - reflexivity.
  - fold (eval value e1). fold (eval value e2). rewrite IH. reflexivity.
  - ring.
  - by rewrite IH1.
Qed.



End ConstraintClaims.

(** ** Reading the solution back *)

Section ExtractionClaims.
Import pywraplp spcplan.
Context {S V : Type} `{!Solver S V}.
Local Open Scope Q_scope.

Lemma for_each_invariant_elem {A St} (I : St -> Prop)
  (l : list A) (body : A -> St -> outcome St) :
  (forall a st st', a ∈ l -> I st -> body a st = Ret st' -> I st') ->
  forall st st', I st -> for_each l body st = Ret st' -> I st'.
Proof.
  induction l as [|a l IH]; intros Hbody st st' Hst Hrun;
    cbn [for_each] in Hrun.
  - by inversion Hrun; subst.
  - destruct (body a st) as [st1|e] eqn:Hstep; [|done].
    cbn [obind] in Hrun. eapply IH; [| |exact Hrun].
    + intros a' s1 s2 Ha'. apply Hbody. by right.
    + eapply Hbody; [by left|exact Hst|exact Hstep].
Qed.

Lemma extract_product_read_back (self : @PurchaseOrderOptimizer S V)
  products month product st st' :
  product ∈ products ->
  orders_read_back self products (purchase_orders (fst st)) ->
  extract_product self month product st = Ret st' ->
  orders_read_back self products (purchase_orders (fst st')).
Proof.
  intros Hin Hinv. unfold extract_product.
  destruct (variable self (id product) month) as [v|] eqn:Hv; [|done].
  destruct (the_solver self) as [s|] eqn:Hs; [|done]. cbn [obind].
  destruct (solution_value s v) as [value|] eqn:Hvalue; [|done].
  cbn [obind]. destruct (0 <? Py.int value)%Z eqn:Hqty;
    intros [= <-]; [|done].
  cbn [fst purchase_orders set_purchase_orders].
  intros m by_id pid o Hm Ho. rewrite lookup_alter in Hm.
  case_decide as Hmonth; [subst m|by eapply Hinv].
  destruct (purchase_orders (fst st) !! month) as [old|] eqn:Hold; [|done].
  cbn in Hm. injection Hm as <-.
  destruct (decide (pid = id product)) as [->|Hpid].
  - rewrite lookup_insert_eq in Ho. injection Ho as <-.
    exists product. split; [done|]. split; [done|].
    exists s, v, value. repeat split; [done..|lia].
  - rewrite lookup_insert_ne in Ho by done. by eapply Hinv.
Qed.

Lemma extract_month_read_back (self : @PurchaseOrderOptimizer S V)
  products month r r' :
  orders_read_back self products (purchase_orders r) ->
  extract_month self products month r = Ret r' ->
  orders_read_back self products (purchase_orders r').
Proof.
  intros Hinv. unfold extract_month.
  match goal with |- context [for_each products ?body ?init] =>
    destruct (for_each products body init) as [st|] eqn:Hloop; [|done] end.
  cbn [obind]. intros [= <-].
  cbn [purchase_orders set_monthly_breakdown].
  revert Hloop.
  apply (for_each_invariant_elem
           (fun st => orders_read_back self products
                        (purchase_orders (fst st)))).
  - intros p st0 st1 Hp Hst Hstep.
    by apply (extract_product_read_back self products month p st0 st1).
  - cbn [fst purchase_orders set_purchase_orders].
    intros m by_id pid o Hm Ho.
    destruct (decide (month = m)) as [->|Hne].
    + rewrite lookup_insert_eq in Hm. injection Hm as <-.
      by rewrite lookup_empty in Ho.
    + rewrite lookup_insert_ne in Hm by done. by eapply Hinv.
Qed.

Lemma extract_total_orders (self : @PurchaseOrderOptimizer S V) r product :
  purchase_orders (extract_total self r product) = purchase_orders r.
Proof. unfold extract_total. by case_match. Qed.

Lemma extract_totals_orders (self : @PurchaseOrderOptimizer S V) products :
  forall r,
    purchase_orders (foldl (extract_total self) r products)
    = purchase_orders r.
Proof.
  induction products as [|p products IH]; intros r; cbn [foldl]; [done|].
  by rewrite IH, extract_total_orders.
Qed.

Lemma quantity_read_same_id (self : @PurchaseOrderOptimizer S V)
  month p p' qty qty' :
  id p = id p' ->
  quantity_read self month p qty -> quantity_read self month p' qty' ->
  qty = qty'.
Proof.
  intros Hid (s & v & value & Hs & Hv & Hvalue & ->)
    (s' & v' & value' & Hs' & Hv' & Hvalue' & ->).
  rewrite Hid in Hv. congruence.
Qed.

Lemma for_each_invariant_seen {A St} (I : list A -> St -> Prop)
  (l : list A) (body : A -> St -> outcome St) :
  (forall seen a st st',
     I seen st -> body a st = Ret st' -> I (seen ++ [a]) st') ->
  forall st st', I [] st -> for_each l body st = Ret st' -> I l st'.
Proof.
  intros Hbody.
  assert (Hgen : forall seen st st',
             I seen st -> for_each l body st = Ret st' -> I (seen ++ l) st').
  { induction l as [|a l IH]; intros seen st st' Hst Hrun;
      cbn [for_each] in Hrun.
    - inversion Hrun; subst. by rewrite app_nil_r.
    - destruct (body a st) as [st1|e] eqn:Hstep; [|done].
      cbn [obind] in Hrun.
      replace (seen ++ a :: l) with ((seen ++ [a]) ++ l)
        by by rewrite <- app_assoc.
      eapply IH; [|exact Hrun]. by eapply Hbody. }
  intros st st'. apply (Hgen []).
Qed.

Lemma extract_product_written (self : @PurchaseOrderOptimizer S V)
  month before seen p st st' :
  month_written self month before seen st ->
  extract_product self month p st = Ret st' ->
  month_written self month before (seen ++ [p]) st'.
Proof.
  intros (Hsome & Hrec & Hother). unfold extract_product.
  destruct (variable self (id p) month) as [v|] eqn:Hv; [|done].
  destruct (the_solver self) as [s|] eqn:Hs; [|done]. cbn [obind].
  destruct (solution_value s v) as [value|] eqn:Hvalue; [|done].
  cbn [obind].
  assert (Hread : quantity_read self month p (Py.int value))
    by (by exists s, v, value).
  destruct (0 <? Py.int value)%Z eqn:Hqty; intros [= <-].
  - destruct Hsome as [old Hold]. unfold month_written.
    cbn [fst purchase_orders set_purchase_orders]. split; [|split].
    + rewrite lookup_alter, decide_True, Hold by done. by eexists.
    + intros p0 m0 qty Hp0 Hm0 Hread0 Hpos.
      apply list_elem_of_singleton in Hm0 as ->.
      rewrite lookup_alter, decide_True, Hold by done. cbn.
      destruct (decide (id p0 = id p)) as [Hid|Hid].
      * exists (<[id p := order_of p (Py.int value)]> old),
          (order_of p (Py.int value)).
        split; [done|]. rewrite Hid, lookup_insert_eq. split; [done|].
        cbn [order_quantity order_of].
        by apply (quantity_read_same_id self month p p0).
      * apply elem_of_app in Hp0 as [Hp0|Hp0].
        2:{ apply list_elem_of_singleton in Hp0. by subst. }
        destruct (Hrec p0 month qty Hp0) as (by_id & o & Hb & Ho & Hq);
          [by left|done|done|].
        rewrite Hold in Hb. injection Hb as <-.
        exists (<[id p := order_of p (Py.int value)]> old), o.
        split; [done|]. by rewrite lookup_insert_ne.
    + intros m Hm. rewrite lookup_alter, decide_False by done.
      by apply Hother.
  - split; [done|]. split; [|done].
    intros p0 m0 qty Hp0 Hm0 Hread0 Hpos.
    apply elem_of_app in Hp0 as [Hp0|Hp0]; [by apply Hrec|].
    apply list_elem_of_singleton in Hp0 as ->.
    apply list_elem_of_singleton in Hm0 as ->.
    rewrite (quantity_read_same_id self month p p _ _ eq_refl Hread0 Hread)
      in Hpos.
    lia.
Qed.

Lemma extract_month_recorded (self : @PurchaseOrderOptimizer S V)
  products done month r r' :
  orders_recorded self products done (purchase_orders r) ->
  extract_month self products month r = Ret r' ->
  orders_recorded self products (done ++ [month]) (purchase_orders r').
Proof.
  intros Hdone. unfold extract_month.
  match goal with |- context [for_each products ?body ?init] =>
    destruct (for_each products body init) as [st|] eqn:Hloop; [|done] end.
  cbn [obind]. intros [= <-].
  cbn [purchase_orders set_monthly_breakdown].
  apply (for_each_invariant_seen
           (month_written self month
              (<[month := ∅]> (purchase_orders r)))) in Hloop.
  - destruct Hloop as (_ & Hrec & Hother).
    intros p m qty Hp Hm Hread Hpos.
    destruct (decide (m = month)) as [->|Hne].
    + apply Hrec; [done|by left|done|done].
    + apply elem_of_app in Hm as [Hm|Hm].
      2:{ by apply list_elem_of_singleton in Hm. }
      rewrite (Hother m Hne), lookup_insert_ne by done.
      by apply Hdone.
  - intros seen p st0 st1. apply extract_product_written.
  - unfold month_written.
    cbn [fst purchase_orders set_purchase_orders]. split; [|split].
    + rewrite lookup_insert_eq. by eexists.
    + intros p m qty Hp. by apply elem_of_nil in Hp.
    + done.
Qed.

(** C1, as the code has it.  After an OPTIMAL or FEASIBLE solve every
    entry [purchase_orders[month][pid]] is the order of a product with
    that id whose variable's value, read back and truncated toward zero by
    [int], is a quantity above 0; the entry carries that quantity with the
    product's unit wholesale and retail price and the cost, revenue,
    margin, weight and volume they give.  Conversely every product whose
    truncated value in a month of the horizon is above 0 has an entry with
    that quantity. *)
Theorem extract_results_read_back
  (self : @PurchaseOrderOptimizer S V) (products : list Product)
  (solver_status : Z) (r : report) :
  solver_status = pywraplp.OPTIMAL \/ solver_status = pywraplp.FEASIBLE ->
  _extract_results self products solver_status = Ret r ->
  solved (results_status r) = true
  /\ orders_read_back self products (purchase_orders r)
  /\ orders_recorded self products (months self) (purchase_orders r).
Proof.
  intros Hstatus Hrun.
  assert (Hsolved : solved (classify solver_status) = true)
    by (destruct Hstatus as [->| ->]; reflexivity).
  split.
  { by rewrite (extract_results_status _ _ _ _ Hrun). }
  revert Hrun. unfold _extract_results. rewrite Hsolved.
  destruct (the_solver self) as [s|]; [|done]. cbn [obind].
  destruct (Objective_Value s) as [objective|]; [|done]. cbn [obind].
  match goal with |- context [for_each ?l ?body ?init] =>
    destruct (for_each l body init) as [r1|] eqn:Hloop; [|done] end.
  cbn [obind]. intros [= <-]. rewrite extract_totals_orders. split.
  - revert Hloop.
    apply (for_each_invariant
             (fun r0 => orders_read_back self products (purchase_orders r0))).
    + intros m r0 r1' Hr0 Hstep.
      by apply (extract_month_read_back self products m r0 r1').
    + intros m by_id pid o Hm. cbn [purchase_orders] in Hm.
      by rewrite lookup_empty in Hm.
  - revert Hloop.
    apply (for_each_invariant_seen
             (fun done r0 =>
                orders_recorded self products done (purchase_orders r0))).
    + intros done m r0 r1'. apply extract_month_recorded.
    + intros p m qty _ Hm. by apply elem_of_nil in Hm.
Qed.
End ExtractionClaims.

Section ExtractionWitnesses.
Import pywraplp spcplan plan_samples.
Local Open Scope Q_scope.

Lemma extract_results_read_back_witness :
  exists r,
    _extract_results (Solver0 := recorder scenario_engine)
      (planned one_month [widget]) [widget] pywraplp.OPTIMAL = Ret r
    /\ purchase_orders r = {[ 1%Z := {[ "P000001" := order_of widget 100 ]} ]}
    /\ orders_read_back (Solver0 := recorder scenario_engine)
         (planned one_month [widget]) [widget] (purchase_orders r)
    /\ orders_recorded (Solver0 := recorder scenario_engine)
         (planned one_month [widget]) [widget]
         (months (planned one_month [widget])) (purchase_orders r).
Proof.
  destruct (_extract_results (Solver0 := recorder scenario_engine)
              (planned one_month [widget]) [widget] pywraplp.OPTIMAL)
    as [r|e] eqn:Hr; [|vm_compute in Hr; discriminate Hr].
  exists r. split; [reflexivity|]. split.
  - vm_compute in Hr. injection Hr as <-. reflexivity.
  - apply (extract_results_read_back (Solver0 := recorder scenario_engine)
             (planned one_month [widget]) [widget] pywraplp.OPTIMAL r);
      [by left|exact Hr].
Defined.

(** C1 as stated fails: a value 1/1024 short of 100 is read back as 99
    units, where rounding to the nearest integer gives 100. *)
Lemma extract_results_truncates_counterexample :
  exists r,
    _extract_results (Solver0 := recorder near_engine)
      (planned one_month [widget]) [widget] pywraplp.OPTIMAL = Ret r
    /\ purchase_orders r = {[ 1%Z := {[ "P000001" := order_of widget 99 ]} ]}
    /\ Py.round_half_even (102399 # 1024) = 100%Z.
Proof.
  destruct (_extract_results (Solver0 := recorder near_engine)
              (planned one_month [widget]) [widget] pywraplp.OPTIMAL)
    as [r|e] eqn:Hr; [|vm_compute in Hr; discriminate Hr].
  exists r. split; [reflexivity|]. split; [|reflexivity].
  vm_compute in Hr. injection Hr as <-. reflexivity.
Qed.
End ExtractionWitnesses.

(** * Further properties of the generator *)

(** ** What the filter accepts *)

Section FilterSoundness.
Local Open Scope Q_scope.

Lemma density_grams_per_cm3 (weight size : Q) :
  0 < size ->
  density (weight / 1000) (size / 1000) = Ret (weight / 1000 / (size / 1000))
  /\ weight / 1000 / (size / 1000) == weight / size.
Proof.
  intros Hsize. split.
  - unfold density.
    assert (Hv : Py.gt (size / 1000) 0 = true).
    { apply Py_lt_iff. apply Qlt_shift_div_l; lra. }
    rewrite Hv. apply div_positive. apply Qlt_shift_div_l; lra.
  - field. lra.
Qed.

Lemma density_nonpositive_size (weight size : Q) :
  size <= 0 -> density (weight / 1000) (size / 1000) = Ret 0.
Proof.
  intros Hsize. unfold density.
  assert (Hv : Py.gt (size / 1000) 0 = false).
  { apply Py_lt_false. apply Qle_shift_div_r; lra. }
  by rewrite Hv.
Qed.

(** X2.  Under a density window that starts above 0, an accepted
    combination has a positive size and weight, a density in grams per
    cm3 inside the window, and breaks none of the fixed rules: a price under
    10 goes with at most 5 kg, a price under 5 with at most 10,000 cm3, a
    price from 100 with at least 10 per kg, a price from 1000 with at least
    50 per kg and at most 30,000 cm3, a size above 20,000 cm3 with at least
    0.5 kg, and more than 10 kg in under 1,000 cm3 with a price from 100. *)
Theorem accepted_combination_sound (price weight size dmin dmax : Q) :
  0 < dmin ->
  is_realistic_combination price weight size dmin dmax = Ret true ->
  (0 < size /\ 0 < weight
   /\ dmin * size <= weight /\ weight <= dmax * size)
  /\ (price < 10 -> weight <= 5000)
  /\ (price < 5 -> size <= 10000)
  /\ (100 <= price -> 10 * weight <= 1000 * price)
  /\ (1000 <= price -> 50 * weight <= 1000 * price /\ size <= 30000)
  /\ (20000 < size -> 500 <= weight)
  /\ (10000 < weight -> size < 1000 -> 100 <= price).
Proof.
  intros Hdmin. unfold is_realistic_combination. cbv zeta.
  destruct (Qlt_le_dec 0 size) as [Hsize|Hsize].
  2:{ rewrite (density_nonpositive_size weight size Hsize).
      cbn [obind]. assert (Hlow : Py.lt 0 dmin = true) by by apply Py_lt_iff.
      by rewrite Hlow. }
  destruct (density_grams_per_cm3 weight size Hsize) as [-> Hd].
  cbn [obind].
  destruct (Py.lt _ dmin || Py.gt _ dmax) eqn:Hwindow; [done|].
  apply orb_false_iff in Hwindow as [Hlo Hhi].
  apply Py_lt_false in Hlo, Hhi. rewrite Hd in Hlo, Hhi.
  assert (Hlo' : dmin * size <= weight).
  { apply (Qmult_le_compat_r _ _ size) in Hlo; [|lra].
    assert (Hc : weight / size * size == weight) by (field; lra).
    by rewrite Hc in Hlo. }
  assert (Hhi' : weight <= dmax * size).
  { apply (Qmult_le_compat_r _ _ size) in Hhi; [|lra].
    assert (Hc : weight / size * size == weight) by (field; lra).
    by rewrite Hc in Hhi. }
  assert (Hweight : 0 < weight).
  { assert (0 < dmin * size) by (apply Qmult_lt_0_compat; lra). lra. }
  assert (Hkg : 0 < weight / 1000) by (apply Qlt_shift_div_l; lra).
  unfold value_per_kg.
  assert (Hw : Py.gt (weight / 1000) 0 = true) by by apply Py_lt_iff.
  rewrite Hw, (div_positive _ _ Hkg). cbn [obind].
  assert (Hvpk : forall c, c <= price / (weight / 1000) ->
                           c * weight <= 1000 * price).
  { intros c Hc. apply (Qmult_le_compat_r _ _ (weight / 1000)) in Hc; [|lra].
    assert (Hcancel : price / (weight / 1000) * (weight / 1000) == price)
      by (field; lra).
    rewrite Hcancel in Hc.
    assert (Hscale : c * weight == 1000 * (c * (weight / 1000))) by field.
    rewrite Hscale. revert Hc. generalize (c * (weight / 1000)).
    clear. intros x Hx. lra. }
  repeat match goal with
         | |- context [if ?c then Ret false else _] =>
             let H := fresh "Hrule" in destruct c eqn:H; [done|]
         end.
  intros _.
  repeat match goal with
         | H : _ && _ = false |- _ => apply andb_false_iff in H
         end.
  clear Hd Hlo Hhi.
  assert (Hgrams : weight == weight / 1000 * 1000) by field.
  split; [done|]. split; [|split; [|split; [|split; [|split]]]].
  - intros Hp. destruct Hrule as [Hr|Hr]; apply Py_lt_false in Hr; clear Hvpk; lra.
  - intros Hp. destruct Hrule0 as [Hr|Hr]; apply Py_lt_false in Hr; clear Hvpk; lra.
  - intros Hp. destruct (Qlt_le_dec 1000 price) as [Hbig|Hsmall].
    + destruct Hrule2 as [Hr|Hr].
      * apply not_true_iff_false in Hr. exfalso. apply Hr.
        apply Py_le_iff. clear Hvpk. lra.
      * apply Py_lt_false in Hr. apply Hvpk.
        apply Qle_trans with (y := 50); [discriminate|done].
    + destruct Hrule1 as [Hr|Hr].
      * apply andb_false_iff in Hr as [Hr|Hr];
          apply not_true_iff_false in Hr; exfalso; apply Hr;
          by apply Py_le_iff.
      * apply Py_lt_false in Hr. by apply Hvpk.
  - intros Hp. split.
    + destruct Hrule2 as [Hr|Hr].
      * apply not_true_iff_false in Hr. exfalso. apply Hr.
        by apply Py_le_iff.
      * apply Py_lt_false in Hr. by apply Hvpk.
    + destruct Hrule3 as [Hr|Hr].
      * apply not_true_iff_false in Hr. exfalso. apply Hr.
        by apply Py_le_iff.
      * by apply Py_lt_false in Hr.
  - intros Hs. destruct Hrule4 as [Hr|Hr]; apply Py_lt_false in Hr; clear Hvpk; lra.
  - intros Hw' Hs.
    destruct Hrule5 as [Hr|Hr]; [apply andb_false_iff in Hr as [Hr|Hr]|];
      apply Py_lt_false in Hr; clear Hvpk; lra.
Qed.

Lemma accepted_combination_sound_witness :
  is_realistic_combination 1 1000 1000 (1 # 128) 10 = Ret true
  /\ (1 # 128) * 1000 <= 1000 /\ 1000 <= 10 * 1000.
Proof.
  split; [reflexivity|].
  destruct (accepted_combination_sound 1 1000 1000 (1 # 128) 10)
    as [(_ & _ & Hlo & Hhi) _]; [reflexivity|reflexivity|].
  split; assumption.
Defined.
End FilterSoundness.

(** ** The two tier scans *)

Section TierScans.
Import generator_statements.
Local Open Scope Q_scope.

(** [find] returns the first element that passes the test. *)
Lemma find_first {A} (f : A -> bool) (l : list A) (x : A) :
  find f l = Some x ->
  exists before after,
    l = before ++ x :: after /\ f x = true
    /\ Forall (fun y => f y = false) before.
Proof.
  induction l as [|y l IH]; cbn [find]; [done|].
  destruct (f y) eqn:Hy.
  - intros [= ->]. by exists [], l.
  - intros (before & after & -> & Hx & Hbefore)%IH.
    exists (y :: before), after. split; [done|]. split; [done|].
    by constructor.
Qed.

Lemma find_nothing {A} (f : A -> bool) (l : list A) :
  find f l = None <-> Forall (fun y => f y = false) l.
Proof.
  induction l as [|y l IH]; cbn [find]; [by split; [constructor|]|].
  destruct (f y) eqn:Hy.
  - split; [done|]. intros [H _]%Forall_cons. congruence.
  - rewrite IH. split; [by constructor|by intros [_ ?]%Forall_cons].
Qed.

Lemma markup_bracket_test (wholesale : Q) (tier : MarkupTier) :
  Py.le (min_cost tier) wholesale && Py.lt wholesale (max_cost tier) = true
  <-> in_markup_bracket wholesale tier.
Proof.
  unfold in_markup_bracket. by rewrite andb_true_iff, Py_le_iff, Py_lt_iff.
Qed.

Lemma demand_bracket_test (price : Q) (tier : DemandTier) :
  Py.le (min_price tier) price && Py.lt price (max_price tier) = true
  <-> in_demand_bracket price tier.
Proof.
  unfold in_demand_bracket. by rewrite andb_true_iff, Py_le_iff, Py_lt_iff.
Qed.

(** X3.  [estimate_retail_price] multiplies the wholesale price by the
    multiplier of the first markup tier whose bracket [min_cost, max_cost)
    holds it, and by the last tier's when no bracket does; on an empty table
    that fallback raises the index error of [markup_tiers[-1]]. *)
Theorem estimate_retail_price_scan (wholesale : Q) (app_config : AppConfig) :
  (forall tier before after,
     markup_tiers app_config = before ++ tier :: after ->
     in_markup_bracket wholesale tier ->
     Forall (fun t => ~ in_markup_bracket wholesale t) before ->
     estimate_retail_price wholesale app_config
     = Ret (wholesale * markup_multiplier tier))
  /\ (Forall (fun t => ~ in_markup_bracket wholesale t)
             (markup_tiers app_config) ->
      estimate_retail_price wholesale app_config
      = match last (markup_tiers app_config) with
        | Some tier => Ret (wholesale * markup_multiplier tier)
        | None => Raise (Exception "list index out of range")
        end)
  /\ (markup_tiers app_config = [] ->
      estimate_retail_price wholesale app_config
      = Raise (Exception "list index out of range")).
Proof.
  unfold estimate_retail_price. split; [|split].
  - intros tier before after Htiers Hin Hbefore.
    destruct (find _ _) as [found|] eqn:Hfind.
    + apply find_first in Hfind
        as (before' & after' & Htiers' & Hfound & Hbefore').
      apply markup_bracket_test in Hfound.
      rewrite Htiers in Htiers'.
      assert (Hsame : before = before' /\ tier = found).
      { clear -Htiers' Hin Hfound Hbefore Hbefore'.
        revert before' Htiers' Hbefore'.
        induction before as [|b before IH]; intros [|b' before'] Heq Hb';
          cbn in Heq.
        - by injection Heq as -> _.
        - injection Heq as -> _. apply Forall_cons in Hb' as [Hb' _].
          apply not_true_iff_false in Hb'. exfalso. apply Hb'.
          by apply markup_bracket_test.
        - injection Heq as -> _. apply Forall_cons in Hbefore as [Hb _].
          done.
        - injection Heq as -> Heq. apply Forall_cons in Hbefore as [_ Hbefore].
          apply Forall_cons in Hb' as [_ Hb'].
          destruct (IH Hbefore before' Heq Hb') as [-> ->]. done. }
      by destruct Hsame as [_ ->].
    + apply find_nothing in Hfind. rewrite Htiers in Hfind.
      apply Forall_app in Hfind as [_ [Hno _]%Forall_cons].
      apply not_true_iff_false in Hno. exfalso. apply Hno.
      by apply markup_bracket_test.
  - intros Hnone.
    destruct (find _ _) as [found|] eqn:Hfind; [|done].
    apply find_first in Hfind as (before & after & Htiers & Hfound & _).
    apply markup_bracket_test in Hfound. rewrite Htiers in Hnone.
    by apply Forall_app in Hnone as [_ [Hno _]%Forall_cons].
  - by intros ->.
Qed.

Lemma estimate_retail_price_scan_witness :
  estimate_retail_price 75 samples.default_app_config = Ret (75 * (5 # 2))
  /\ estimate_retail_price 75 {| markup_tiers := []; demand_tiers := [] |}
     = Raise (Exception "list index out of range").
Proof.
  destruct (estimate_retail_price_scan 75 samples.default_app_config)
    as [Hfirst _].
  destruct (estimate_retail_price_scan 75
              {| markup_tiers := []; demand_tiers := [] |}) as (_ & _ & Hempty).
  split; [|by apply Hempty].
  apply (Hfirst {| min_cost := 50; max_cost := 100;
                   markup_multiplier := 5 # 2 |}
                [ {| min_cost := 0; max_cost := 50; markup_multiplier := 3 |} ]
                _ eq_refl).
  - split; [discriminate|reflexivity].
  - constructor; [|constructor]. intros [_ Hlt]. discriminate Hlt.
Defined.

(** X4.  [get_demand_tier] returns the first demand tier whose bracket
    [min_price, max_price) holds the price, and [None] exactly when no
    bracket does. *)
Theorem get_demand_tier_scan (price : Q) (app_config : AppConfig) :
  (forall tier,
     get_demand_tier price app_config = Some tier ->
     in_demand_bracket price tier
     /\ exists before after,
          demand_tiers app_config = before ++ tier :: after
          /\ Forall (fun t => ~ in_demand_bracket price t) before)
  /\ (get_demand_tier price app_config = None
      <-> Forall (fun t => ~ in_demand_bracket price t)
                 (demand_tiers app_config)).
Proof.
  unfold get_demand_tier. split.
  - intros tier (before & after & Htiers & Hfound & Hbefore)%find_first.
    split; [by apply demand_bracket_test|].
    exists before, after. split; [done|].
    eapply Forall_impl; [exact Hbefore|]. intros t Ht Hin.
    apply demand_bracket_test in Hin. congruence.
  - rewrite find_nothing. split; intros Hall;
      (eapply Forall_impl; [exact Hall|]); intros t Ht.
    + intros Hin%demand_bracket_test. congruence.
    + apply not_true_iff_false. by rewrite demand_bracket_test.
Qed.

Lemma get_demand_tier_scan_witness :
  get_demand_tier 75 samples.default_app_config
  = Some {| min_price := 50; max_price := 100; base_demand_monthly := 280;
            demand_multiplier := 1; max_demand_monthly := 400 |}
  /\ in_demand_bracket 75
       {| min_price := 50; max_price := 100; base_demand_monthly := 280;
          demand_multiplier := 1; max_demand_monthly := 400 |}.
Proof.
  split; [reflexivity|].
  by apply (get_demand_tier_scan 75 samples.default_app_config).
Defined.
End TierScans.

(** ** The tables of a configuration file *)

Section ConfigTables.
Import cfg_file generator_statements.
Local Open Scope Q_scope.

Ltac decide_tests :=
  repeat match goal with
         | |- context [Py.le ?a ?b] =>
             first [ rewrite (proj2 (Py_le_iff a b)) by lra
                   | rewrite (proj2 (Py_le_false a b)) by lra ]
         | |- context [Py.lt ?a ?b] =>
             first [ rewrite (proj2 (Py_lt_iff a b)) by lra
                   | rewrite (proj2 (Py_lt_false a b)) by lra ]
         end.

(** X5.  With the markup table of [from_cfg_file], the retail price is the
    wholesale price times one plus the markup the file sets for the bracket
    (or its fallback); a negative wholesale price and one of 999999 or more
    meet no bracket and take the markup of the last tier, [tier_1_markup]. *)
Theorem from_cfg_file_retail_price (config : ConfigParser) (wholesale : Q) :
  let markup option fallback :=
    1 + getfloat config "markup_tiers" option fallback in
  let retails multiplier :=
    estimate_retail_price wholesale (from_cfg_file config)
    = Ret (wholesale * multiplier) in
  (0 <= wholesale -> wholesale < 50 -> retails (markup "tier_6_markup" 2))
  /\ (50 <= wholesale -> wholesale < 100 ->
      retails (markup "tier_5_markup" (3 # 2)))
  /\ (100 <= wholesale -> wholesale < 500 ->
      retails (markup "tier_4_markup" (5 # 4)))
  /\ (500 <= wholesale -> wholesale < 1000 ->
      retails (markup "tier_3_markup" 1))
  /\ (1000 <= wholesale -> wholesale < 3000 ->
      retails (markup "tier_2_markup" (3 # 4)))
  /\ (3000 <= wholesale -> wholesale < 999999 ->
      retails (markup "tier_1_markup" (1 # 2)))
  /\ (wholesale < 0 \/ 999999 <= wholesale ->
      retails (markup "tier_1_markup" (1 # 2))).
Proof.
  cbv zeta. unfold estimate_retail_price, from_cfg_file, markup_tiers_of.
  cbn [markup_tiers find min_cost max_cost markup_multiplier last].
  repeat split; intros;
    try match goal with H : _ \/ _ |- _ => destruct H end;
    decide_tests; reflexivity.
Qed.

Lemma from_cfg_file_retail_price_witness :
  estimate_retail_price 75 (from_cfg_file ∅) = Ret (75 * (1 + (3 # 2)))
  /\ estimate_retail_price (-1) (from_cfg_file ∅) = Ret (-1 * (1 + (1 # 2))).
Proof.
  split.
  - destruct (from_cfg_file_retail_price ∅ 75) as (_ & Hmid & _).
    apply Hmid; [discriminate|reflexivity].
  - destruct (from_cfg_file_retail_price ∅ (-1))
      as (_ & _ & _ & _ & _ & _ & Hout).
    apply Hout. by left.
Defined.

Lemma demand_tiers_of_caps (config : ConfigParser) :
  Forall (fun tier => 1 <= max_demand_monthly tier
                      /\ max_demand_monthly tier <= 500)
         (demand_tiers_of config).
Proof.
  unfold demand_tiers_of. repeat constructor; discriminate.
Qed.

(** X6.  With the demand table of [from_cfg_file], whatever thresholds the
    file sets, the estimated monthly demand lies between 1 and 500, and
    every price from 0 up to (not including) 999999 falls in the bracket of
    some tier, so that the fallback demand is not used for it. *)
Theorem from_cfg_file_demand (config : ConfigParser)
  (wholesale size weight : Q) :
  (1 <= estimate_base_demand wholesale size weight (from_cfg_file config)
   /\ estimate_base_demand wholesale size weight (from_cfg_file config)
      <= 500)
  /\ (0 <= wholesale -> wholesale < 999999 ->
      exists tier,
        get_demand_tier wholesale (from_cfg_file config) = Some tier
        /\ in_demand_bracket wholesale tier).
Proof.
  split.
  - pose proof (estimate_base_demand_bounds wholesale size weight
                  (from_cfg_file config)) as Hbounds.
    destruct (get_demand_tier wholesale (from_cfg_file config))
      as [tier|] eqn:Htier.
    + apply find_first in Htier as (before & after & Htiers & _ & _).
      pose proof (demand_tiers_of_caps config) as Hcaps.
      cbn [from_cfg_file demand_tiers] in Htiers. rewrite Htiers in Hcaps.
      apply Forall_app in Hcaps as [_ [[Hlo Hhi] _]%Forall_cons].
      destruct Hbounds as [Hle Hge]. split; [by apply Hge|].
      by eapply Qle_trans.
    + rewrite Hbounds. split; discriminate.
  - intros Hlo Hhi.
    destruct (get_demand_tier wholesale (from_cfg_file config))
      as [tier|] eqn:Htier.
    + exists tier. split; [done|].
      apply find_first in Htier as (_ & _ & _ & Hin & _).
      by apply demand_bracket_test.
    + exfalso. revert Htier.
      unfold get_demand_tier, from_cfg_file, demand_tiers_of.
      cbn [demand_tiers find min_price max_price].
      repeat match goal with
             | |- context [getfloat ?c ?s ?o ?f] =>
                 generalize (getfloat c s o f); intro
             end.
      repeat match goal with
             | |- context [Py.le ?a ?b && Py.lt ?b ?c] =>
                 destruct (Py.le a b) eqn:?Hle; cbn [andb];
                 [destruct (Py.lt b c) eqn:?Hlt; [discriminate|]|]
             end;
        intros _;
        repeat match goal with
               | H : Py.le _ _ = true |- _ => apply Py_le_iff in H
               | H : Py.le _ _ = false |- _ => apply Py_le_false in H
               | H : Py.lt _ _ = false |- _ => apply Py_lt_false in H
               end; lra.
Qed.

Lemma from_cfg_file_demand_witness :
  exists tier,
    get_demand_tier 75 (from_cfg_file ∅) = Some tier
    /\ in_demand_bracket 75 tier.
Proof.
  destruct (from_cfg_file_demand ∅ 75 1000 1000) as [_ Hcovered].
  apply Hcovered; [discriminate|reflexivity].
Defined.
End ConfigTables.

(** ** Runs of the generator *)

Section GeneratorRuns.
Import samples generator_statements.
Local Open Scope Q_scope.

(** A loop whose body only appends accumulates the appended parts in the
    order of the loop. *)
Lemma for_each_appends {A B} (l : list A)
  (body : A -> list B -> outcome (list B)) (g : A -> list B) :
  (forall x st st', x ∈ l -> body x st = Ret st' -> st' = st ++ g x) ->
  forall st st', for_each l body st = Ret st' -> st' = st ++ (x ← l; g x).
Proof.
  induction l as [|a l IH]; intros Hbody st st' Hrun;
    cbn [for_each] in Hrun.
  - injection Hrun as <-. by rewrite app_nil_r.
  - destruct (body a st) as [st1|e] eqn:Hstep; [|done].
    cbn [obind] in Hrun. apply IH in Hrun.
    + apply Hbody in Hstep; [|by left]. subst.
      by rewrite bind_cons, app_assoc.
    + intros x s1 s2 Hx. apply Hbody. by right.
Qed.

Lemma candidate_step_appends params app_config price weight size mult :
  forall st st',
    candidate_step params app_config price weight size mult st = Ret st' ->
    st' = st ++
      match is_realistic_combination price weight size
              (density_min params) (density_max params),
            estimate_retail_price price app_config with
      | Ret true, Ret retail =>
          [ {| wholesale_price := price;
               retail_price := retail;
               weight_g := weight;
               size_cm3 := size;
               shipping_cost_multiplier := mult;
               base_demand :=
                 estimate_base_demand price size weight app_config |} ]
      | _, _ => []
      end.
Proof.
  intros st st'. unfold candidate_step.
  destruct (is_realistic_combination _ _ _ _ _) as [[|]|]; cbn [obind negb].
  - destruct (estimate_retail_price price app_config) as [retail|];
      cbn [obind]; [|done].
    by intros [= <-].
  - intros [= <-]. by rewrite app_nil_r.
  - done.
Qed.

Lemma combinations_filtered_and_priced params app_config
  prices weights sizes shipping_costs :
  filtered_and_priced params app_config
    (combinations params app_config prices weights sizes shipping_costs).
Proof.
  apply Forall_forall. intros c. unfold combinations.
  intros (price & Hc & _)%list_elem_of_bind.
  apply list_elem_of_bind in Hc as (weight & Hc & _).
  apply list_elem_of_bind in Hc as (size & Hc & _).
  apply list_elem_of_bind in Hc as (mult & Hc & _).
  destruct (is_realistic_combination _ _ _ _ _) as [[|]|] eqn:Hreal;
    try by apply elem_of_nil in Hc.
  destruct (estimate_retail_price price app_config) as [retail|] eqn:Hretail;
    [|by apply elem_of_nil in Hc].
  apply list_elem_of_singleton in Hc as ->. by split.
Qed.

(** X7.  A run that returns has enumerated the four ranges in loop order:
    without the cap the candidates are exactly the accepted combinations of
    a price, a weight, a size and a shipping multiplier, in the order the
    nested loops visit them; each candidate that is returned passed the
    filter and carries the retail price estimated from its wholesale
    price. *)
Theorem generated_candidates_enumerated (fuel : nat)
  (params : GenerationParams) (app_config : AppConfig)
  (candidates : list ProductCandidate) :
  generate_all_product_candidates fuel params app_config
  = Some (Ret candidates) ->
  exists prices weights sizes shipping_costs,
    generate_price_range fuel
      (price_min params) (price_max params) (price_step params)
    = Some prices
    /\ generate_weight_range fuel
         (weight_min params) (weight_max params) (weight_step params)
       = Some weights
    /\ generate_size_range fuel
         (size_min params) (size_max params) (size_step params)
       = Some sizes
    /\ generate_shipping_costs fuel
         (freight_min params) (freight_max params) (freight_step params)
       = Some shipping_costs
    /\ candidates
       = apply_max_candidates params
           (combinations params app_config
              prices weights sizes shipping_costs)
    /\ filtered_and_priced params app_config candidates.
Proof.
  unfold generate_all_product_candidates. intros Hrun.
  destruct (generate_price_range _ _ _ _) as [prices|]; [|done].
  destruct (generate_weight_range _ _ _ _) as [weights|]; [|done].
  destruct (generate_size_range _ _ _ _) as [sizes|]; [|done].
  destruct (generate_shipping_costs _ _ _ _) as [shipping|]; [|done].
  cbn in Hrun. injection Hrun as Hrun.
  match type of Hrun with obind ?loop _ = _ =>
    destruct loop as [all|] eqn:Hloop; [|done] end.
  cbn [obind] in Hrun. injection Hrun as <-.
  exists prices, weights, sizes, shipping. repeat (split; [done|]).
  assert (Hall : all = combinations params app_config
                         prices weights sizes shipping).
  { unfold combinations.
    rewrite <- (app_nil_l (mbind _ prices)).
    revert Hloop. apply for_each_appends.
    intros price st0 st1 _. apply for_each_appends.
    intros weight st2 st3 _. apply for_each_appends.
    intros size st4 st5 _. apply for_each_appends.
    intros mult st6 st7 _. apply candidate_step_appends. }
  split; [by rewrite Hall|].
  apply Forall_forall. intros c Hc%apply_max_candidates_elem_of.
  pose proof (combinations_filtered_and_priced params app_config
                prices weights sizes shipping) as Hok.
  unfold filtered_and_priced in Hok. rewrite Forall_forall in Hok.
  apply Hok. by rewrite <- Hall.
Qed.

Lemma generated_candidates_enumerated_witness :
  filtered_and_priced single_point default_app_config [single_candidate 320].
Proof.
  destruct (generated_candidates_enumerated 2 single_point default_app_config
              [single_candidate 320] eq_refl)
    as (prices & weights & sizes & shipping & _ & _ & _ & _ & _ & Hok).
  exact Hok.
Defined.

Lemma is_realistic_combination_returns (price weight size dmin dmax : Q) :
  exists b, is_realistic_combination price weight size dmin dmax = Ret b.
Proof.
  unfold is_realistic_combination. cbv zeta.
  destruct (density_total (weight / 1000) (size / 1000)) as [d ->].
  destruct (value_per_kg_total price (weight / 1000)) as [v ->].
  cbn [obind].
  repeat match goal with
         | |- context [if ?c then _ else _] => destruct c
         end; by eexists.
Qed.

Lemma estimate_retail_price_returns (wholesale : Q) (app_config : AppConfig) :
  markup_tiers app_config <> [] ->
  exists retail, estimate_retail_price wholesale app_config = Ret retail.
Proof.
  intros Htiers. unfold estimate_retail_price.
  destruct (find _ _) as [tier|]; [by eexists|].
  apply last_is_Some in Htiers as [tier ->]. by eexists.
Qed.

Lemma for_each_fixed_or_raise {A St} (l : list A)
  (body : A -> St -> outcome St) (st : St) (e : exn) :
  (forall x, body x st = Ret st \/ body x st = Raise e) ->
  for_each l body st = Ret st \/ for_each l body st = Raise e.
Proof.
  intros Hbody. induction l as [|a l IH]; cbn [for_each]; [by left|].
  destruct (Hbody a) as [-> | ->]; cbn [obind]; [exact IH|by right].
Qed.

Lemma for_each_raises_at {A St} (l : list A)
  (body : A -> St -> outcome St) (st : St) (e : exn) :
  (forall x, body x st = Ret st \/ body x st = Raise e) ->
  (exists x, x ∈ l /\ body x st = Raise e) ->
  for_each l body st = Raise e.
Proof.
  intros Hbody. induction l as [|a l IH]; intros (x & Hx & Hraise);
    [by apply elem_of_nil in Hx|].
  cbn [for_each]. destruct (Hbody a) as [Ha|Ha]; rewrite Ha; cbn [obind];
    [|done].
  apply IH. apply elem_of_cons in Hx as [->|Hx]; [congruence|by exists x].
Qed.

Lemma for_each_fixed {A St} (l : list A)
  (body : A -> St -> outcome St) (st : St) :
  (forall x, x ∈ l -> body x st = Ret st) -> for_each l body st = Ret st.
Proof.
  induction l as [|a l IH]; intros Hbody; cbn [for_each]; [done|].
  rewrite Hbody by by left. cbn [obind]. apply IH.
  intros x Hx. apply Hbody. by right.
Qed.

Lemma apply_max_candidates_nil (params : GenerationParams) :
  apply_max_candidates params [] = [].
Proof.
  unfold apply_max_candidates.
  destruct (max_candidates params) as [n|]; [|done].
  destruct (negb (n =? 0)%Z && (n <? Z.of_nat (length []))%Z); [|done].
  unfold slice_to, sort_desc. cbn [foldr].
  destruct (0 <=? n)%Z; apply take_nil.
Qed.

(** On an empty markup table a step from the empty list either leaves it
    empty or raises the index error. *)
Lemma candidate_step_empty_table params app_config price weight size mult :
  markup_tiers app_config = [] ->
  candidate_step params app_config price weight size mult []
  = match is_realistic_combination price weight size
            (density_min params) (density_max params) with
    | Ret true => Raise (Exception "list index out of range")
    | _ => Ret []
    end.
Proof.
  intros Htiers. unfold candidate_step.
  destruct (is_realistic_combination_returns price weight size
              (density_min params) (density_max params)) as [[|] ->];
    cbn [obind negb]; [|done].
  unfold estimate_retail_price. by rewrite Htiers.
Qed.

(** X8.  Once the four ranges are built, the generator raises only on an
    empty markup table.  With a non-empty table it returns a list.  With an
    empty table it raises the index error of [markup_tiers[-1]] as soon as
    one combination of a price, a weight, a size and a shipping multiplier
    of the ranges is accepted by the filter, and returns the empty list
    when none is. *)
Theorem generate_all_product_candidates_failure (fuel : nat)
  (params : GenerationParams) (app_config : AppConfig)
  (prices weights sizes shipping_costs : list Q) :
  generate_price_range fuel
    (price_min params) (price_max params) (price_step params)
  = Some prices ->
  generate_weight_range fuel
    (weight_min params) (weight_max params) (weight_step params)
  = Some weights ->
  generate_size_range fuel
    (size_min params) (size_max params) (size_step params)
  = Some sizes ->
  generate_shipping_costs fuel
    (freight_min params) (freight_max params) (freight_step params)
  = Some shipping_costs ->
  let accepted price weight size :=
    is_realistic_combination price weight size
      (density_min params) (density_max params) = Ret true in
  (markup_tiers app_config <> [] ->
   exists candidates,
     generate_all_product_candidates fuel params app_config
     = Some (Ret candidates))
  /\ (markup_tiers app_config = [] ->
      ((exists price weight size shipping_mult,
          price ∈ prices /\ weight ∈ weights /\ size ∈ sizes
          /\ shipping_mult ∈ shipping_costs /\ accepted price weight size) ->
       generate_all_product_candidates fuel params app_config
       = Some (Raise (Exception "list index out of range")))
      /\ ((forall price weight size shipping_mult,
             price ∈ prices -> weight ∈ weights -> size ∈ sizes ->
             shipping_mult ∈ shipping_costs ->
             ~ accepted price weight size) ->
          generate_all_product_candidates fuel params app_config
          = Some (Ret []))).
Proof.
  intros Hprices Hweights Hsizes Hshipping. cbv zeta.
  unfold generate_all_product_candidates.
  rewrite Hprices, Hweights, Hsizes, Hshipping. cbn [mbind option_bind].
  split.
  - intros Htiers.
    match goal with |- exists _, Some (obind ?loop _) = _ =>
      assert (Hloop : exists all, loop = Ret all) end.
    { apply for_each_returns. intros price st _.
      apply for_each_returns. intros weight st1 _.
      apply for_each_returns. intros size st2 _.
      apply for_each_returns. intros mult st3 _.
      unfold candidate_step.
      destruct (is_realistic_combination_returns price weight size
                  (density_min params) (density_max params)) as [[|] ->];
        cbn [obind negb]; [|by eexists].
      destruct (estimate_retail_price_returns price app_config Htiers)
        as [retail ->].
      cbn [obind]. by eexists. }
    destruct Hloop as [all ->]. cbn [obind]. by eexists.
  - intros Htiers.
    assert (Hstep : forall price weight size mult,
               candidate_step params app_config price weight size mult []
               = Ret []
               \/ candidate_step params app_config price weight size mult []
                  = Raise (Exception "list index out of range")).
    { intros price weight size mult.
      rewrite candidate_step_empty_table by done.
      destruct (is_realistic_combination _ _ _ _ _) as [[|]|];
        [by right|by left|by left]. }
    split.
    + intros (price & weight & size & mult & Hp & Hw & Hs & Hm & Hok).
      match goal with |- Some (obind ?loop _) = _ =>
        assert (Hloop : loop = Raise (Exception "list index out of range"))
      end.
      { apply for_each_raises_at.
        { intros p. apply for_each_fixed_or_raise. intros w.
          apply for_each_fixed_or_raise. intros sz.
          apply for_each_fixed_or_raise. intros m. apply Hstep. }
        exists price. split; [done|]. apply for_each_raises_at.
        { intros w. apply for_each_fixed_or_raise. intros sz.
          apply for_each_fixed_or_raise. intros m. apply Hstep. }
        exists weight. split; [done|]. apply for_each_raises_at.
        { intros sz. apply for_each_fixed_or_raise. intros m. apply Hstep. }
        exists size. split; [done|]. apply for_each_raises_at.
        { intros m. apply Hstep. }
        exists mult. split; [done|].
        rewrite candidate_step_empty_table by done. by rewrite Hok. }
      by rewrite Hloop.
    + intros Hnone.
      match goal with |- Some (obind ?loop _) = _ =>
        assert (Hloop : loop = Ret []) end.
      { apply for_each_fixed. intros price Hp.
        apply for_each_fixed. intros weight Hw.
        apply for_each_fixed. intros size Hs.
        apply for_each_fixed. intros mult Hm.
        rewrite candidate_step_empty_table by done.
        specialize (Hnone price weight size mult Hp Hw Hs Hm).
        by destruct (is_realistic_combination _ _ _ _ _) as [[|]|]. }
      rewrite Hloop. cbn [obind]. by rewrite apply_max_candidates_nil.
Qed.

Lemma generate_all_product_candidates_failure_witness :
  (exists candidates,
     generate_all_product_candidates 2 single_point default_app_config
     = Some (Ret candidates))
  /\ generate_all_product_candidates 2 single_point
       {| markup_tiers := []; demand_tiers := [] |}
     = Some (Raise (Exception "list index out of range")).
Proof.
  split.
  - apply (generate_all_product_candidates_failure 2 single_point
             default_app_config [1] [1000] [1000] [1]
             eq_refl eq_refl eq_refl eq_refl).
    discriminate.
  - destruct (generate_all_product_candidates_failure 2 single_point
                {| markup_tiers := []; demand_tiers := [] |}
                [1] [1000] [1000] [1] eq_refl eq_refl eq_refl eq_refl)
      as [_ Hempty].
    destruct (Hempty eq_refl) as [Hraise _]. apply Hraise.
    exists 1, 1000, 1000, 1.
    repeat (split; [by apply list_elem_of_singleton|]). reflexivity.
Defined.
End GeneratorRuns.

(** ** The cap on the number of candidates *)

Section Cap.
Import samples generator_statements.
Local Open Scope Q_scope.

Lemma insert_desc_perm {A} (key : A -> Q) (x : A) (l : list A) :
  insert_desc key x l ≡ₚ x :: l.
Proof.
  induction l as [|y l IH]; cbn [insert_desc]; [done|].
  destruct (Py.lt (key x) (key y)); [|done].
  rewrite IH. apply Permutation_swap.
Qed.

Lemma sort_desc_perm {A} (key : A -> Q) (l : list A) : sort_desc key l ≡ₚ l.
Proof.
  induction l as [|x l IH]; cbn [sort_desc foldr]; [done|].
  rewrite insert_desc_perm. by constructor.
Qed.

Lemma descending_cons {A} (key : A -> Q) (x : A) (l : list A) :
  descending key (x :: l)
  <-> match l with [] => True | y :: _ => key y <= key x end
      /\ descending key l.
Proof. destruct l; cbn [descending]; tauto. Qed.

Lemma insert_desc_descending {A} (key : A -> Q) (x : A) (l : list A) :
  descending key l -> descending key (insert_desc key x l).
Proof.
  induction l as [|y l IH]; cbn [insert_desc]; [done|]. intros Hl.
  destruct (Py.lt (key x) (key y)) eqn:Hxy.
  - apply Py_lt_iff in Hxy. apply descending_cons in Hl as [Hhead Hl].
    apply descending_cons. split; [|by apply IH].
    destruct l as [|z l]; cbn [insert_desc]; [lra|].
    destruct (Py.lt (key x) (key z)); [done|lra].
  - apply Py_lt_false in Hxy. apply descending_cons. by split.
Qed.

Lemma sort_desc_descending {A} (key : A -> Q) (l : list A) :
  descending key (sort_desc key l).
Proof.
  induction l as [|x l IH]; cbn [sort_desc foldr]; [done|].
  by apply insert_desc_descending.
Qed.

Lemma descending_head {A} (key : A -> Q) (x : A) (l : list A) :
  descending key (x :: l) -> Forall (fun y => key y <= key x) l.
Proof.
  revert x. induction l as [|y l IH]; intros x; [by constructor|].
  intros [Hyx Hl]%descending_cons. constructor; [done|].
  eapply Forall_impl; [by apply IH|]. intros z Hz. cbn beta in Hz. lra.
Qed.

Lemma descending_take {A} (key : A -> Q) (n : nat) (l : list A) :
  descending key l -> descending key (take n l).
Proof.
  revert n. induction l as [|x l IH]; intros [|n]; cbn [take]; try done.
  intros [Hhead Hl]%descending_cons. apply descending_cons.
  split; [|by apply IH].
  destruct l as [|y l]; destruct n; cbn [take]; done.
Qed.

Lemma descending_take_drop {A} (key : A -> Q) (n : nat) (l : list A) :
  descending key l ->
  Forall (fun d => Forall (fun k => key d <= key k) (take n l)) (drop n l).
Proof.
  revert n. induction l as [|x l IH]; intros [|n] Hl; cbn [take drop].
  - constructor.
  - constructor.
  - apply Forall_forall. intros d _. constructor.
  - pose proof (descending_head key x l Hl) as Hhead.
    apply descending_cons in Hl as [_ Hl]. specialize (IH n Hl).
    rewrite Forall_forall in IH, Hhead. apply Forall_forall. intros d Hd.
    constructor; [|by apply IH].
    apply Hhead. by eapply subseteq_drop.
Qed.

(** The sort is stable: it does not reorder elements with equal keys. *)
Lemma with_key_insert_desc {A} (key : A -> Q) (k : Q) (x : A) (l : list A) :
  with_key key k (insert_desc key x l) = with_key key k (x :: l).
Proof.
  unfold with_key. induction l as [|y l IH]; cbn [insert_desc]; [done|].
  destruct (Py.lt (key x) (key y)) eqn:Hxy; [|done].
  apply Py_lt_iff in Hxy. cbn [List.filter] in *. rewrite IH.
  destruct (Qeq_bool (key x) k) eqn:Hx; [|done].
  destruct (Qeq_bool (key y) k) eqn:Hy; [|done].
  apply Qeq_bool_iff in Hx, Hy. lra.
Qed.

Lemma with_key_sort_desc {A} (key : A -> Q) (k : Q) (l : list A) :
  with_key key k (sort_desc key l) = with_key key k l.
Proof.
  induction l as [|x l IH]; cbn [sort_desc foldr]; [done|].
  rewrite with_key_insert_desc. unfold with_key in *. cbn [List.filter].
  fold (sort_desc key l). by rewrite IH.
Qed.

Lemma with_key_take {A} (key : A -> Q) (k : Q) (n : nat) (l : list A) :
  with_key key k (take n l) `prefix_of` with_key key k l.
Proof.
  unfold with_key. revert n.
  induction l as [|x l IH]; intros [|n]; cbn [take List.filter];
    try apply prefix_nil.
  destruct (Qeq_bool (key x) k); [by apply prefix_cons|apply IH].
Qed.

(** X9.  When [max_candidates] is set, is not 0 and is below the number of
    candidates, the cap keeps a list in non-increasing order of profit
    potential whose members are at least as profitable as every dropped
    candidate, and candidates of equal profit potential keep their original
    order; a positive cap keeps that many, a negative one drops that many
    from the end of the ranking.  Otherwise the list is left as it is. *)
Theorem apply_max_candidates_keeps_top (params : GenerationParams)
  (candidates : list ProductCandidate) :
  let kept := apply_max_candidates params candidates in
  (forall n,
     max_candidates params = Some n ->
     n <> 0%Z ->
     (n < Z.of_nat (length candidates))%Z ->
     length kept
     = Z.to_nat (if (0 <? n)%Z then n
                 else Z.of_nat (length candidates) + n)
     /\ descending profit_potential kept
     /\ (exists dropped,
           kept ++ dropped ≡ₚ candidates
           /\ Forall (fun d =>
                        Forall (fun k => profit_potential d
                                         <= profit_potential k) kept)
                     dropped)
     /\ (forall k, with_key profit_potential k kept
                   `prefix_of` with_key profit_potential k candidates))
  /\ (max_candidates params = None
      \/ max_candidates params = Some 0%Z
      \/ (exists n, max_candidates params = Some n
                    /\ (Z.of_nat (length candidates) <= n)%Z) ->
      kept = candidates).
Proof.
  cbv zeta. unfold apply_max_candidates. split.
  - intros n -> Hn Hlen.
    apply Z.eqb_neq in Hn. apply Z.ltb_lt in Hlen as Hlen'.
    rewrite Hn, Hlen'. cbn [negb andb].
    pose proof (sort_desc_perm profit_potential candidates) as Hperm.
    pose proof (sort_desc_descending profit_potential candidates) as Hdesc.
    pose proof (Permutation_length Hperm) as Hsame.
    unfold slice_to.
    set (m := if (0 <=? n)%Z then Z.to_nat n
              else Z.to_nat (Z.of_nat (length
                     (sort_desc profit_potential candidates)) + n)).
    assert (Htake : (if (0 <=? n)%Z
                     then take (Z.to_nat n)
                            (sort_desc profit_potential candidates)
                     else take (Z.to_nat (Z.of_nat (length
                                  (sort_desc profit_potential candidates))
                                + n))
                            (sort_desc profit_potential candidates))
                    = take m (sort_desc profit_potential candidates)).
    { unfold m. by destruct (0 <=? n)%Z. }
    rewrite Htake. clear Htake.
    split; [|split; [|split]].
    + rewrite length_take, Hsame. unfold m. rewrite Hsame.
      apply Z.eqb_neq in Hn.
      destruct (0 <=? n)%Z eqn:Hsign, (0 <? n)%Z eqn:Hpos; lia.
    + by apply descending_take.
    + exists (drop m (sort_desc profit_potential candidates)). split.
      * by rewrite take_drop.
      * by apply descending_take_drop.
    + intros k. rewrite <- (with_key_sort_desc profit_potential k candidates).
      apply with_key_take.
  - intros [-> | [-> | (n & -> & Hlen)]]; [done|done|].
    apply Z.ltb_ge in Hlen. rewrite Hlen. by rewrite andb_false_r.
Qed.

Lemma apply_max_candidates_keeps_top_witness :
  length (apply_max_candidates
            {| price_min := 1; price_max := 1; price_step := 1;
               weight_min := 1; weight_max := 1; weight_step := 1;
               size_min := 1; size_max := 1; size_step := 1;
               freight_min := 1; freight_max := 1; freight_step := 1;
               density_min := 0; density_max := 1;
               max_candidates := Some 1%Z |}
            [single_candidate 1; single_candidate 2])
  = 1%nat.
Proof.
  destruct (apply_max_candidates_keeps_top
              {| price_min := 1; price_max := 1; price_step := 1;
                 weight_min := 1; weight_max := 1; weight_step := 1;
                 size_min := 1; size_max := 1; size_step := 1;
                 freight_min := 1; freight_max := 1; freight_step := 1;
                 density_min := 0; density_max := 1;
                 max_candidates := Some 1%Z |}
              [single_candidate 1; single_candidate 2]) as [Htop _].
  destruct (Htop 1%Z eq_refl) as [Hlen _]; [discriminate|reflexivity|].
  exact Hlen.
Defined.
End Cap.

(** * Further properties of the optimizer *)

(** ** The objective *)

Section ObjectiveFacts.
Import pywraplp spcplan plan_samples.
Context (engine : model -> answer).
Local Open Scope Q_scope.

Abbreviation optimizer := (@PurchaseOrderOptimizer model nat).
Abbreviation rec := (recorder engine).








End ObjectiveFacts.

Section ObjectiveWitnesses.
Import pywraplp spcplan plan_samples.
Local Open Scope Q_scope.

End ObjectiveWitnesses.

(** ** The monthly breakdown *)

Section BreakdownFacts.
Import pywraplp spcplan.
Context {S V : Type} `{!Solver S V}.
Local Open Scope Q_scope.

Lemma total_over_snoc (products : list Product) (p : Product)
  (f : Product -> Q) :
  total_over (products ++ [p]) f == total_over products f + f p.
Proof.
  unfold total_over. induction products as [|q products IH];
    cbn [app foldr].
  - ring.
  - rewrite IH. ring.
Qed.

(** The four running sums after one more product. *)
Lemma extract_product_sums (self : @PurchaseOrderOptimizer S V)
  month product st st' :
  extract_product self month product st = Ret st' ->
  let qty := inject_Z (ordered_quantity self month product) in
  month_cost (snd st') == month_cost (snd st) + wholesale_price product * qty
  /\ month_revenue (snd st')
     == month_revenue (snd st) + retail_price product * qty
  /\ month_weight (snd st') == month_weight (snd st) + weight_kg product * qty
  /\ month_volume (snd st') == month_volume (snd st) + volume_m3 product * qty
  /\ monthly_breakdown (fst st') = monthly_breakdown (fst st).
Proof.
  unfold extract_product, ordered_quantity.
  destruct (variable self (id product) month) as [v|]; [|done].
  destruct (the_solver self) as [s|]; [|done]. cbn [obind].
  destruct (solution_value s v) as [value|]; [|done]. cbn [obind].
  destruct (0 <? Py.int value)%Z eqn:Hqty; intros [= <-]; cbv zeta.
  - apply Z.ltb_lt in Hqty. rewrite Z.max_r by lia.
    cbn [fst snd month_cost month_revenue month_weight month_volume
         order_of order_total_cost order_total_revenue order_weight_kg
         order_volume_m3 monthly_breakdown set_purchase_orders].
    repeat split; reflexivity.
  - apply Z.ltb_ge in Hqty. rewrite Z.max_l by lia.
    change (inject_Z 0) with 0. repeat split; try ring.
Qed.

Lemma extract_total_breakdown (self : @PurchaseOrderOptimizer S V) r product :
  monthly_breakdown (extract_total self r product) = monthly_breakdown r.
Proof. unfold extract_total. by case_match. Qed.

Lemma extract_totals_breakdown (self : @PurchaseOrderOptimizer S V) products :
  forall r,
    monthly_breakdown (foldl (extract_total self) r products)
    = monthly_breakdown r.
Proof.
  induction products as [|p products IH]; intros r; cbn [foldl]; [done|].
  by rewrite IH, extract_total_breakdown.
Qed.

(** What the month loop has written after the months [seen]: a summary
    for exactly these months, each one adding up and counting the month's
    orders. *)
Lemma extract_month_breakdown (self : @PurchaseOrderOptimizer S V)
  products seen month r r' :
  ((forall m, is_Some (monthly_breakdown r !! m) <-> m ∈ seen)
   /\ forall m summary,
        monthly_breakdown r !! m = Some summary ->
        month_accounted self products m summary
        /\ exists orders, purchase_orders r !! m = Some orders
                          /\ month_items_ordered summary = size orders) ->
  extract_month self products month r = Ret r' ->
  (forall m, is_Some (monthly_breakdown r' !! m) <-> m ∈ seen ++ [month])
  /\ forall m summary,
       monthly_breakdown r' !! m = Some summary ->
       month_accounted self products m summary
       /\ exists orders, purchase_orders r' !! m = Some orders
                         /\ month_items_ordered summary = size orders.
Proof.
  intros [Hkeys Hsummaries]. unfold extract_month.
  match goal with |- context [for_each products ?body ?init] =>
    destruct (for_each products body init) as [st|] eqn:Hloop; [|done] end.
  cbn [obind]. intros [= <-].
  cbn [purchase_orders monthly_breakdown set_monthly_breakdown].
  pose proof Hloop as Hsums.
  apply (for_each_invariant_seen
           (fun seen st =>
              month_cost (snd st)
              == total_over seen (fun p =>
                   wholesale_price p
                   * inject_Z (ordered_quantity self month p))
              /\ month_revenue (snd st)
                 == total_over seen (fun p =>
                      retail_price p
                      * inject_Z (ordered_quantity self month p))
              /\ month_weight (snd st)
                 == total_over seen (fun p =>
                      weight_kg p
                      * inject_Z (ordered_quantity self month p))
              /\ month_volume (snd st)
                 == total_over seen (fun p =>
                      volume_m3 p
                      * inject_Z (ordered_quantity self month p))
              /\ monthly_breakdown (fst st) = monthly_breakdown r))
    in Hsums.
  2:{ intros seen0 p st0 st1 (Hc & Hr & Hw & Hv & Hb) Hstep.
      apply extract_product_sums in Hstep as (Hc1 & Hr1 & Hw1 & Hv1 & Hb1).
      rewrite !total_over_snoc, Hc1, Hr1, Hw1, Hv1, Hb1, Hc, Hr, Hw, Hv.
      repeat split; reflexivity || done. }
  2:{ cbn. repeat split; reflexivity. }
  destruct Hsums as (Hc & Hr & Hw & Hv & Hb).
  apply (for_each_invariant_seen
           (month_written self month
              (<[month := ∅]> (purchase_orders r)))) in Hloop.
  2:{ intros seen0 p st0 st1. apply extract_product_written. }
  2:{ unfold month_written.
      cbn [fst purchase_orders set_purchase_orders]. split; [|split].
      - rewrite lookup_insert_eq. by eexists.
      - intros p m qty Hp. by apply elem_of_nil in Hp.
      - done. }
  destruct Hloop as ([orders Horders] & _ & Hother).
  rewrite Hb. split.
  - intros m. rewrite elem_of_app, list_elem_of_singleton, <- Hkeys.
    rewrite lookup_insert_is_Some. split.
    + intros [->|[_ Hm]]; [by right|by left].
    + intros [Hm| ->]; [|by left].
      destruct (decide (month = m)) as [->|Hne]; [by left|by right].
  - intros m summary Hm.
    destruct (decide (month = m)) as [<-|Hne].
    + rewrite lookup_insert_eq in Hm. injection Hm as <-. split.
      * unfold month_accounted. cbv zeta.
        cbn [month_product_cost month_product_revenue month_gross_margin
             month_weight_shipping month_volume_shipping month_customs_duty
             month_total_costs month_net_profit month_weight_kg
             month_volume_m3].
        repeat split; try done; try reflexivity. ring.
      * exists orders. split; [done|].
        cbn [month_items_ordered]. by rewrite Horders.
    + rewrite lookup_insert_ne in Hm by done.
      destruct (Hsummaries m summary Hm) as [Hacc (old & Hold & Hsize)].
      split; [done|]. exists old. split; [|done].
      rewrite (Hother m) by done. by rewrite lookup_insert_ne.
Qed.

(** The month loop and the totals pass together. *)
Lemma extract_results_breakdown
  (self : @PurchaseOrderOptimizer S V) (products : list Product)
  (solver_status : Z) (r : report) :
  solved (classify solver_status) = true ->
  _extract_results self products solver_status = Ret r ->
  (forall m, is_Some (monthly_breakdown r !! m) <-> m ∈ months self)
  /\ forall m summary,
       monthly_breakdown r !! m = Some summary ->
       month_accounted self products m summary
       /\ exists orders, purchase_orders r !! m = Some orders
                         /\ month_items_ordered summary = size orders.
Proof.
  intros Hsolved. unfold _extract_results. rewrite Hsolved.
  destruct (the_solver self) as [s|]; [|done]. cbn [obind].
  destruct (Objective_Value s) as [objective|]; [|done]. cbn [obind].
  match goal with |- context [for_each ?l ?body ?init] =>
    destruct (for_each l body init) as [r1|] eqn:Hloop; [|done] end.
  cbn [obind]. intros [= <-].
  rewrite extract_totals_breakdown, extract_totals_orders.
  revert Hloop.
  apply (for_each_invariant_seen
           (fun seen r0 =>
              (forall m, is_Some (monthly_breakdown r0 !! m) <-> m ∈ seen)
              /\ forall m summary,
                   monthly_breakdown r0 !! m = Some summary ->
                   month_accounted self products m summary
                   /\ exists orders,
                        purchase_orders r0 !! m = Some orders
                        /\ month_items_ordered summary = size orders)).
  - intros seen m r0 r1'. apply extract_month_breakdown.
  - cbn [monthly_breakdown]. split.
    + intros m. rewrite lookup_empty. split; [by intros [? ?]|].
      intros Hm. by apply elem_of_nil in Hm.
    + intros m summary Hm. by rewrite lookup_empty in Hm.
Qed.

(** X11.  After an OPTIMAL or FEASIBLE solve [monthly_breakdown] has an
    entry for exactly the months 1..planning_months.  In each entry the
    product cost, revenue, weight and volume are the sums over the products
    of the unit figure times the quantity ordered in that month (the value
    read back, truncated, counted when above 0); gross margin, the two
    shipping costs, customs duty, total costs and net profit follow from
    these as revenue - cost, rate x weight, rate x volume, duty rate x cost
    when the shipment crosses a border, their sum with the cost, and
    revenue - total costs; [items_ordered] counts the month's purchase
    orders. *)
Theorem extract_results_monthly_breakdown
  (self : @PurchaseOrderOptimizer S V) (products : list Product)
  (solver_status : Z) (r : report) :
  solver_status = pywraplp.OPTIMAL \/ solver_status = pywraplp.FEASIBLE ->
  _extract_results self products solver_status = Ret r ->
  (forall m, is_Some (monthly_breakdown r !! m) <-> m ∈ months self)
  /\ forall m summary,
       monthly_breakdown r !! m = Some summary ->
       month_accounted self products m summary
       /\ exists orders, purchase_orders r !! m = Some orders
                         /\ month_items_ordered summary = size orders.
Proof.
  intros Hstatus. apply extract_results_breakdown.
  destruct Hstatus as [->| ->]; reflexivity.
Qed.
End BreakdownFacts.

Section BreakdownWitnesses.
Import pywraplp spcplan plan_samples.
Local Open Scope Q_scope.

Lemma extract_results_monthly_breakdown_witness :
  exists r summary,
    _extract_results (Solver0 := recorder scenario_engine)
      (planned one_month [widget]) [widget] pywraplp.OPTIMAL = Ret r
    /\ monthly_breakdown r !! 1%Z = Some summary
    /\ month_accounted (Solver0 := recorder scenario_engine)
         (planned one_month [widget]) [widget] 1 summary.
Proof.
  destruct (_extract_results (Solver0 := recorder scenario_engine)
              (planned one_month [widget]) [widget] pywraplp.OPTIMAL)
    as [r|e] eqn:Hr; [|vm_compute in Hr; discriminate Hr].
  destruct (extract_results_monthly_breakdown
              (Solver0 := recorder scenario_engine)
              (planned one_month [widget]) [widget] pywraplp.OPTIMAL r)
    as [Hkeys Hsummaries]; [by left|exact Hr|].
  destruct (proj2 (Hkeys 1%Z)) as [summary Hsummary]; [by left|].
  exists r, summary. split; [reflexivity|]. split; [exact Hsummary|].
  by apply Hsummaries.
Defined.
End BreakdownWitnesses.

(** ** Product totals *)

Section ProductTotals.
Import pywraplp spcplan.
Context {S V : Type} `{!Solver S V}.
Local Open Scope Q_scope.

(** The purchase orders a solved extraction returns: every entry is read
    back from a product of the list, and every product with a quantity
    above 0 is recorded. *)
Lemma extract_results_orders
  (self : @PurchaseOrderOptimizer S V) (products : list Product)
  (solver_status : Z) (r : report) :
  solved (classify solver_status) = true ->
  _extract_results self products solver_status = Ret r ->
  orders_read_back self products (purchase_orders r)
  /\ orders_recorded self products (months self) (purchase_orders r).
Proof.
  intros Hsolved. unfold _extract_results. rewrite Hsolved.
  destruct (the_solver self) as [s|]; [|done]. cbn [obind].
  destruct (Objective_Value s) as [objective|]; [|done]. cbn [obind].
  match goal with |- context [for_each ?l ?body ?init] =>
    destruct (for_each l body init) as [r1|] eqn:Hloop; [|done] end.
  cbn [obind]. intros [= <-]. rewrite extract_totals_orders. split.
  - revert Hloop.
    apply (for_each_invariant
             (fun r0 => orders_read_back self products (purchase_orders r0))).
    + intros m r0 r1' Hr0 Hstep.
      by apply (extract_month_read_back self products m r0 r1').
    + intros m by_id pid o Hm. cbn [purchase_orders] in Hm.
      by rewrite lookup_empty in Hm.
  - revert Hloop.
    apply (for_each_invariant_seen
             (fun done r0 =>
                orders_recorded self products done (purchase_orders r0))).
    + intros done m r0 r1'. apply extract_month_recorded.
    + intros p m qty _ Hm. by apply elem_of_nil in Hm.
Qed.

Lemma NoDup_fmap_eq {A B} (f : A -> B) (l : list A) (x y : A) :
  NoDup (map f l) -> x ∈ l -> y ∈ l -> f x = f y -> x = y.
Proof.
  induction l as [|a l IH]; cbn [map]; [by intros _ ?%elem_of_nil|].
  intros [Ha Hl]%NoDup_cons [->|Hx]%elem_of_cons [->|Hy]%elem_of_cons Hf.
  - done.
  - exfalso. apply Ha. rewrite Hf. apply list_elem_of_fmap. by exists y.
  - exfalso. apply Ha. rewrite <- Hf. apply list_elem_of_fmap. by exists x.
  - by apply IH.
Qed.

(** With distinct product ids an entry of [purchase_orders] belongs to one
    product: it is there exactly when the product's ordered quantity is
    above 0, and is the order of that quantity. *)
Lemma orders_lookup (self : @PurchaseOrderOptimizer S V)
  (products : list Product) (orders : gmap Z (gmap string order))
  (product : Product) (month : Z) :
  NoDup (map id products) ->
  orders_read_back self products orders ->
  orders_recorded self products (months self) orders ->
  product ∈ products -> month ∈ months self ->
  orders !! month ≫= (.!! id product)
  = if (0 <? ordered_quantity self month product)%Z
    then Some (order_of product (ordered_quantity self month product))
    else None.
Proof.
  intros Hids Hback Hrec Hp Hm.
  destruct (orders !! month ≫= (.!! id product)) as [o|] eqn:Ho.
  - apply bind_Some in Ho as (by_id & Hby & Ho).
    destruct (Hback month by_id (id product) o Hby Ho)
      as (p' & Hp' & Hid & s & v & value & Hs & Hv & Hvalue & Hpos & ->).
    assert (p' = product) as -> by by eapply NoDup_fmap_eq.
    unfold ordered_quantity. rewrite Hv, Hs, Hvalue.
    rewrite Z.max_r by lia. apply Z.ltb_lt in Hpos. by rewrite Hpos.
  - destruct (0 <? ordered_quantity self month product)%Z eqn:Hpos; [|done].
    apply Z.ltb_lt in Hpos. exfalso. revert Hpos. unfold ordered_quantity.
    destruct (variable self (id product) month) as [v|] eqn:Hv; [|lia].
    destruct (the_solver self) as [s|] eqn:Hs; [|lia].
    destruct (solution_value s v) as [value|] eqn:Hvalue; [|lia].
    intros Hpos.
    destruct (Hrec product month (Py.int value) Hp Hm)
      as (by_id & o & Hby & Ho' & _); [by exists s, v, value|lia|].
    rewrite Hby in Ho. cbn in Ho. by rewrite Ho' in Ho.
Qed.

(** The three sums [extract_total] accumulates over a list of months. *)
Lemma extract_total_sums (self : @PurchaseOrderOptimizer S V)
  (orders : gmap Z (gmap string order)) (product : Product) (ms : list Z) :
  (forall m, m ∈ ms ->
     orders !! m ≫= (.!! id product)
     = if (0 <? ordered_quantity self m product)%Z
       then Some (order_of product (ordered_quantity self m product))
       else None) ->
  forall acc,
    let sums :=
      foldl (fun sums month =>
               match orders !! month ≫= (.!! id product) with
               | Some o =>
                   ((fst (fst sums) + order_quantity o)%Z,
                    snd (fst sums) + order_total_cost o,
                    snd sums + order_total_revenue o)
               | None => sums
               end) acc ms in
    let ordered :=
      foldr (fun m acc => (ordered_quantity self m product + acc)%Z)
            0%Z ms in
    fst (fst sums) = (fst (fst acc) + ordered)%Z
    /\ snd (fst sums)
       == snd (fst acc) + wholesale_price product * inject_Z ordered
    /\ snd sums == snd acc + retail_price product * inject_Z ordered.
Proof.
  induction ms as [|m ms IH]; intros Horders acc; cbn [foldl foldr].
  - cbv zeta. change (inject_Z 0) with 0.
    split; [lia|]. split; ring.
  - cbv zeta in *. rewrite (Horders m) by by left.
    assert (Hnonneg : (0 <= ordered_quantity self m product)%Z).
    { unfold ordered_quantity. repeat case_match; lia. }
    destruct (0 <? ordered_quantity self m product)%Z eqn:Hpos.
    + destruct (IH (fun m' Hm' => Horders m' (list_elem_of_further _ _ _ Hm'))
                  ((fst (fst acc)
                    + order_quantity
                        (order_of product
                           (ordered_quantity self m product)))%Z,
                   snd (fst acc)
                   + order_total_cost
                       (order_of product (ordered_quantity self m product)),
                   snd acc
                   + order_total_revenue
                       (order_of product (ordered_quantity self m product))))
        as (Hq & Hc & Hr).
      rewrite Hq, Hc, Hr.
      cbn [fst snd order_of order_quantity order_total_cost
           order_total_revenue].
      rewrite !inject_Z_plus. split; [lia|]. split; ring.
    + apply Z.ltb_ge in Hpos.
      assert (Hzero : ordered_quantity self m product = 0%Z) by lia.
      destruct (IH (fun m' Hm' => Horders m' (list_elem_of_further _ _ _ Hm'))
                  acc) as (Hq & Hc & Hr).
      rewrite Hq, Hc, Hr, Hzero. rewrite !Z.add_0_l. done.
Qed.

Lemma extract_total_lookup (self : @PurchaseOrderOptimizer S V)
  (r r' : report) (product : Product) :
  purchase_orders r' = purchase_orders r ->
  product_totals r' !! id product = product_totals r !! id product ->
  product_totals (extract_total self r' product) !! id product
  = product_totals (extract_total self r product) !! id product.
Proof.
  intros Horders Htotals. unfold extract_total. rewrite Horders.
  case_match; [|done].
  cbn [product_totals set_product_totals]. by rewrite !lookup_insert_eq.
Qed.

Lemma extract_total_other (self : @PurchaseOrderOptimizer S V)
  (r : report) (product : Product) (pid : string) :
  pid <> id product ->
  product_totals (extract_total self r product) !! pid
  = product_totals r !! pid.
Proof.
  intros Hpid. unfold extract_total. case_match; [|done].
  cbn [product_totals set_product_totals]. by rewrite lookup_insert_ne.
Qed.

Lemma extract_totals_other (self : @PurchaseOrderOptimizer S V)
  (products : list Product) (pid : string) :
  pid ∉ map id products ->
  forall r,
    product_totals (foldl (extract_total self) r products) !! pid
    = product_totals r !! pid.
Proof.
  induction products as [|p products IH]; intros Hpid r; cbn [foldl];
    [done|].
  cbn [map] in Hpid. apply not_elem_of_cons in Hpid as [Hne Hpid].
  rewrite IH by done. by apply extract_total_other.
Qed.

(** With distinct ids, the entry of a product after all totals are taken
    is the one its own pass writes. *)
Lemma extract_totals_lookup (self : @PurchaseOrderOptimizer S V)
  (products : list Product) (product : Product) :
  NoDup (map id products) -> product ∈ products ->
  forall r,
    product_totals (foldl (extract_total self) r products) !! id product
    = product_totals (extract_total self r product) !! id product.
Proof.
  induction products as [|p products IH]; cbn [map foldl];
    [by intros _ ?%elem_of_nil|].
  intros [Hp Hids]%NoDup_cons [->|Hin]%elem_of_cons r.
  - by apply extract_totals_other.
  - rewrite IH by done.
    assert (Hne : id product <> id p).
    { intros Heq. apply Hp. rewrite <- Heq. apply list_elem_of_fmap.
      by exists product. }
    apply extract_total_lookup.
    + apply extract_total_orders.
    + by apply extract_total_other.
Qed.

Lemma extract_product_totals (self : @PurchaseOrderOptimizer S V)
  month product st st' :
  extract_product self month product st = Ret st' ->
  product_totals (fst st') = product_totals (fst st).
Proof.
  unfold extract_product.
  destruct (variable self (id product) month) as [v|]; [|done].
  destruct (the_solver self) as [s|]; [|done].
  cbn [obind]. destruct (solution_value s v) as [value|]; [|done].
  cbn [obind]. destruct (0 <? Py.int value)%Z; by intros [= <-].
Qed.

Lemma extract_month_totals (self : @PurchaseOrderOptimizer S V)
  products month r r' :
  extract_month self products month r = Ret r' ->
  product_totals r' = product_totals r.
Proof.
  unfold extract_month.
  match goal with |- context [for_each products ?body ?init] =>
    destruct (for_each products body init) as [st|] eqn:Hloop; [|done] end.
  cbn [obind]. intros [= <-]. cbn.
  revert Hloop.
  apply (for_each_invariant
           (fun st => product_totals (fst st) = product_totals r)); [|done].
  intros p st0 st1 Hst Hstep.
  by rewrite (extract_product_totals _ _ _ _ _ Hstep).
Qed.

(** X12.  After an OPTIMAL or FEASIBLE solve with pairwise distinct product
    ids, [product_totals] has an entry for a product exactly when the
    quantities ordered of it over months 1..planning_months add up to more
    than 0; the entry carries the product's name, that total quantity, the
    total cost wholesale_price x quantity, the total revenue
    retail_price x quantity and their difference as margin.  Every key of
    [product_totals] is the id of a product of the list. *)
Theorem extract_results_product_totals
  (self : @PurchaseOrderOptimizer S V) (products : list Product)
  (solver_status : Z) (r : report) :
  solver_status = pywraplp.OPTIMAL \/ solver_status = pywraplp.FEASIBLE ->
  _extract_results self products solver_status = Ret r ->
  NoDup (map id products) ->
  (forall pid t, product_totals r !! pid = Some t ->
                 exists p, p ∈ products /\ id p = pid)
  /\ forall p, p ∈ products ->
       if (0 <? total_ordered self p)%Z
       then exists t,
              product_totals r !! id p = Some t
              /\ total_name t = name p
              /\ total_quantity t = total_ordered self p
              /\ total_cost t
                 == wholesale_price p * inject_Z (total_ordered self p)
              /\ total_revenue t
                 == retail_price p * inject_Z (total_ordered self p)
              /\ total_margin t == total_revenue t - total_cost t
       else product_totals r !! id p = None.
Proof.
  intros Hstatus Hrun Hids.
  assert (Hsolved : solved (classify solver_status) = true)
    by (destruct Hstatus as [->| ->]; reflexivity).
  destruct (extract_results_orders self products solver_status r Hsolved Hrun)
    as [Hback Hrec].
  revert Hrun Hback Hrec. unfold _extract_results. rewrite Hsolved.
  destruct (the_solver self) as [s|]; [|done]. cbn [obind].
  destruct (Objective_Value s) as [objective|]; [|done]. cbn [obind].
  match goal with |- context [for_each ?l ?body ?init] =>
    destruct (for_each l body init) as [r1|] eqn:Hloop; [|done] end.
  cbn [obind]. intros [= <-]. rewrite extract_totals_orders.
  intros Hback Hrec.
  assert (Hempty : product_totals r1 = ∅).
  { revert Hloop.
    apply (for_each_invariant (fun r0 => product_totals r0 = ∅)); [|done].
    intros m r0 r1' Hr0 Hstep.
    by rewrite (extract_month_totals _ _ _ _ _ Hstep). }
  split.
  - intros pid t Ht.
    destruct (decide (pid ∈ map id products)) as [Hin|Hnin].
    + apply list_elem_of_fmap in Hin as (p & -> & Hp). by exists p.
    + rewrite extract_totals_other, Hempty, lookup_empty in Ht by done.
      done.
  - intros p Hp. rewrite extract_totals_lookup by done.
    destruct (extract_total_sums self (purchase_orders r1) p (months self))
      with (acc := (0%Z, 0, 0)) as (Hq & Hc & Hr).
    { intros m Hm. by apply (orders_lookup self products). }
    cbn [fst snd] in Hq, Hc, Hr. rewrite Z.add_0_l in Hq.
    fold (total_ordered self p) in Hq, Hc, Hr.
    unfold extract_total. rewrite Hq.
    destruct (0 <? total_ordered self p)%Z.
    + cbn [product_totals set_product_totals]. rewrite lookup_insert_eq.
      eexists. split; [reflexivity|].
      cbn [total_name total_quantity total_cost total_revenue total_margin].
      split; [done|]. split; [done|].
      split; [rewrite Hc; ring|]. split; [rewrite Hr; ring|reflexivity].
    + by rewrite Hempty, lookup_empty.
Qed.
End ProductTotals.

Section ProductTotalsWitnesses.
Import pywraplp spcplan plan_samples.
Local Open Scope Q_scope.

Lemma extract_results_product_totals_witness :
  exists r t,
    _extract_results (Solver0 := recorder scenario_engine)
      (planned one_month [widget]) [widget] pywraplp.OPTIMAL = Ret r
    /\ product_totals r !! "P000001" = Some t
    /\ total_quantity t = 100%Z.
Proof.
  destruct (_extract_results (Solver0 := recorder scenario_engine)
              (planned one_month [widget]) [widget] pywraplp.OPTIMAL)
    as [r|e] eqn:Hr; [|vm_compute in Hr; discriminate Hr].
  destruct (extract_results_product_totals
              (Solver0 := recorder scenario_engine)
              (planned one_month [widget]) [widget] pywraplp.OPTIMAL r)
    as [_ Htotals]; [by left|exact Hr|repeat constructor; by intros ?%elem_of_nil|].
  specialize (Htotals widget (list_elem_of_here _ _)).
  assert (Htotal : total_ordered (Solver0 := recorder scenario_engine)
                     (planned one_month [widget]) widget = 100%Z)
    by reflexivity.
  rewrite Htotal in Htotals. cbn [Z.ltb Z.compare] in Htotals.
  destruct Htotals as (t & Ht & _ & Hquantity & _).
  exists r, t. split; [reflexivity|]. split; [exact Ht|exact Hquantity].
Defined.
End ProductTotalsWitnesses.

(** * Batch conversion and ranking *)

(** ** Product ids *)

Section BatchFacts.
Import pywraplp spcplan batch_optimizer.
Local Open Scope Q_scope.

Lemma string_of_uint_inj (d d' : uint) :
  NilEmpty.string_of_uint d = NilEmpty.string_of_uint d' -> d = d'.
Proof.
  intros Heq. apply (f_equal NilEmpty.uint_of_string) in Heq.
  rewrite !NilEmpty.usu in Heq. by injection Heq.
Qed.

Lemma of_uint_zero_pad (width : nat) (d : uint) :
  N.of_uint (zero_pad width d) = N.of_uint d.
Proof.
  unfold zero_pad. induction (width - nb_digits d)%nat as [|n IH]; [done|].
  cbn [Nat.iter]. exact IH.
Qed.

(** Zero-padded numbers from 0 on are told apart by their text. *)
Lemma format_06d_inj (n m : Z) :
  (0 <= n)%Z -> (0 <= m)%Z -> format_06d n = format_06d m -> n = m.
Proof.
  intros Hn Hm. unfold format_06d.
  assert (Hn' : (n <? 0)%Z = false) by lia.
  assert (Hm' : (m <? 0)%Z = false) by lia.
  rewrite Hn', Hm'. intros Heq%string_of_uint_inj.
  apply (f_equal N.of_uint) in Heq.
  rewrite !of_uint_zero_pad in Heq. unfold digits in Heq.
  rewrite !DecimalN.Unsigned.of_to in Heq. lia.
Qed.

Lemma enumerate_lookup {A} (l : list A) (start : Z) (k : nat) :
  enumerate l start !! k
  = (fun x => ((start + Z.of_nat k)%Z, x)) <$> (l !! k).
Proof. unfold enumerate. by rewrite list_lookup_imap. Qed.

Lemma enumerate_length {A} (l : list A) (start : Z) :
  length (enumerate l start) = length l.
Proof. unfold enumerate. apply length_imap. Qed.

Lemma enumerate_snd {A} (l : list A) (start : Z) :
  map snd (enumerate l start) = l.
Proof.
  apply list_eq. intros k. change (map snd) with (fmap (M := list) (@snd Z A)).
  rewrite list_lookup_fmap, enumerate_lookup. by destruct (l !! k).
Qed.

(** Keys made from the positions of an enumeration from 1 are pairwise
    distinct. *)
Lemma enumerate_keys_NoDup {A} (l : list A) :
  NoDup (map (fun ic : Z * A => ("P" ++ format_06d (fst ic))%string)
             (enumerate l 1)).
Proof.
  apply NoDup_alt. intros i j key Hi Hj.
  change (map ?f) with (fmap (M := list) f) in Hi, Hj.
  rewrite list_lookup_fmap, enumerate_lookup in Hi, Hj.
  destruct (l !! i) as [x|]; [|done]. destruct (l !! j) as [y|]; [|done].
  cbn in Hi, Hj. injection Hi as <-. injection Hj as Heq.
  apply format_06d_inj in Heq; lia.
Qed.

(** X15.  [optimize_batch] converts the candidates in order, one product
    each, numbering them from 1: the k-th candidate becomes the product with
    id "P" followed by k as six digits (more from a million on) and carries
    the candidate's prices, size, weight and base demand; the ids of the
    products are pairwise distinct, whatever the candidates. *)
Theorem products_of_ids (candidates : list ProductCandidate)
  (seasonal_factors : SeasonalFactors) :
  length (products_of candidates seasonal_factors) = length candidates
  /\ NoDup (map id (products_of candidates seasonal_factors))
  /\ forall k c,
       candidates !! k = Some c ->
       products_of candidates seasonal_factors !! k
       = Some (candidate_to_product c (1 + Z.of_nat k) seasonal_factors).
Proof.
  unfold products_of. split; [|split].
  - by rewrite length_map, enumerate_length.
  - rewrite map_map. cbn [candidate_to_product id].
    apply (enumerate_keys_NoDup candidates).
  - intros k c Hk.
    change (map ?f) with (fmap (M := list) f).
    by rewrite list_lookup_fmap, enumerate_lookup, Hk.
Qed.
End BatchFacts.

(** ** Rankings *)

Section RankingFacts.
Import pywraplp spcplan batch_optimizer generator_statements.
Local Open Scope Q_scope.

(** The first [m] of a list sorted by descending key. *)
Lemma ranked_prefix {A} (key : A -> Q) (m : nat) (l : list A) :
  descending key (take m (sort_desc key l))
  /\ take m (sort_desc key l) ++ drop m (sort_desc key l) ≡ₚ l
  /\ Forall (fun d => Forall (fun k => key d <= key k)
                             (take m (sort_desc key l)))
            (drop m (sort_desc key l))
  /\ (forall k, with_key key k (take m (sort_desc key l))
                `prefix_of` with_key key k l)
  /\ length (take m (sort_desc key l)) = Nat.min m (length l).
Proof.
  split; [|split; [|split; [|split]]].
  - apply descending_take, sort_desc_descending.
  - rewrite take_drop. apply sort_desc_perm.
  - apply descending_take_drop, sort_desc_descending.
  - intros k. rewrite <- (with_key_sort_desc key k l). apply with_key_take.
  - by rewrite length_take, (Permutation_length (sort_desc_perm key l)).
Qed.

(** X16.  For a result that is not OPTIMAL or FEASIBLE
    [extract_selected_products] selects nothing.  Otherwise it returns the
    rows of the kept items of [product_totals], in non-increasing order of
    total margin, items of equal margin in the dictionary's order; every
    item left out has a margin no larger than any kept one.  All items are
    kept when [top_n] is None or 0, the first [top_n] of the ranking when it
    is positive, and all but the last [-top_n] when it is negative. *)
Theorem extract_selected_products_ranked (results_status : status)
  (items : list (string * product_total)) (top_n : option Z) :
  let margin := fun x : string * product_total => total_margin (snd x) in
  (solved results_status = false ->
   extract_selected_products results_status items top_n = [])
  /\ (solved results_status = true ->
      exists kept dropped,
        extract_selected_products results_status items top_n
        = map selected_of kept
        /\ kept ++ dropped ≡ₚ items
        /\ descending margin kept
        /\ Forall (fun d => Forall (fun k => margin d <= margin k) kept)
                  dropped
        /\ (forall m, with_key margin m kept `prefix_of` with_key margin m items)
        /\ length kept
           = match top_n with
             | Some n =>
                 if (n =? 0)%Z then length items
                 else if (0 <? n)%Z
                      then Nat.min (Z.to_nat n) (length items)
                      else Z.to_nat (Z.of_nat (length items) + n)
             | None => length items
             end).
Proof.
  cbv zeta. unfold extract_selected_products. split; [by intros ->|].
  intros ->. cbn [negb].
  set (margin := fun x : string * product_total => total_margin (snd x)).
  pose proof (Permutation_length (sort_desc_perm margin items)) as Hlen.
  set (m := match top_n with
            | Some n =>
                if (n =? 0)%Z then length items
                else if (0 <=? n)%Z then Z.to_nat n
                     else Z.to_nat (Z.of_nat (length items) + n)
            | None => length items
            end).
  assert (Hkept : match top_n with
                  | Some n => if (n =? 0)%Z then sort_desc margin items
                              else slice_to n (sort_desc margin items)
                  | None => sort_desc margin items
                  end = take m (sort_desc margin items)).
  { unfold m, slice_to. destruct top_n as [n|].
    - destruct (n =? 0)%Z; [by rewrite take_ge by lia|].
      rewrite Hlen. by destruct (0 <=? n)%Z.
    - by rewrite take_ge by lia. }
  rewrite Hkept.
  destruct (ranked_prefix margin m items)
    as (Hdesc & Hperm & Hdropped & Hstable & Hlength).
  exists (take m (sort_desc margin items)), (drop m (sort_desc margin items)).
  repeat (split; [done|]).
  rewrite Hlength. unfold m. destruct top_n as [n|]; [|lia].
  destruct (n =? 0)%Z eqn:Hzero; [lia|].
  apply Z.eqb_neq in Hzero.
  destruct (0 <=? n)%Z eqn:Hsign, (0 <? n)%Z eqn:Hpos; lia.
Qed.

Lemma extract_selected_products_ranked_witness :
  exists kept dropped : list (string * product_total),
    extract_selected_products OPTIMAL
      [ ("P000001"%string,
         {| total_name := "Product_1"; total_quantity := 1; total_cost := 1;
            total_revenue := 2; total_margin := 1 |});
        ("P000002"%string,
         {| total_name := "Product_2"; total_quantity := 1; total_cost := 1;
            total_revenue := 3; total_margin := 2 |}) ]
      (Some 1%Z)
    = map selected_of kept
    /\ length kept = 1%nat /\ length dropped = 1%nat.
Proof.
  destruct (extract_selected_products_ranked OPTIMAL
              [ ("P000001"%string,
                 {| total_name := "Product_1"; total_quantity := 1;
                    total_cost := 1; total_revenue := 2;
                    total_margin := 1 |});
                ("P000002"%string,
                 {| total_name := "Product_2"; total_quantity := 1;
                    total_cost := 1; total_revenue := 3;
                    total_margin := 2 |}) ]
              (Some 1%Z)) as [_ Hsolved].
  destruct (Hsolved eq_refl)
    as (kept & dropped & Hrun & Hperm & _ & _ & _ & Hlength).
  exists kept, dropped. split; [exact Hrun|]. split; [exact Hlength|].
  apply Permutation_length in Hperm. rewrite length_app, Hlength in Hperm.
  cbn in Hperm. lia.
Defined.
End RankingFacts.

(** ** The pre-filter of the filtered run *)

Section PreFilter.
Import pywraplp spcplan batch_optimizer filtered_optimizer.
Import generator_statements.
Local Open Scope Q_scope.

Lemma descending_ext {A} (key key' : A -> Q) (l : list A) :
  Forall (fun x => key x = key' x) l ->
  descending key l -> descending key' l.
Proof.
  induction l as [|x l IH]; [done|].
  intros [Hx Hl]%Forall_cons [Hhead Hdesc]%descending_cons.
  apply descending_cons. split; [|by apply IH].
  destruct l as [|y l]; [done|].
  apply Forall_cons in Hl as [Hy _]. by rewrite <- Hx, <- Hy.
Qed.

Lemma descending_map {A B} (g : A -> B) (key : B -> Q) (l : list A) :
  descending (fun x => key (g x)) l -> descending key (map g l).
Proof.
  induction l as [|x l IH]; [done|].
  intros [Hhead Hdesc]%descending_cons. cbn [map].
  apply descending_cons. split; [|by apply IH]. by destruct l.
Qed.

Lemma foldl_insert_other {A B} (key : A -> string) (val : A -> B)
  (l : list A) (k : string) :
  k ∉ map key l ->
  forall m0 : gmap string B,
    foldl (fun m x => <[key x := val x]> m) m0 l !! k = m0 !! k.
Proof.
  induction l as [|x l IH]; intros Hk m0; cbn [foldl]; [done|].
  cbn [map] in Hk. apply not_elem_of_cons in Hk as [Hne Hk].
  rewrite IH by done. by rewrite lookup_insert_ne.
Qed.

Lemma foldl_insert_lookup {A B} (key : A -> string) (val : A -> B)
  (l : list A) (x : A) :
  NoDup (map key l) -> x ∈ l ->
  forall m0 : gmap string B,
    foldl (fun m x => <[key x := val x]> m) m0 l !! key x = Some (val x).
Proof.
  induction l as [|y l IH]; cbn [map foldl]; [by intros _ ?%elem_of_nil|].
  intros [Hy Hl]%NoDup_cons [->|Hx]%elem_of_cons m0.
  - rewrite foldl_insert_other by done. by rewrite lookup_insert_eq.
  - by apply IH.
Qed.

Lemma foldl_insert_keys {A B} (key : A -> string) (val : A -> B)
  (l : list A) (k : string) (v : B) :
  forall m0 : gmap string B,
    foldl (fun m x => <[key x := val x]> m) m0 l !! k = Some v ->
    m0 !! k = Some v \/ exists x, x ∈ l /\ key x = k.
Proof.
  induction l as [|y l IH]; intros m0; cbn [foldl]; [by left|].
  intros [Hm|(x & Hx & Hk)]%IH.
  - destruct (decide (key y = k)) as [Hy|Hy].
    + right. exists y. split; [by left|done].
    + left. by rewrite lookup_insert_ne in Hm.
  - right. exists x. split; [by right|done].
Qed.

(** A scored row carries the profit potential of its candidate, which is
    one of the rows loaded. *)
Lemma candidates_scored_elem (candidates : list ProductCandidate)
  (x : Z * ProductCandidate * Q) :
  x ∈ candidates_scored candidates ->
  snd x = profit_potential (snd (fst x)) /\ snd (fst x) ∈ candidates.
Proof.
  unfold candidates_scored. intros ([idx c] & -> & Hin)%list_elem_of_fmap.
  split; [done|]. cbn [fst snd].
  rewrite <- (enumerate_snd candidates 1). apply list_elem_of_fmap.
  by exists (idx, c).
Qed.

Lemma candidates_scored_rows (candidates : list ProductCandidate) :
  map (fun x => snd (fst x)) (candidates_scored candidates) = candidates.
Proof.
  unfold candidates_scored. rewrite map_map. cbn [fst snd].
  apply enumerate_snd.
Qed.

Lemma top_candidates_take (candidates : list ProductCandidate) :
  top_candidates candidates
  = take 1000 (sort_desc snd (candidates_scored candidates)).
Proof. done. Qed.

Lemma top_candidates_elem (candidates : list ProductCandidate)
  (x : Z * ProductCandidate * Q) :
  x ∈ top_candidates candidates -> x ∈ candidates_scored candidates.
Proof.
  rewrite top_candidates_take. intros Hx%subseteq_take.
  by apply sort_desc_elem_of in Hx.
Qed.

(** X17.  The filtered run keeps the 1000 candidates of highest profit
    potential (retail - wholesale) x base_demand, all of them when fewer
    are loaded, in non-increasing order of profit potential, and no
    candidate left out beats a kept one.  It builds one product for each
    kept candidate, with pairwise distinct ids, and [candidates_map] holds
    under every product's id the candidate whose prices, size, weight and
    base demand the product carries, and has no other keys. *)
Theorem load_and_optimize_selection (candidates : list ProductCandidate)
  (seasonal_factors : SeasonalFactors) :
  let kept := filtered candidates in
  let built := products candidates seasonal_factors in
  length kept = Nat.min 1000 (length candidates)
  /\ descending profit_potential kept
  /\ (exists dropped,
        kept ++ dropped ≡ₚ candidates
        /\ Forall (fun d =>
                     Forall (fun k => profit_potential d
                                      <= profit_potential k) kept)
                  dropped)
  /\ length built = length kept
  /\ NoDup (map id built)
  /\ (forall p, p ∈ built ->
        exists c,
          candidates_map candidates !! id p = Some c
          /\ c ∈ kept
          /\ wholesale_price p = productcreator.wholesale_price c
          /\ retail_price p = productcreator.retail_price c
          /\ size_cm3 p = productcreator.size_cm3 c
          /\ weight_g p = productcreator.weight_g c
          /\ base_demand (demand_forecast p) = productcreator.base_demand c)
  /\ (forall pid c, candidates_map candidates !! pid = Some c ->
                    exists p, p ∈ built /\ id p = pid).
Proof.
  cbv zeta.
  destruct (ranked_prefix snd 1000 (candidates_scored candidates))
    as (Hdesc & Hperm & Hdropped & _ & Hlength).
  rewrite <- top_candidates_take in Hdesc, Hperm, Hdropped, Hlength.
  assert (Hscore : Forall (fun x => snd x = profit_potential (snd (fst x)))
                     (sort_desc snd (candidates_scored candidates))).
  { apply Forall_forall. intros x Hx%sort_desc_elem_of.
    by apply candidates_scored_elem in Hx as [Hx _]. }
  assert (Hscore_kept : Forall (fun x => snd x
                                         = profit_potential (snd (fst x)))
                          (top_candidates candidates)).
  { apply Forall_forall. intros x Hx%top_candidates_elem.
    by apply candidates_scored_elem in Hx as [Hx _]. }
  assert (Hids : NoDup (map id (products candidates seasonal_factors))).
  { unfold products. rewrite map_map. cbn [id].
    apply (enumerate_keys_NoDup (filtered candidates)). }
  assert (Hbuilt : forall p,
             p ∈ products candidates seasonal_factors ->
             exists k x,
               top_candidates candidates !! k = Some x
               /\ id p = ("P" ++ format_06d (1 + Z.of_nat k))%string
               /\ wholesale_price p
                  = productcreator.wholesale_price (snd (fst x))
               /\ retail_price p = productcreator.retail_price (snd (fst x))
               /\ size_cm3 p = productcreator.size_cm3 (snd (fst x))
               /\ weight_g p = productcreator.weight_g (snd (fst x))
               /\ base_demand (demand_forecast p)
                  = productcreator.base_demand (snd (fst x))).
  { intros p Hp. unfold products in Hp.
    apply list_elem_of_fmap in Hp as ([idx c] & -> & Hin).
    apply list_elem_of_lookup in Hin as [k Hk].
    rewrite enumerate_lookup in Hk. unfold filtered in Hk.
    change (map ?f) with (fmap (M := list) f) in Hk.
    rewrite list_lookup_fmap in Hk.
    destruct (top_candidates candidates !! k) as [x|] eqn:Hx; [|done].
    cbn in Hk. injection Hk as <- <-. by exists k, x. }
  split; [|split; [|split; [|split; [|split; [|split]]]]].
  - unfold filtered. rewrite length_map, Hlength.
    unfold candidates_scored. by rewrite length_map, enumerate_length.
  - unfold filtered. apply descending_map.
    by apply (descending_ext snd).
  - exists (map (fun x => snd (fst x))
                (drop 1000 (sort_desc snd (candidates_scored candidates)))).
    split.
    + unfold filtered. rewrite <- map_app, Hperm.
      by rewrite candidates_scored_rows.
    + unfold filtered. apply Forall_forall.
      intros d (x & -> & Hx)%list_elem_of_fmap.
      apply Forall_forall. intros k (y & -> & Hy)%list_elem_of_fmap.
      rewrite Forall_forall in Hdropped, Hscore, Hscore_kept.
      pose proof (Hdropped x Hx) as Hle. rewrite Forall_forall in Hle.
      specialize (Hle y Hy).
      rewrite <- (Hscore x) by by eapply subseteq_drop.
      by rewrite <- (Hscore_kept y).
  - unfold products. by rewrite length_map, enumerate_length.
  - exact Hids.
  - intros p Hp.
    destruct (Hbuilt p Hp) as (k & x & Hx & Hid & Hfields).
    exists (snd (fst x)). split; [|split; [|exact Hfields]].
    + rewrite Hid. unfold candidates_map.
      apply (foldl_insert_lookup
               (fun it : Z * (Z * ProductCandidate * Q) =>
                  ("P" ++ format_06d (fst it))%string)
               (fun it => snd (fst (snd it)))
               (enumerate (top_candidates candidates) 1)
               ((1 + Z.of_nat k)%Z, x)).
      * apply (enumerate_keys_NoDup (top_candidates candidates)).
      * apply list_elem_of_lookup. exists k.
        by rewrite enumerate_lookup, Hx.
    + unfold filtered. apply list_elem_of_fmap. exists x.
      split; [done|]. by eapply list_elem_of_lookup_2.
  - intros pid c Hc. unfold candidates_map in Hc.
    apply (foldl_insert_keys
             (fun it : Z * (Z * ProductCandidate * Q) =>
                ("P" ++ format_06d (fst it))%string)
             (fun it => snd (fst (snd it)))) in Hc
      as [Hc|([idx x] & Hin & Hkey)]; [by rewrite lookup_empty in Hc|].
    apply list_elem_of_lookup in Hin as [k Hk].
    rewrite enumerate_lookup in Hk.
    destruct (top_candidates candidates !! k) as [y|] eqn:Hy; [|done].
    cbn in Hk. injection Hk as <- <-. cbn [fst] in Hkey.
    eexists. split.
    + unfold products. apply list_elem_of_fmap.
      exists ((1 + Z.of_nat k)%Z, snd (fst y)). split; [reflexivity|].
      apply list_elem_of_lookup. exists k.
      rewrite enumerate_lookup. unfold filtered.
      change (map ?f) with (fmap (M := list) f).
      by rewrite list_lookup_fmap, Hy.
    + exact Hkey.
Qed.
End PreFilter.

(** * Edge behaviour *)

(** ** Demand against size and weight *)

Section DemandShape.
Import samples.
Local Open Scope Q_scope.

Lemma Py_max_mono (a b b' : Q) : b' <= b -> Py.max a b' <= Py.max a b.
Proof.
  intros Hb. unfold Py.max.
  destruct (Py.lt a b') eqn:H1, (Py.lt a b) eqn:H2;
    rewrite ?Py_lt_iff, ?Py_lt_false in *; lra.
Qed.

Lemma Py_min_mono (a a' c : Q) : a' <= a -> Py.min a' c <= Py.min a c.
Proof.
  intros Ha. unfold Py.min.
  destruct (Py.lt c a') eqn:H1, (Py.lt c a) eqn:H2;
    rewrite ?Py_lt_iff, ?Py_lt_false in *; lra.
Qed.

(** X18.  For a price whose tier has a non-negative demand (base demand
    times multiplier), a larger size or a larger weight never raises the
    estimated demand. *)
Theorem estimate_base_demand_antitone
  (wholesale size size' weight weight' : Q) (app_config : AppConfig) :
  size <= size' -> weight <= weight' ->
  (forall tier, get_demand_tier wholesale app_config = Some tier ->
                0 <= base_demand_monthly tier * demand_multiplier tier) ->
  estimate_base_demand wholesale size' weight' app_config
  <= estimate_base_demand wholesale size weight app_config.
Proof.
  intros Hsize Hweight Hbase. unfold estimate_base_demand.
  destruct (get_demand_tier wholesale app_config) as [tier|]; [|lra].
  specialize (Hbase tier eq_refl). cbv zeta.
  apply Py_min_mono, Py_max_mono. revert Hbase.
  generalize (base_demand_monthly tier * demand_multiplier tier).
  intros b Hb. unfold Py.gt.
  assert (Hkg : weight / 1000 <= weight' / 1000).
  { apply Qmult_le_compat_r; [done|discriminate]. }
  revert Hkg. generalize (weight / 1000), (weight' / 1000).
  intros kg kg' Hkg.
  destruct (Py.lt 20000 size) eqn:H1, (Py.lt 20000 size') eqn:H2,
           (Py.lt 20 kg) eqn:H3, (Py.lt 20 kg') eqn:H4;
    rewrite ?Py_lt_iff, ?Py_lt_false in *; lra.
Qed.

Lemma estimate_base_demand_antitone_witness :
  estimate_base_demand 75 30000 1000 default_app_config
  <= estimate_base_demand 75 1000 1000 default_app_config.
Proof.
  apply estimate_base_demand_antitone; [discriminate|discriminate|].
  intros tier [= <-]. discriminate.
Defined.
End DemandShape.

(** ** Forecasts outside the seasonal table *)

Section ForecastEdges.
Import pywraplp spcplan plan_samples.
Local Open Scope Q_scope.



End ForecastEdges.

(** ** Empty horizons and empty product lists *)

Section EmptyRuns.
Import pywraplp spcplan plan_samples.
Context {S V : Type} `{!Solver S V}.
Local Open Scope Q_scope.

Lemma months_empty (self : @PurchaseOrderOptimizer S V) :
  (planning_months (config self) <= 0)%Z -> months self = [].
Proof. intros Hn. unfold months, range. apply seqZ_nil. lia. Qed.

Lemma extract_totals_empty_horizon (self : @PurchaseOrderOptimizer S V)
  (products : list Product) (r : report) :
  months self = [] -> foldl (extract_total self) r products = r.
Proof.
  intros Hmonths. induction products as [|p products IH]; cbn [foldl];
    [done|].
  unfold extract_total at 2. rewrite Hmonths. cbn [foldl fst]. exact IH.
Qed.

(** X20.  With [planning_months] of 0 or less extraction returns no
    purchase orders, no monthly breakdown and no product totals.  With an
    empty product list it returns no product totals, every month's purchase
    orders are empty and every month's summary has no items, total costs 0
    and net profit 0. *)
Theorem extract_results_empty
  (self : @PurchaseOrderOptimizer S V) (products : list Product)
  (solver_status : Z) (r : report) :
  _extract_results self products solver_status = Ret r ->
  ((planning_months (config self) <= 0)%Z ->
   purchase_orders r = ∅ /\ monthly_breakdown r = ∅
   /\ product_totals r = ∅)
  /\ (products = [] ->
      product_totals r = ∅
      /\ (forall m by_id, purchase_orders r !! m = Some by_id -> by_id = ∅)
      /\ (forall m summary,
            monthly_breakdown r !! m = Some summary ->
            month_items_ordered summary = 0%nat
            /\ month_total_costs summary == 0
            /\ month_net_profit summary == 0)).
Proof.
  intros Hrun.
  destruct (solved (classify solver_status)) eqn:Hsolved.
  2:{ unfold _extract_results in Hrun. rewrite Hsolved in Hrun.
      cbn [obind] in Hrun. injection Hrun as <-. cbn.
      split; [done|]. intros _. split; [done|].
      split; intros m x Hm; by rewrite lookup_empty in Hm. }
  split.
  - intros Hmonths%months_empty. revert Hrun.
    unfold _extract_results. rewrite Hsolved, Hmonths.
    destruct (the_solver self) as [s|]; [|done]. cbn [obind].
    destruct (Objective_Value s) as [objective|]; [|done].
    cbn [obind for_each]. rewrite extract_totals_empty_horizon by done.
    by intros [= <-].
  - intros ->.
    destruct (extract_results_orders self [] solver_status r Hsolved Hrun)
      as [Hback _].
    destruct (extract_results_breakdown self [] solver_status r Hsolved Hrun)
      as [_ Hsummaries].
    assert (Hnone : forall m by_id,
               purchase_orders r !! m = Some by_id -> by_id = ∅).
    { intros m by_id Hm. apply map_empty. intros pid.
      destruct (by_id !! pid) as [o|] eqn:Ho; [|done].
      destruct (Hback m by_id pid o Hm Ho) as (p & Hp & _).
      by apply elem_of_nil in Hp. }
    split; [|split; [exact Hnone|]].
    + revert Hrun. unfold _extract_results. rewrite Hsolved.
      destruct (the_solver self) as [s|]; [|done]. cbn [obind].
      destruct (Objective_Value s) as [objective|]; [|done]. cbn [obind].
      match goal with |- context [for_each ?l ?body ?init] =>
        destruct (for_each l body init) as [r1|] eqn:Hloop; [|done] end.
      cbn [obind foldl]. intros [= <-]. revert Hloop.
      apply (for_each_invariant (fun r0 => product_totals r0 = ∅)); [|done].
      intros m r0 r1' Hr0 Hstep.
      by rewrite (extract_month_totals _ _ _ _ _ Hstep).
    + intros m summary Hm.
      destruct (Hsummaries m summary Hm)
        as [Hacc (orders & Horders & Hitems)].
      rewrite (Hnone m orders Horders) in Hitems.
      split; [by rewrite Hitems|].
      unfold month_accounted in Hacc. cbv zeta in Hacc.
      cbn [total_over foldr] in Hacc.
      destruct Hacc as (Hc & Hr & Hw & Hv & _ & Hws & Hvs & Hd & Ht & Hn).
      assert (Hduty : month_customs_duty summary == 0).
      { rewrite Hd. destruct (crosses_border _); [rewrite Hc; ring|reflexivity]. }
      assert (Htotal : month_total_costs summary == 0).
      { rewrite Ht, Hws, Hvs, Hduty, Hc, Hw, Hv. ring. }
      split; [exact Htotal|]. rewrite Hn, Hr, Htotal. ring.
Qed.

End EmptyRuns.

Section EmptyRunsWitnesses.
Import pywraplp spcplan plan_samples.
Local Open Scope Q_scope.

Lemma extract_results_empty_witness :
  exists r,
    _extract_results (Solver0 := recorder scenario_engine)
      (planned one_month []) [] pywraplp.OPTIMAL = Ret r
    /\ product_totals r = ∅
    /\ purchase_orders r !! 1%Z = Some ∅.
Proof.
  destruct (_extract_results (Solver0 := recorder scenario_engine)
              (planned one_month []) [] pywraplp.OPTIMAL)
    as [r|e] eqn:Hr; [|vm_compute in Hr; discriminate Hr].
  destruct (extract_results_empty (Solver0 := recorder scenario_engine)
              (planned one_month []) [] pywraplp.OPTIMAL r Hr)
    as [_ Hempty].
  destruct (Hempty eq_refl) as (Htotals & Horders & _).
  exists r. split; [reflexivity|]. split; [exact Htotals|].
  destruct (purchase_orders r !! 1%Z) as [by_id|] eqn:Hmonth.
  - by rewrite (Horders 1%Z by_id Hmonth).
  - vm_compute in Hr. injection Hr as <-. discriminate Hmonth.
Defined.
End EmptyRunsWitnesses.

(** ** The variables of the model *)

Section ModelVariables.
Import pywraplp PrimFloat spcplan64.

(** X13.  When [_create_variables] returns on a solver that had no
    variables, for products with pairwise distinct ids, the model has one
    variable for every product and month of 1..planning_months and no
    other; the variable stored at [variables[p.id][m]] is the one declared
    for [p] and [m], named q_{p.id}_m{m} with bounds 0 and the truncated
    float product forecast * demand_multiplier * demand_buffer, and
    different pairs of product and month have different variables. *)
Theorem create_variables_handles
  (engine : model -> answer) `{!Py64.Libm}
  (self self' : @PurchaseOrderOptimizer model nat) (s : model)
  (products : list Product) :
  solver self = Some s -> model_vars s = [] ->
  NoDup (map id products) ->
  _create_variables (Solver0 := recorder engine) self products = Ret self' ->
  exists built,
    solver self' = Some built
    /\ length (model_vars built)
       = (length products * Z.to_nat (planning_months (config self)))%nat
    /\ (forall p m,
          p ∈ products -> (1 <= m <= planning_months (config self))%Z ->
          exists v trend decl,
            variable self' (id p) m = Ret v
            /\ model_vars built !! v = Some decl
            /\ Py64.pow (trend_factor (demand_forecast p)) (m - 1) = Ret trend
            /\ var_label decl = q_ (id p) m
            /\ var_lb decl = 0%Z
            /\ Py64.int
                 (mul (mul (mul (mul (base_demand (demand_forecast p))
                                     (get (seasonal_factors
                                             (demand_forecast p)) m))
                                trend)
                           (demand_multiplier (config self)))
                      (demand_buffer (demand_forecast p)))
               = Ret (var_ub decl))
    /\ (forall p p' m m',
          p ∈ products -> p' ∈ products ->
          (1 <= m <= planning_months (config self))%Z ->
          (1 <= m' <= planning_months (config self))%Z ->
          quantity_of self' (id p) m = quantity_of self' (id p') m' ->
          p = p' /\ m = m').
Proof.
  intros Hs Hvars Hids Hret.
  pose proof (create_variables_recorded engine self s products Hs) as Hrun.
  destruct (declarations (config self) products) as [decls|e] eqn:Hdecls;
    [|congruence].
  destruct Hrun as (self1 & Hrun & _ & Hs' & Hbound).
  rewrite Hret in Hrun. injection Hrun as <-.
  destruct (declarations_elem _ _ _ Hdecls) as (_ & Hfrom & Hlen).
  eexists. split; [exact Hs'|].
  cbn [model_vars spcplan.declare]. rewrite Hvars, app_nil_l.
  assert (Hhandle : forall p m,
             p ∈ products -> (1 <= m <= planning_months (config self))%Z ->
             exists v decl,
               variable self' (id p) m = Ret v
               /\ decls !! v = Some decl
               /\ declaration (config self) p m = Ret decl).
  { intros p m Hp Hm.
    destruct (Hbound p m Hp)
      as (s0 & d & v & decl & Hs0 & Hd & Hv & Hdecl & Hlabel);
      [apply elem_of_range; lia|].
    rewrite Hs' in Hs0. injection Hs0 as <-.
    cbn [model_vars spcplan.declare] in Hdecl.
    rewrite Hvars, app_nil_l in Hdecl.
    exists v, decl. split; [unfold variable; by rewrite Hd, Hv|].
    split; [done|].
    destruct (Hfrom decl) as (p' & m' & Hp' & Hm' & Hdecl');
      [by eapply list_elem_of_lookup_2|].
    destruct (declaration_label _ _ _ _ Hdecl') as [Hlabel' _].
    rewrite Hlabel in Hlabel'. injection Hlabel' as Hid ->.
    by rewrite (NoDup_fmap_eq id products p p' Hids Hp Hp' Hid). }
  split; [exact Hlen|]. split.
  - intros p m Hp Hm.
    destruct (Hhandle p m Hp Hm) as (v & decl & Hv & Hdecl & Hd).
    destruct (declaration_inv _ _ _ _ Hd)
      as (trend & Hpow & Hlabel & Hlb & Hint).
    by exists v, trend, decl.
  - intros p p' m m' Hp Hp' Hm Hm' Hsame.
    destruct (Hhandle p m Hp Hm) as (v & decl & Hv & Hdecl & Hd).
    destruct (Hhandle p' m' Hp' Hm') as (v' & decl' & Hv' & Hdecl' & Hd').
    unfold quantity_of in Hsame. rewrite Hv, Hv' in Hsame. subst v'.
    rewrite Hdecl' in Hdecl. injection Hdecl as ->.
    destruct (declaration_label _ _ _ _ Hd) as [Hlabel _].
    destruct (declaration_label _ _ _ _ Hd') as [Hlabel' _].
    rewrite Hlabel in Hlabel'. injection Hlabel' as Hid Hmonth.
    split; [|done]. by apply (NoDup_fmap_eq id products).
Qed.
End ModelVariables.

Section ModelVariablesWitnesses.
Import pywraplp PrimFloat spcplan64 samples64.

Lemma create_variables_handles_witness :
  exists self' built decl,
    _create_variables (Solver0 := recorder plan_samples.scenario_engine)
                      (ready (horizon 2)) [widget] = Ret self'
    /\ solver self' = Some built
    /\ length (model_vars built) = 2%nat
    /\ model_vars built !! quantity_of self' "P000001" 2 = Some decl
    /\ var_label decl = q_ "P000001" 2
    /\ var_ub decl = 150%Z.
Proof.
  destruct (_create_variables (Solver0 := recorder plan_samples.scenario_engine)
              (ready (horizon 2)) [widget]) as [self'|e] eqn:Hrun;
    [|vm_compute in Hrun; discriminate Hrun].
  destruct (create_variables_handles plan_samples.scenario_engine
              (ready (horizon 2)) self' empty_model [widget]
              eq_refl eq_refl)
    as (built & Hs' & Hlen & Hhandle & _).
  { repeat constructor. by intros ?%elem_of_nil. }
  { exact Hrun. }
  destruct (Hhandle widget 2%Z)
    as (v & trend & decl & Hv & Hdecl & Hpow & Hlabel & _ & Hint);
    [by left|done|].
  exists self', built, decl. split; [reflexivity|]. split; [exact Hs'|].
  split; [exact Hlen|]. split.
  { unfold quantity_of. change (id widget) with "P000001" in Hv.
    by rewrite Hv. }
  split; [exact Hlabel|].
  injection Hpow as <-. vm_compute in Hint. injection Hint as Hub.
  symmetry. exact Hub.
Defined.
End ModelVariablesWitnesses.

Section BatchWitnesses.
Import pywraplp spcplan plan_samples samples.
Local Open Scope Q_scope.

Lemma products_of_ids_witness :
  batch_optimizer.products_of [single_candidate 320]
    {| factors := default_factors |} !! 0%nat
  = Some (batch_optimizer.candidate_to_product (single_candidate 320) 1
            {| factors := default_factors |}).
Proof.
  destruct (products_of_ids [single_candidate 320]
              {| factors := default_factors |}) as (_ & _ & Hlookup).
  exact (Hlookup 0%nat (single_candidate 320) eq_refl).
Defined.

Lemma load_and_optimize_selection_witness :
  exists c,
    filtered_optimizer.candidates_map [single_candidate 320]
      !! "P000001"%string = Some c
    /\ productcreator.base_demand c = 320.
Proof.
  destruct (load_and_optimize_selection [single_candidate 320]
              {| factors := default_factors |})
    as (_ & _ & _ & _ & _ & Hmap & _).
  destruct (Hmap (batch_optimizer.candidate_to_product
                    (single_candidate 320) 1
                    {| factors := default_factors |}))
    as (c & Hc & _ & _ & _ & _ & _ & Hdemand).
  { apply (list_elem_of_lookup_2 _ 0%nat). reflexivity. }
  exists c. split; [exact Hc|]. by rewrite <- Hdemand.
Defined.
End BatchWitnesses.
